(** * Kredensial Perawat: identity records, session tokens and the
      role-based authorization middleware

    A shallow embedding of the backend's access-control code:

    - [backend/config/roles.js]          (module [Roles])
    - [backend/models/user.js]           (module [UserModel])
    - [backend/middleware/roleAuth.js]   (module [RoleAuth])
    - [backend/routes/auth.js]           (module [AuthRoutes])
    - [backend/server.js]                (module [Server])
    - [backend/routes/users.js]          (module [UsersRoutes])
    - [backend/routes/exams.js]          (module [ExamRoutes])
    - [backend/routes/files.js],
      [backend/models/file.js]           (module [FileRoutes])

    Conventions.  A JavaScript string is a [string] of 8-bit code units.
    An optional property is an [option]; a JavaScript object used as a
    table is a finite map over its own keys.  Asynchronous functions are
    written in direct style: every handler runs to completion, the
    collection is threaded through explicitly, and an exception is the
    [inl] branch of a sum.  [now] is [Date.now()], in milliseconds. *)

From Stdlib Require Import ZArith Ascii String List Bool Lia.
From stdpp Require Import base option list sorting gmap strings pretty.

Local Open Scope Z_scope.

(** ** JavaScript strings *)

Module Js.

(** The double quote, used inside the messages built from template
    literals. *)
Definition dq : string := String "034"%char "".

(** [!s] for an optional string property: absent or empty. *)
Definition falsy (o : option string) : bool :=
  match o with
  | Some s => bool_decide (s = "")
  | None => true
  end.

Definition truthy (o : option string) : bool := negb (falsy o).

(** [Array.prototype.includes] on an array of strings. *)
Definition includes (l : list string) (x : string) : bool :=
  bool_decide (x ∈ l).

(** [s.split(sep)] for a one-character separator. *)
Fixpoint split (sep : ascii) (s : string) : list string :=
  match s with
  | "" => [""]
  | String c rest =>
      if bool_decide (c = sep) then "" :: split sep rest
      else match split sep rest with
           | w :: ws => String c w :: ws
           | [] => [String c ""]
           end
  end.

(** [l.join(sep)]. *)
Fixpoint join (sep : string) (l : list string) : string :=
  match l with
  | [] => ""
  | [x] => x
  | x :: rest => x +:+ sep +:+ join sep rest
  end.

(** [s.startsWith(p)]. *)
Fixpoint startsWith (p s : string) : bool :=
  match p, s with
  | "", _ => true
  | String a p', String b s' => bool_decide (a = b) && startsWith p' s'
  | String _ _, "" => false
  end.

(** [s.includes(sub)] on strings. *)
Fixpoint contains (sub s : string) : bool :=
  startsWith sub s ||
  match s with
  | String _ rest => contains sub rest
  | "" => false
  end.

Definition code (c : ascii) : N := N_of_ascii c.

(** White space as matched by [\s] and removed by [trim], within the
    8-bit range. *)
Definition is_space (c : ascii) : bool :=
  let n := code c in
  ((9 <=? n) && (n <=? 13) || (n =? 32) || (n =? 160))%N.

Definition is_digit (c : ascii) : bool :=
  let n := code c in ((48 <=? n) && (n <=? 57))%N.

Definition digit_value (c : ascii) : Z := Z.of_N (code c) - 48.

Fixpoint trimStart (s : string) : string :=
  match s with
  | String c rest => if is_space c then trimStart rest else s
  | "" => ""
  end.

Definition trim (s : string) : string :=
  String.rev (trimStart (String.rev (trimStart s))).

Definition lower (c : ascii) : ascii :=
  let n := code c in
  if ((65 <=? n) && (n <=? 90) ||
      (192 <=? n) && (n <=? 222) && negb (n =? 215))%N
  then ascii_of_N (n + 32) else c.

Fixpoint toLowerCase (s : string) : string :=
  match s with
  | "" => ""
  | String c rest => String (lower c) (toLowerCase rest)
  end.

Fixpoint drop (n : nat) (s : string) : string :=
  match n, s with
  | S n', String _ rest => drop n' rest
  | _, _ => s
  end.

(** [s.replace(pattern, replacement)] for a string pattern: the first
    occurrence only. *)
Fixpoint replace (pattern replacement s : string) : string :=
  if startsWith pattern s
  then replacement +:+ drop (String.length pattern) s
  else match s with
       | String c rest => String c (replace pattern replacement rest)
       | "" => ""
       end.

Fixpoint repeat (c : ascii) (n : nat) : string :=
  match n with
  | O => ""
  | S n' => String c (repeat c n')
  end.

(** [s.padStart(targetLength, c)] for a one-character filler. *)
Definition padStart (targetLength : nat) (c : ascii) (s : string) : string :=
  repeat c (targetLength - String.length s) +:+ s.

(** The value of the leading decimal digits, most significant first. *)
Fixpoint digits (acc : Z) (cs : list ascii) : Z :=
  match cs with
  | c :: rest =>
      if is_digit c
      then digits (10 * acc + digit_value c) rest
      else acc
  | [] => acc
  end.

Definition leading_digit (cs : list ascii) : bool :=
  match cs with
  | c :: _ => is_digit c
  | [] => false
  end.

(** [parseInt(s, 10)]; [None] is [NaN]. *)
Definition parseInt (s : string) : option Z :=
  let cs := list_ascii_of_string (trimStart s) in
  let '(sign, cs) :=
    match cs with
    | c :: rest =>
        if bool_decide (c = "-"%char) then (-1, rest)
        else if bool_decide (c = "+"%char) then (1, rest)
        else (1, cs)
    | [] => (1, cs)
    end in
  if leading_digit cs then Some (sign * digits 0 cs) else None.

(** [n.toString()] for an integral number or [NaN]. *)
Definition toString (n : option Z) : string :=
  match n with
  | Some z => pretty z
  | None => "NaN"
  end.

(** The value of a hexadecimal digit. *)
Definition hex_value (c : ascii) : option Z :=
  let n := code c in
  if is_digit c then Some (Z.of_N n - 48)
  else if ((97 <=? n) && (n <=? 102))%N then Some (Z.of_N n - 87)
  else if ((65 <=? n) && (n <=? 70))%N then Some (Z.of_N n - 55)
  else None.

Fixpoint hex_digits (acc : Z) (cs : list ascii) : Z :=
  match cs with
  | c :: rest =>
      match hex_value c with
      | Some v => hex_digits (16 * acc + v) rest
      | None => acc
      end
  | [] => acc
  end.

(** [parseInt(s)] with no radix: a [0x] prefix selects base 16.  An
    argument that is [undefined] reads as the text "undefined" and gives
    [NaN]. *)
Definition parseInt_any (s : option string) : option Z :=
  match s with
  | None => None
  | Some s =>
      let cs := list_ascii_of_string (trimStart s) in
      let '(sign, cs) :=
        match cs with
        | c :: rest =>
            if bool_decide (c = "-"%char) then (-1, rest)
            else if bool_decide (c = "+"%char) then (1, rest)
            else (1, cs)
        | [] => (1, cs)
        end in
      let decimal :=
        if leading_digit cs then Some (sign * digits 0 cs) else None in
      match cs with
      | z :: x :: rest =>
          if bool_decide (z = "0"%char) &&
             (bool_decide (x = "x"%char) || bool_decide (x = "X"%char))
          then match rest with
               | c :: _ =>
                   match hex_value c with
                   | Some _ => Some (sign * hex_digits 0 rest)
                   | None => None
                   end
               | [] => None
               end
          else decimal
      | _ => decimal
      end
  end.


(** A string that is empty or starts with something other than [N]. *)
Definition unprefixed (s : string) : Prop :=
  match s with
  | "" => True
  | String c _ => c ≠ "N"%char
  end.

End Js.

(** ** JSON values, responses *)

#[warnings="-register-all"]
Inductive json : Type :=
| JNull
| JBool (b : bool)
| JNum (n : Z)
| JStr (s : string)
| JArr (items : list json)
| JObj (fields : list (string * json)).

Definition JStrs (l : list string) : json := JArr (JStr <$> l).

(** A property whose value may be [undefined] is left out by
    [JSON.stringify]. *)
Definition opt_field (k : string) (o : option string) : list (string * json) :=
  match o with
  | Some s => [(k, JStr s)]
  | None => []
  end.

(** What [res.status(n).json(body)] sends. *)
Record Response := mkResponse {
  status : Z;
  body : list (string * json);
}.

Definition failure (code : Z) (msg : string) : Response :=
  mkResponse code [("success", JBool false); ("message", JStr msg)].

(** The first value stored under a key of a JSON object. *)
Fixpoint field (k : string) (o : list (string * json)) : option json :=
  match o with
  | [] => None
  | (k', v) :: rest => if bool_decide (k = k') then Some v else field k rest
  end.

(** Truthiness of a value read from a JSON body; [None] is
    [undefined]. *)
Definition truthy_value (v : option json) : bool :=
  match v with
  | None | Some JNull => false
  | Some (JBool b) => b
  | Some (JNum n) => negb (bool_decide (n = 0))
  | Some (JStr s) => negb (bool_decide (s = ""))
  | Some (JArr _) | Some (JObj _) => true
  end.

(** [o[k] = v] on a JSON object: the value of an existing key is
    replaced in place, a new key comes last. *)
Fixpoint set_field (k : string) (v : json) (o : list (string * json))
  : list (string * json) :=
  match o with
  | [] => [(k, v)]
  | (k', v') :: rest =>
      if bool_decide (k = k') then (k, v) :: rest
      else (k', v') :: set_field k v rest
  end.

(** ** The libraries the code calls

    [jsonwebtoken], [bcryptjs] and the ORM's casting of request values are
    collaborators of this code.  Their behaviour is a parameter of the
    development: a token on the wire is decoded by [jwt_parse] into what
    was signed, and [jwt_render] is the encoder. *)

(** The identity bundle a token or a request carries.  Every property
    may be absent. *)
Module Claims.
Record t := mk {
  id : option string;
  username : option string;
  email : option string;
  role : option string;
  fullName : option string;
  unit : option string;
  permissions : option (list string);
  npk : option string;
  isActive : option bool;
  lastLogin : option Z;
}.

Definition empty : t :=
  mk None None None None None None None None None None.
End Claims.

(** A decoded token payload: the bundle nested under [user], the
    properties found at top level, and [userId]. *)
Record Payload := mkPayload {
  p_user : option Claims.t;
  p_flat : Claims.t;
  p_userId : option string;
}.

(** What a rejected promise carries. *)
Inductive Error : Type :=
| Thrown (message : string)
    (* [new Error(message)] *)
| Rethrown (prefix : string) (cause : Error)
    (* [new Error(`${prefix}${cause.message}`)] *)
| ValidationError (paths : list string)
    (* document or update validation failed on these paths *)
| DuplicateKey (keyPattern : string)
    (* [error.code === 11000] *)
| CastError (path : string)
| DocumentNotFound.

Definition Result (A : Type) : Type := Error + A.

(** What a compact token stands for: the signed payload, the key it was
    signed with, and the [iat] and [exp] claims. *)
Record Jwt := mkJwt {
  jwt_payload : Payload;
  jwt_key : string;
  jwt_iat : Z;
  jwt_exp : option Z;
}.

Record Library := mkLibrary {
  jwt_render : Jwt → string;
  jwt_parse : string → option Jwt;
  bcrypt_hash : string → string;
  bcrypt_compare : string → string → bool;
  cast_string : json → option string;
  cast_boolean : json → option bool;
  cast_date : json → option Z;
  cast_strings : json → option (list string);
  describe : Error → string;       (* the message of an ORM error *)
  stack : Error → string;          (* [err.stack] *)
}.

(** [err.message] *)
Fixpoint message (L : Library) (e : Error) : string :=
  match e with
  | Thrown m => m
  | Rethrown prefix cause => prefix +:+ message L cause
  | _ => describe L e
  end.

(** ** backend/config/roles.js *)

Module Roles.

Definition rolePermissions : gmap string (list string) :=
  list_to_map
    [ ("admin", [ "view_credentials"; "create_credentials";
                  "edit_credentials"; "delete_credentials";
                  "manage_users"; "view_reports"; "system_settings" ]);
      ("mitra", [ "view_credentials"; "create_credentials";
                  "edit_credentials"; "view_reports" ]);
      ("perawat", [ "view_credentials"; "create_credentials" ]) ].

Definition roleHierarchy : gmap string Z :=
  list_to_map [ ("perawat", 1); ("mitra", 2); ("admin", 3) ].

Definition roleRedirects : gmap string string :=
  list_to_map [ ("admin", "/dashboard-kepala-unit");
                ("mitra", "/dashboard-mitra-bestari");
                ("perawat", "/dashboard-perawat") ].

(** [table[role]] where [role] may be [undefined]. *)
Definition at_role {A} (table : gmap string A) (role : option string)
  : option A :=
  r ← role; table !! r.

(** [rolePermissions[role] || []] *)
Definition getRolePermissions (role : option string) : list string :=
  default [] (at_role rolePermissions role).


(** [roleRedirects[role] || "/"] *)
Definition getRoleRedirectUrl (role : option string) : string :=
  match at_role roleRedirects role with
  | Some url => if bool_decide (url = "") then "/" else url
  | None => "/"
  end.

Definition hasPermission (userRole : option string)
    (requiredPermission : string) : bool :=
  Js.includes (getRolePermissions userRole) requiredPermission.


Definition menuAccess : gmap string (list string) :=
  list_to_map
    [ ("admin", [ "dashboard"; "credentials"; "users"; "reports";
                  "settings"; "profile" ]);
      ("mitra", [ "dashboard"; "credentials"; "reports"; "profile" ]);
      ("perawat", [ "dashboard"; "credentials"; "profile" ]);
      ("nurse", [ "dashboard"; "credentials"; "profile" ]) ].

(** [menuAccess[role] || []] *)
Definition getMenuAccess (role : option string) : list string :=
  default [] (at_role menuAccess role).


End Roles.

(** ** backend/models/user.js *)

Module UserModel.

(** The schema's paths. *)
Record User := mkUser {
  _id : string;
  id : string;
  username : string;
  fullName : option string;
  email : string;
  password : option string;
  npk : option string;
  role : string;
  permissions : list string;
  unit : option string;
  isActive : bool;
  lastLogin : option Z;
  createdAt : Z;
  updatedAt : Z;
}.

(** The collection, in natural order. *)
Definition Collection : Type := list User.

(** A document: the values it holds, whether it has yet to be
    inserted, whether [password] ([select: false]) is loaded, and the
    paths assigned since it was loaded. *)
Record Doc := mkDoc {
  data : User;
  isNew : bool;
  withPassword : bool;
  modifiedPaths : list string;
}.

Definition isModified (d : Doc) (path : string) : bool :=
  Js.includes (modifiedPaths d) path.

(** *** Schema validators *)

Definition chars (s : string) : list ascii := list_ascii_of_string s.

(** [/^NPK\d{4}$/.test(v)] *)
Definition npk_format (v : string) : bool :=
  match chars v with
  | [c1; c2; c3; d1; d2; d3; d4] =>
      bool_decide (c1 = "N"%char) && bool_decide (c2 = "P"%char) &&
      bool_decide (c3 = "K"%char) &&
      Js.is_digit d1 && Js.is_digit d2 && Js.is_digit d3 && Js.is_digit d4
  | _ => false
  end.

(** A character of the class [[^\s@]]. *)
Definition plain (c : ascii) : bool :=
  negb (Js.is_space c) && negb (bool_decide (c = "@"%char)).

(** [[^\s@]+\.[^\s@]+$] on what follows the [@]: the dot may be any
    dot that is neither first nor last. *)
Definition domain_format (d : list ascii) : bool :=
  forallb plain d &&
  match d with
  | _ :: rest => existsb (λ c, bool_decide (c = "."%char)) (removelast rest)
  | [] => false
  end.

(** [/^[^\s@]+@[^\s@]+\.[^\s@]+$/.test(email)] *)
Definition email_format (email : string) : bool :=
  match Js.split "@" email with
  | [l; d] =>
      negb (bool_decide (l = "")) && forallb plain (chars l) &&
      domain_format (chars d)
  | _ => false
  end.

Definition roleEnum : list string :=
  ["admin"; "mitra"; "perawat"; "kepala-unit"].

Definition permissionEnum : list string :=
  [ "view_credentials"; "create_credentials"; "edit_credentials";
    "delete_credentials"; "manage_users"; "view_reports";
    "system_settings" ].

Definition len (s : string) : Z := Z.of_nat (String.length s).

Definition username_ok (v : string) : bool :=
  negb (bool_decide (v = "")) && (3 <=? len v) && (len v <=? 30).

Definition fullName_ok (v : option string) : bool :=
  match v with Some s => len s <=? 100 | None => true end.

Definition email_ok (v : string) : bool :=
  negb (bool_decide (v = "")) && email_format v.

Definition password_ok (v : option string) : bool :=
  match v with Some s => negb (bool_decide (s = "")) && (8 <=? len s)
             | None => false end.

(** [required: function () { return this.role === "perawat" }] and the
    format validator, which runs on every value that is present. *)
Definition npk_ok (role : string) (v : option string) : bool :=
  match v with
  | Some s => npk_format s
  | None => negb (bool_decide (role = "perawat"))
  end.

Definition role_ok (v : string) : bool := Js.includes roleEnum v.

Definition permissions_ok (v : list string) : bool :=
  forallb (Js.includes permissionEnum) v.

(** [required] when the role is [perawat] or [kepala-unit]. *)
Definition unit_ok (role : string) (v : option string) : bool :=
  negb (bool_decide (role = "perawat") || bool_decide (role = "kepala-unit"))
  || Js.truthy v.

Definition failing (path : string) (ok : bool) : list string :=
  if ok then [] else [path].

(** Document validation as [save] runs it: every path of the document
    is checked; [password] only when it was loaded or assigned.  The
    result lists the failing paths. *)
Definition validate (d : Doc) : list string :=
  let u := data d in
  failing "username" (username_ok (username u)) ++
  failing "fullName" (fullName_ok (fullName u)) ++
  failing "email" (email_ok (email u)) ++
  failing "password"
    (negb (withPassword d || isModified d "password")
     || password_ok (password u)) ++
  failing "npk" (npk_ok (role u) (npk u)) ++
  failing "role" (role_ok (role u)) ++
  failing "permissions" (permissions_ok (permissions u)) ++
  failing "unit" (unit_ok (role u) (unit u)).

(** *** Assignments *)

Definition set_id v u :=
  let 'mkUser a _ c d e f g h i j k l m n := u in
  mkUser a v c d e f g h i j k l m n.
Definition set_username v u :=
  let 'mkUser a b _ d e f g h i j k l m n := u in
  mkUser a b v d e f g h i j k l m n.
Definition set_fullName v u :=
  let 'mkUser a b c _ e f g h i j k l m n := u in
  mkUser a b c v e f g h i j k l m n.
Definition set_email v u :=
  let 'mkUser a b c d _ f g h i j k l m n := u in
  mkUser a b c d v f g h i j k l m n.
Definition set_password v u :=
  let 'mkUser a b c d e _ g h i j k l m n := u in
  mkUser a b c d e v g h i j k l m n.
Definition set_npk v u :=
  let 'mkUser a b c d e f _ h i j k l m n := u in
  mkUser a b c d e f v h i j k l m n.
Definition set_role v u :=
  let 'mkUser a b c d e f g _ i j k l m n := u in
  mkUser a b c d e f g v i j k l m n.
Definition set_permissions v u :=
  let 'mkUser a b c d e f g h _ j k l m n := u in
  mkUser a b c d e f g h v j k l m n.
Definition set_unit v u :=
  let 'mkUser a b c d e f g h i _ k l m n := u in
  mkUser a b c d e f g h i v k l m n.
Definition set_isActive v u :=
  let 'mkUser a b c d e f g h i j _ l m n := u in
  mkUser a b c d e f g h i j v l m n.
Definition set_lastLogin v u :=
  let 'mkUser a b c d e f g h i j k _ m n := u in
  mkUser a b c d e f g h i j k v m n.
Definition set_createdAt v u :=
  let 'mkUser a b c d e f g h i j k l _ n := u in
  mkUser a b c d e f g h i j k l v n.
Definition set_updatedAt v u :=
  let 'mkUser a b c d e f g h i j k l m _ := u in
  mkUser a b c d e f g h i j k l m v.

(** The value a document holds at a path, for comparing two states of
    a record path by path. *)
Definition opt_json {A} (f : A → json) (o : option A) : json :=
  match o with Some a => f a | None => JNull end.

Definition path_value (path : string) (u : User) : option json :=
  if bool_decide (path = "_id") then Some (JStr (_id u))
  else if bool_decide (path = "id") then Some (JStr (id u))
  else if bool_decide (path = "username") then Some (JStr (username u))
  else if bool_decide (path = "fullName")
    then Some (opt_json JStr (fullName u))
  else if bool_decide (path = "email") then Some (JStr (email u))
  else if bool_decide (path = "password")
    then Some (opt_json JStr (password u))
  else if bool_decide (path = "npk") then Some (opt_json JStr (npk u))
  else if bool_decide (path = "role") then Some (JStr (role u))
  else if bool_decide (path = "permissions") then Some (JStrs (permissions u))
  else if bool_decide (path = "unit") then Some (opt_json JStr (unit u))
  else if bool_decide (path = "isActive") then Some (JBool (isActive u))
  else if bool_decide (path = "lastLogin")
    then Some (opt_json JNum (lastLogin u))
  else if bool_decide (path = "createdAt") then Some (JNum (createdAt u))
  else if bool_decide (path = "updatedAt") then Some (JNum (updatedAt u))
  else None.

(** [dst[path] = src[path]] for a schema path other than [_id]; any
    other name is not part of the document. *)
Definition copy_path (src : User) (path : string) (dst : User) : User :=
  if bool_decide (path = "id") then set_id (id src) dst
  else if bool_decide (path = "username") then set_username (username src) dst
  else if bool_decide (path = "fullName") then set_fullName (fullName src) dst
  else if bool_decide (path = "email") then set_email (email src) dst
  else if bool_decide (path = "password") then set_password (password src) dst
  else if bool_decide (path = "npk") then set_npk (npk src) dst
  else if bool_decide (path = "role") then set_role (role src) dst
  else if bool_decide (path = "permissions")
    then set_permissions (permissions src) dst
  else if bool_decide (path = "unit") then set_unit (unit src) dst
  else if bool_decide (path = "isActive") then set_isActive (isActive src) dst
  else if bool_decide (path = "lastLogin")
    then set_lastLogin (lastLogin src) dst
  else if bool_decide (path = "createdAt")
    then set_createdAt (createdAt src) dst
  else if bool_decide (path = "updatedAt")
    then set_updatedAt (updatedAt src) dst
  else dst.

(** A document records an assignment as a modification when the value
    changes. *)
Definition assigned (path : string) (same : bool) (u' : User) (d : Doc)
  : Doc :=
  if same then d
  else mkDoc u' (isNew d) (withPassword d) (path :: modifiedPaths d).

Definition assign_lastLogin (v : option Z) (d : Doc) : Doc :=
  assigned "lastLogin" (bool_decide (lastLogin (data d) = v))
    (set_lastLogin v (data d)) d.
Definition assign_npk (v : option string) (d : Doc) : Doc :=
  assigned "npk" (bool_decide (npk (data d) = v))
    (set_npk v (data d)) d.
Definition assign_password (v : option string) (d : Doc) : Doc :=
  assigned "password" (bool_decide (password (data d) = v))
    (set_password v (data d)) d.

(** *** Queries *)

(** Hydration of a stored record; [password] is [select: false]. *)
Definition hydrate (selectPassword : bool) (u : User) : Doc :=
  mkDoc (if selectPassword then u else set_password None u)
        false selectPassword [].

(** [Model.findOne(filter)]: the first record in natural order. *)
Definition findOne (filter : User → bool) (db : Collection) : option User :=
  head (List.filter filter db).

(** [Model.findById(id)]: the built-in lookup on [_id] alone. *)
Definition findById (i : string) (selectPassword : bool) (db : Collection)
  : option Doc :=
  hydrate selectPassword <$> findOne (λ u, bool_decide (_id u = i)) db.



(** The unique indexes of the schema, one by one: the primary key, and
    the indexes on [id], [username], [email] and, among the records
    that hold one, [npk]. *)
Definition unique_indexes (db : Collection) : Prop :=
  NoDup (_id <$> db) ∧ NoDup (id <$> db) ∧
  NoDup (username <$> db) ∧ NoDup (email <$> db) ∧
  NoDup (omap npk db).

Section WithLibrary.

Variable L : Library.

(** *** Pre-save hooks *)

(** First hook: hash an assigned password.  [bcrypt.hash] rejects a
    missing plaintext. *)
Definition pre_save_password (d : Doc) : Result Doc :=
  if isModified d "password" then
    match password (data d) with
    | Some plain =>
        inr (mkDoc (set_password (Some (bcrypt_hash L plain)) (data d))
                   (isNew d) (withPassword d) (modifiedPaths d))
    | None => inl (Thrown "Illegal arguments")
    end
  else inr d.

(** [{ role: "perawat", npk: { $regex: /^NPK\d{4}$/ } }] *)
Definition numbered_nurse (u : User) : bool :=
  bool_decide (role u = "perawat") &&
  match npk u with Some v => npk_format v | None => false end.

Definition npk_text (u : User) : string := default "" (npk u).

(** The head of the matching records under [sort: { npk: -1 }]. *)
Fixpoint greatest_npk (best : option User) (l : list User) : option User :=
  match l with
  | [] => best
  | u :: rest =>
      greatest_npk
        (match best with
         | Some b => if String.ltb (npk_text b) (npk_text u)
                     then Some u else Some b
         | None => Some u
         end) rest
  end.

Definition lastNurse (db : Collection) : option User :=
  greatest_npk None (List.filter numbered_nurse db).

(** The number the hook arrives at. *)
Definition nextNumber (db : Collection) : option Z :=
  match lastNurse db with
  | Some u =>
      if Js.truthy (npk u)
      then (λ lastNumber, lastNumber + 1)
             <$> Js.parseInt (Js.replace "NPK" "" (npk_text u))
      else Some 1
  | None => Some 1
  end.

(** Second hook:
    [this.npk = `${nextNumber.toString().padStart(4, "0")}`]
    when the role is [perawat] and no npk is held. *)
Definition pre_save_npk (db : Collection) (d : Doc) : Doc :=
  if bool_decide (role (data d) = "perawat") && Js.falsy (npk (data d))
  then assign_npk
         (Some (Js.padStart 4 "0" (Js.toString (nextNumber db)))) d
  else d.

(** The code [generateMissingNPKs] gives the [index]-th repaired
    record:
    [`NPK${(nextNumber + index).toString().padStart(4, "0")}`]. *)
Definition repaired_npk (next : option Z) (index : Z) : string :=
  "NPK" +:+ Js.padStart 4 "0" (Js.toString ((λ n, n + index) <$> next)).

(** The number after the prefix of a well-formed npk, and the greatest
    such number among the numbered [perawat] records, 0 when there is
    none. *)
Definition numeric_suffix (v : string) : Z :=
  Js.digits 0 (chars (Js.drop 3 v)).

Definition max_numeric_suffix (db : Collection) : Z :=
  foldr Z.max 0
    ((λ u, numeric_suffix (npk_text u)) <$> List.filter numbered_nurse db).

(** *** save *)

(** The unique indexes: [id], [username], [email], and the sparse
    one on [npk]. *)
Definition collides (path : string) (u other : User) : bool :=
  negb (bool_decide (_id other = _id u)) &&
  (if bool_decide (path = "id") then bool_decide (id other = id u)
   else if bool_decide (path = "username")
     then bool_decide (username other = username u)
   else if bool_decide (path = "email")
     then bool_decide (email other = email u)
   else if bool_decide (path = "npk")
     then match npk u with
          | Some v => bool_decide (npk other = Some v)
          | None => false
          end
   else false).

Definition uniquePaths : list string := ["id"; "username"; "email"; "npk"].

Definition duplicateKey (touched : list string) (u : User)
    (db : Collection) : option string :=
  List.find (λ path, Js.includes touched path && existsb (collides path u) db)
            uniquePaths.

(** Apply [f] to the first record the filter selects. *)
Fixpoint updateFirst (filter : User → bool) (f : User → User)
    (db : Collection) : Collection :=
  match db with
  | [] => []
  | u :: rest =>
      if filter u then f u :: rest
      else u :: updateFirst filter f rest
  end.

(** The write to the record with the given [_id]. *)
Definition updateOne (i : string) (f : User → User) (db : Collection)
  : Collection :=
  updateFirst (λ u, bool_decide (_id u = i)) f db.

Definition stored (i : string) (db : Collection) : bool :=
  existsb (λ u, bool_decide (_id u = i)) db.

(** [doc.save()].  Validation is the first pre-save step of the ORM,
    ahead of the two hooks of the schema; then comes the write.  A new
    document is inserted; otherwise the modified paths are written to
    the stored record, together with [updatedAt] ([timestamps: true]). *)
Definition save (now : Z) (db : Collection) (d : Doc)
  : Result (Collection * Doc) :=
  match validate d with
  | [] =>
      match pre_save_password d with
      | inl e => inl e
      | inr d1 =>
          let d2 := pre_save_npk db d1 in
          let u := set_updatedAt now (data d2) in
          let saved := mkDoc u false (withPassword d2) [] in
          if isNew d2 then
            if stored (_id u) db then inl (DuplicateKey "_id")
            else
              match duplicateKey uniquePaths u db with
              | Some key => inl (DuplicateKey key)
              | None => inr (db ++ [u], saved)
              end
          else
            match modifiedPaths d2 with
            | [] => inr (db, d2)
            | paths =>
                match duplicateKey paths u db with
                | Some key => inl (DuplicateKey key)
                | None =>
                    if stored (_id u) db then
                      let write r :=
                        set_updatedAt now (foldr (copy_path u) r paths) in
                      inr (updateOne (_id u) write db, saved)
                    else inl DocumentNotFound
                end
            end
      end
  | paths => inl (ValidationError paths)
  end.

(** *** Construction *)

(** The properties [new User(userData)] may be given. *)
Record UserData := mkUserData {
  new_id : option string;
  new_username : option string;
  new_fullName : option string;
  new_email : option string;
  new_password : option string;
  new_npk : option string;
  new_role : option string;
  new_permissions : option (list string);
  new_unit : option string;
  new_isActive : option bool;
}.

(** [new User(userData)] at time [now]: setters and defaults of the
    schema.  [oid] is the fresh [_id] and [uuid] the value of
    [uuidv4()].  A required string that is not given is held as the
    empty string, which [required] rejects just the same. *)
Definition construct (now : Z) (oid uuid : string) (userData : UserData)
  : Doc :=
  mkDoc
    (mkUser oid
       (default uuid (new_id userData))
       (Js.trim (default "" (new_username userData)))
       (Some (Js.trim (default "" (new_fullName userData))))
       (Js.toLowerCase (Js.trim (default "" (new_email userData))))
       (new_password userData)
       (new_npk userData)
       (default "perawat" (new_role userData))
       (default [] (new_permissions userData))
       (new_unit userData)
       (default true (new_isActive userData))
       None now now)
    true true
    (match new_password userData with
     | Some _ => ["password"]
     | None => []
     end).

(** [toObject()] with the schema's transform: [password] is deleted. *)
Definition toObject (d : Doc) : User := set_password None (data d).

Definition createUser (now : Z) (oid uuid : string) (userData : UserData)
    (db : Collection) : Result (Collection * User) :=
  match save now db (construct now oid uuid userData) with
  | inl (DuplicateKey field) => inl (Thrown (field +:+ " already exists"))
  | inl e => inl (Rethrown "Failed to create user: " e)
  | inr (db', newUser) => inr (db', toObject newUser)
  end.

(** *** Instance methods *)

(** [this.lastLogin = new Date(); return this.save();] *)
Definition updateLastLogin (now : Z) (db : Collection) (d : Doc)
  : Result (Collection * Doc) :=
  save now db (assign_lastLogin (Some now) d).


Definition comparePassword (db : Collection) (d : Doc)
    (candidatePassword : string) : Result bool :=
  if Js.falsy (password (data d)) then
    match findById (_id (data d)) true db with
    | Some userWithPassword =>
        match password (data userWithPassword) with
        | Some hash =>
            if bool_decide (hash = "")
            then inl (Thrown "Failed to compare passwords")
            else inr (bcrypt_compare L candidatePassword hash)
        | None => inl (Thrown "Failed to compare passwords")
        end
    | None => inl (Thrown "Failed to compare passwords")
    end
  else inr (bcrypt_compare L candidatePassword
              (default "" (password (data d)))).

(** *** Statics *)



Definition findActiveById (i : string) (db : Collection) : option Doc :=
  hydrate false <$>
    findOne (λ u, (bool_decide (_id u = i) || bool_decide (id u = i))
                  && isActive u) db.

(** *** findOneAndUpdate and updateUser *)

Definition set__id v u :=
  let 'mkUser _ b c d e f g h i j k l m n := u in
  mkUser v b c d e f g h i j k l m n.

Definition cast_optional (v : json) : option (option string) :=
  match v with
  | JNull => Some None
  | _ => Some <$> cast_string L v
  end.

(** One [$set] entry, cast by the schema type of its path and passed
    through the path's setters ([trim], [lowercase]).  A name that is
    not a schema path is dropped (strict mode). *)
Definition cast_set (key : string) (v : json) : Result (User → User) :=
  let cast {A} (c : option A) (f : A → User → User) :=
    match c with
    | Some a => inr (f a)
    | None => inl (CastError key)
    end in
  if bool_decide (key = "_id") then cast (cast_string L v) set__id
  else if bool_decide (key = "id") then cast (cast_string L v) set_id
  else if bool_decide (key = "username")
    then cast (cast_string L v) (λ a, set_username (Js.trim a))
  else if bool_decide (key = "fullName")
    then cast (cast_optional v) (λ a, set_fullName (Js.trim <$> a))
  else if bool_decide (key = "email")
    then cast (cast_string L v)
              (λ a, set_email (Js.toLowerCase (Js.trim a)))
  else if bool_decide (key = "password")
    then cast (cast_optional v) set_password
  else if bool_decide (key = "npk") then cast (cast_optional v) set_npk
  else if bool_decide (key = "role") then cast (cast_string L v) set_role
  else if bool_decide (key = "permissions")
    then cast (cast_strings L v) set_permissions
  else if bool_decide (key = "unit") then cast (cast_optional v) set_unit
  else if bool_decide (key = "isActive")
    then cast (cast_boolean L v) set_isActive
  else if bool_decide (key = "lastLogin")
    then cast (match v with JNull => Some None
                          | _ => Some <$> cast_date L v end) set_lastLogin
  else if bool_decide (key = "createdAt")
    then cast (cast_date L v) set_createdAt
  else if bool_decide (key = "updatedAt")
    then cast (cast_date L v) set_updatedAt
  else inr (λ u, u).

(** The whole update document, entries applied in order. *)
Fixpoint cast_update (updates : list (string * json))
  : Result (User → User) :=
  match updates with
  | [] => inr (λ u, u)
  | (key, v) :: rest =>
      match cast_set key v with
      | inl e => inl e
      | inr f =>
          match cast_update rest with
          | inl e => inl e
          | inr g => inr (λ u, g (f u))
          end
      end
  end.

(** Update validators ([runValidators: true]) check the paths being
    set, on their new values; the [required] functions see no
    document and require nothing. *)
Definition validate_update (keys : list string) (u : User) : list string :=
  let touched path ok := failing path (negb (Js.includes keys path) || ok) in
  touched "username" (username_ok (username u)) ++
  touched "fullName" (fullName_ok (fullName u)) ++
  touched "email" (email_ok (email u)) ++
  touched "password" (password_ok (password u)) ++
  touched "npk"
    (match npk u with Some v => npk_format v | None => true end) ++
  touched "role" (role_ok (role u)) ++
  touched "permissions" (permissions_ok (permissions u)).

Definition blank : User :=
  mkUser "" "" "" None "" None None "" [] None true None 0 0.

(** [Model.findOneAndUpdate(filter, updates,
    { new: true, runValidators: true })]: the updated record, or
    [None] when the filter matches nothing. *)
Definition findOneAndUpdate (now : Z) (filter : User → bool)
    (updates : list (string * json)) (db : Collection)
  : Result (Collection * option User) :=
  match cast_update updates with
  | inl e => inl e
  | inr apply =>
      match validate_update updates.*1 (apply blank) with
      | [] =>
          match findOne filter db with
          | None => inr (db, None)
          | Some u =>
              let u' := set_updatedAt now (apply u) in
              if negb (bool_decide (_id u' = _id u))
              then inl (Thrown "immutable field _id")
              else
                match duplicateKey updates.*1 u' db with
                | Some key => inl (DuplicateKey key)
                | None => inr (updateFirst filter (λ _, u') db, Some u')
                end
          end
      | paths => inl (ValidationError paths)
      end
  end.

Definition allowedUpdates : list string :=
  [ "username"; "email"; "fullName"; "role"; "unit"; "npk";
    "permissions"; "isActive" ].

(** [Object.keys(updateData).reduce(...)]: the allow-listed entries. *)
Definition allowed_entries (updateData : list (string * json))
  : list (string * json) :=
  List.filter (λ kv, Js.includes allowedUpdates kv.1) updateData.

(** [{ $or: [{ _id: userId }, { id: userId }] }] *)
Definition by_id (userId : string) (u : User) : bool :=
  bool_decide (_id u = userId) || bool_decide (id u = userId).

Definition updateUser (now : Z) (userId : string)
    (updateData : list (string * json)) (db : Collection)
  : Result (Collection * Doc) :=
  let updates := allowed_entries updateData in
  let attempt : Result (Collection * Doc) :=
    match updates with
    | [] => inl (Thrown "No valid fields to update")
    | _ =>
        match findOneAndUpdate now (by_id userId) updates db with
        | inl e => inl e
        | inr (_, None) => inl (Thrown "User not found")
        | inr (db', Some user) => inr (db', hydrate false user)
        end
    end in
  match attempt with
  | inl (DuplicateKey field) => inl (Thrown (field +:+ " already exists"))
  | inl e => inl (Rethrown "Failed to update user: " e)
  | inr r => inr r
  end.

(** *** updatePassword *)

(** [this.password = await bcrypt.hash(newPassword, salt);
     return this.save();]
    A rejection of [bcrypt.hash], which a missing plaintext causes, is
    caught and replaced; one of [save], returned without [await],
    passes through as it is. *)
Definition updatePassword (now : Z) (db : Collection) (d : Doc)
    (newPassword : option string) : Result (Collection * Doc) :=
  match newPassword with
  | Some plain =>
      save now db (assign_password (Some (bcrypt_hash L plain)) d)
  | None => inl (Thrown "Failed to update password")
  end.

(** *** generateMissingNPKs *)

(** [{ role: "perawat", $or: [{ npk: { $exists: false } },
      { npk: null }, { npk: { $not: /^NPK\d{4}$/ } }] }] *)
Definition unnumbered_nurse (u : User) : bool :=
  bool_decide (role u = "perawat") &&
  negb (match npk u with Some v => npk_format v | None => false end).

(** [sort({ createdAt: 1 })] *)
Definition oldest_first : relation User :=
  λ u v, createdAt u ≤ createdAt v.

#[global] Instance oldest_first_dec : RelDecision oldest_first :=
  λ u v, decide (createdAt u ≤ createdAt v).

(** [nurses.map((nurse, index) => { nurse.npk = ...; return
    nurse.save(); })]: every document is assigned its code and saved,
    whether or not an earlier save was rejected.  The result is the
    collection once every save has settled, and the rejections in the
    order of the array. *)
Fixpoint save_each (now : Z) (next : option Z) (index : Z)
    (nurses : list User) (db : Collection) : Collection * list Error :=
  match nurses with
  | [] => (db, [])
  | nurse :: rest =>
      let d := assign_npk (Some (repaired_npk next index))
                 (hydrate false nurse) in
      match save now db d with
      | inl e =>
          let '(db', errors) := save_each now next (index + 1) rest db in
          (db', e :: errors)
      | inr (db1, _) => save_each now next (index + 1) rest db1
      end
  end.

(** [generateMissingNPKs]: [{ updatedCount }] when every save went
    through; otherwise [Promise.all] rejects, with the rejection of the
    first document of the array that has one. *)
Definition generateMissingNPKs (now : Z) (db : Collection)
  : Collection * Result Z :=
  let nurses := merge_sort oldest_first (List.filter unnumbered_nurse db) in
  let '(db', errors) := save_each now (nextNumber db) 0 nurses db in
  (db',
   match errors with
   | [] => inr (Z.of_nat (length nurses))
   | e :: _ => inl (Rethrown "Failed to generate NPKs: " e)
   end).

End WithLibrary.

(** *** getStats *)

(** [countDocuments(filter)] *)
Definition countDocuments (filter : User → bool) (db : Collection) : Z :=
  Z.of_nat (length (List.filter filter db)).

(** [$match: { isActive: true }], [$group: { _id: "$role", count:
    { $sum: 1 } }], [$project]: one entry per role among the active
    records, here in the order in which the roles first appear. *)
Definition group_by_role (db : Collection) : list (string * Z) :=
  let active := List.filter isActive db in
  (λ r, (r, countDocuments (λ u, bool_decide (role u = r)) active))
    <$> remove_dups (role <$> active).

Record Stats := mkStats {
  totalUsers : Z;
  roleDistribution : list (string * Z);
  newUsersThisWeek : Z;
}.

Definition getStats (now : Z) (db : Collection) : Stats :=
  mkStats
    (countDocuments isActive db)
    (group_by_role db)
    (countDocuments
       (λ u, isActive u && (now - 7 * 24 * 60 * 60 * 1000 <=? createdAt u))
       db).

(** *** findAllWithFilters *)

Module Filters.
Record t := mk {
  role : option string;
  unit : option string;
  search : option string;
  page : option string;
  limit : option string;
}.
End Filters.

Module Pagination.
Record t := mk {
  currentPage : Z;
  totalPages : Z;
  totalUsers : Z;
  hasNext : bool;
  hasPrev : bool;
}.
End Pagination.

(** [sort({ createdAt: -1 })] *)
Definition newest_first : relation User :=
  λ u v, createdAt v ≤ createdAt u.

#[global] Instance newest_first_dec : RelDecision newest_first :=
  λ u v, decide (createdAt v ≤ createdAt u).

Section Listing.

(** [new RegExp(pattern, "i")]: the test it compiles to, or the
    [SyntaxError] of a pattern that does not compile. *)
Variable RegExp : string → Error + (string → bool).

(** [.skip(skip).limit(limit)] as the database applies them to the
    sorted result; a value it does not accept is an error. *)
Variable cursor : Z → Z → list User → Result (list User).



End Listing.

End UserModel.

(** ** jsonwebtoken *)

Module JsonWebToken.

Inductive VerifyError : Type :=
| JsonWebTokenError    (* malformed token, bad signature, missing key *)
| TokenExpiredError.

Section WithLibrary.

Variable L : Library.

(** [jwt.sign(payload, secret, { expiresIn })] at time [now], with
    [expiresIn] in seconds. *)
Definition sign (payload : Payload) (secret : string) (now expiresIn : Z)
  : string :=
  let iat := now `div` 1000 in
  jwt_render L (mkJwt payload secret iat (Some (iat + expiresIn))).

(** [jwt.verify(token, secret)] at time [now]: the key is checked
    first, then the expiry. *)
Definition verify (token : string) (secret : option string) (now : Z)
  : VerifyError + Payload :=
  if Js.falsy secret then inl JsonWebTokenError
  else
    match jwt_parse L token with
    | None => inl JsonWebTokenError
    | Some j =>
        if negb (bool_decide (Some (jwt_key j) = secret))
        then inl JsonWebTokenError
        else
          match jwt_exp j with
          | Some exp =>
              if exp <=? now `div` 1000 then inl TokenExpiredError
              else inr (jwt_payload j)
          | None => inr (jwt_payload j)
          end
    end.

(** [jwt.decode(token)?.exp]: no check at all. *)
Definition decode_exp (token : string) : option Z :=
  j ← jwt_parse L token; jwt_exp j.

End WithLibrary.

End JsonWebToken.

(** ** Requests and middleware *)

(** [process.env] *)
Record Env := mkEnv {
  JWT_SECRET : option string;
  NODE_ENV : option string;
}.

(** The parts of an Express request this code reads or writes. *)
Record Request := mkRequest {
  authorization : option string;       (* req.headers["authorization"] *)
  cookie_token : option string;        (* req.cookies?.token *)
  user : option Claims.t;              (* req.user *)
  userDetails : option UserModel.Doc;  (* req.userDetails *)
  token : option string;               (* req.token *)
  userId : option string;              (* req.userId *)
}.

Definition with_user (u : option Claims.t) (req : Request) : Request :=
  mkRequest (authorization req) (cookie_token req) u (userDetails req)
            (token req) (userId req).

Definition with_userDetails (d : UserModel.Doc) (req : Request) : Request :=
  mkRequest (authorization req) (cookie_token req) (user req) (Some d)
            (token req) (userId req).

Definition with_token (t : option string) (req : Request) : Request :=
  mkRequest (authorization req) (cookie_token req) (user req)
            (userDetails req) t (userId req).

Definition with_userId (i : option string) (req : Request) : Request :=
  mkRequest (authorization req) (cookie_token req) (user req)
            (userDetails req) (token req) i.

(** A middleware stage either calls [next()] with the request as it has
    left it, or sends a response and ends the chain. *)
Inductive Outcome : Type :=
| Next (req : Request)
| Respond (res : Response).

(** [authHeader && authHeader.split(" ")[1]] *)
Definition bearer (authHeader : option string) : option string :=
  if Js.falsy authHeader then None
  else Js.split " " (default "" authHeader) !! 1%nat.

(** ** backend/middleware/roleAuth.js *)

Module RoleAuth.

Definition hasPermission (userRole : option string)
    (userPermissions : option (list string)) (requiredPermission : string)
  : bool :=
  let rolePerms := Roles.getRolePermissions userRole in
  if Js.includes rolePerms requiredPermission then true
  else match userPermissions with
       | Some l => if Js.includes l requiredPermission then true else false
       | None => false
       end.

Definition invalid_token : Response :=
  failure 403 "Invalid or expired token".

Definition not_authenticated : Response :=
  failure 401 "User not authenticated".

Section WithLibrary.

Variable L : Library.
Variable env : Env.

Definition authenticateToken (now : Z) (req : Request) : Outcome :=
  let token := bearer (authorization req) in
  if Js.falsy token then Respond (failure 401 "Access token required")
  else
    match JsonWebToken.verify L (default "" token) (JWT_SECRET env) now with
    | inl _ => Respond invalid_token
    | inr decoded =>
        let userData :=
          match p_user decoded with
          | Some u => Some u
          | None =>
              let d := p_flat decoded in
              if Js.truthy (Claims.role d) then
                Some (Claims.mk (Claims.id d) (Claims.username d)
                        (Claims.email d) (Claims.role d)
                        (Claims.fullName d) (Claims.unit d)
                        (Some (default [] (Claims.permissions d)))
                        None None None)
              else None
          end in
        match userData with
        | None => Respond invalid_token
        | Some u =>
            if Js.falsy (Claims.role u) then Respond invalid_token
            else Next (with_user (Some u) req)
        end
    end.

End WithLibrary.

Definition requiredPermission (permission : string) (req : Request)
  : Outcome :=
  match user req with
  | None => Respond not_authenticated
  | Some u =>
      let role := Claims.role u in
      let permissions := Claims.permissions u in
      if negb (hasPermission role permissions permission) then
        let redirectUrl := Roles.getRoleRedirectUrl role in
        Respond (mkResponse 403
          ([ ("success", JBool false);
             ("message", JStr ("Access denied. Permission " +:+ Js.dq +:+
                               permission +:+ Js.dq +:+ " required."));
             ("redirectUrl", JStr redirectUrl) ]
           ++ opt_field "userRole" role))
      else Next req
  end.

Definition role_not_defined : Response :=
  failure 403 "User role not defined".

Definition requireRole (allowedRoles : list string) (req : Request)
  : Outcome :=
  match user req with
  | None => Respond not_authenticated
  | Some u =>
      if Js.falsy (Claims.role u) then Respond role_not_defined
      else if negb (Js.includes allowedRoles (default "" (Claims.role u)))
      then
        Respond (mkResponse 403
          ([ ("success", JBool false);
             ("message", JStr ("Insufficient permissions. Required roles: "
                               +:+ Js.join ", " allowedRoles)) ]
           ++ opt_field "userRole" (Claims.role u)))
      else Next req
  end.

(** The table local to [requireMinimumRole] and [checkMinimumRole]. *)
Definition roleHierarchy : gmap string Z :=
  list_to_map [ ("perawat", 1); ("mitra", 2); ("admin", 3) ].

Definition level (role : option string) : Z :=
  default 0 (Roles.at_role roleHierarchy role).

Definition requireMinimumRole (minimumRole : string) (req : Request)
  : Outcome :=
  match user req with
  | None => Respond not_authenticated
  | Some u =>
      let userRole := Claims.role u in
      let userLevel := level userRole in
      let requiredLevel := level (Some minimumRole) in
      if userLevel <? requiredLevel then
        let redirectUrl := Roles.getRoleRedirectUrl userRole in
        Respond (mkResponse 403
          ([ ("success", JBool false);
             ("message", JStr ("Access denied. Minimum role " +:+ Js.dq +:+
                               minimumRole +:+ Js.dq +:+ " required."));
             ("redirectUrl", JStr redirectUrl) ]
           ++ opt_field "userRole" userRole
           ++ [ ("minimumRole", JStr minimumRole) ]))
      else Next req
  end.


Definition deactivated : Response :=
  mkResponse 403 [ ("success", JBool false);
                   ("message", JStr "Account is deactivated or not found");
                   ("redirectUrl", JStr "/login") ].

Section WithStore.

Variable L : Library.

(** [req.user?.id], when truthy. *)
Definition user_id (req : Request) : option string :=
  i ← (u ← user req; Claims.id u);
  if bool_decide (i = "") then None else Some i.

Definition requireActiveUser (now : Z) (db : UserModel.Collection)
    (req : Request) : UserModel.Collection * Outcome :=
  match user_id req with
  | None => (db, Respond not_authenticated)
  | Some i =>
      match UserModel.findById i false db with
      | None => (db, Respond deactivated)
      | Some foundUser =>
          match UserModel.updateLastLogin L now db foundUser with
          | inl _ => (db, Respond (failure 500 "Error checking user status"))
          | inr (db', saved) => (db', Next (with_userDetails saved req))
          end
      end
  end.

Definition inactive : Response :=
  mkResponse 403 [ ("success", JBool false);
                   ("message", JStr "User not found or inactive");
                   ("redirectUrl", JStr "/login") ].

Definition refreshUserData (db : UserModel.Collection) (req : Request)
  : Outcome :=
  match user_id req with
  | None => Respond not_authenticated
  | Some i =>
      match UserModel.findActiveById i db with
      | None => Respond inactive
      | Some foundUser =>
          let u := UserModel.data foundUser in
          let live :=
            Claims.mk
              (Some (if bool_decide (UserModel.id u = "")
                     then UserModel._id u else UserModel.id u))
              (Some (UserModel.username u))
              (Some (UserModel.email u))
              (Some (UserModel.role u))
              (UserModel.fullName u)
              None
              (Some (UserModel.permissions u))
              (UserModel.npk u)
              (Some (UserModel.isActive u))
              (UserModel.lastLogin u) in
          Next (with_userDetails foundUser (with_user (Some live) req))
      end
  end.

End WithStore.

(** *** authorize *)



(** The options of [authorize]; [refreshUserData] stands for the
    truthiness of the option. *)
Module Options.
Record t := mk {
  refreshUserData : bool;
  activeuser : option bool;
  roles : option (list string);
  minimumRole : option string;
  permissions : option (list string);
}.
End Options.

Section Chain.

Variable L : Library.
Variable env : Env.


End Chain.


End RoleAuth.

(** ** backend/routes/auth.js *)

Module AuthRoutes.

(** The module's state: the users collection, the token blacklist and
    the evictions scheduled with [setTimeout], each with the time at
    which it fires. *)
Record State := mkState {
  users : UserModel.Collection;
  tokenBlacklist : gset string;
  timers : list (Z * string);
}.

Definition isTokenBlacklisted (st : State) (token : string) : bool :=
  bool_decide (token ∈ tokenBlacklist st).

Definition session_expired : Response :=
  failure 401 "Session expired. Please login again.".

Section WithLibrary.

Variable L : Library.
Variable env : Env.

(** [setTimeout(f, delay)]: a delay outside 1 .. 2^31 - 1 is taken
    as 1. *)
Definition fires_at (now delay : Z) : Z :=
  now + (if (1 <=? delay) && (delay <=? 2147483647) then delay else 1).

Definition addTokenToBlacklist (now : Z) (token : string) (st : State)
  : State :=
  let blacklist := {[ token ]} ∪ tokenBlacklist st in
  match JsonWebToken.decode_exp L token with
  | Some exp =>
      if bool_decide (exp = 0) then mkState (users st) blacklist (timers st)
      else
        let expiresIn := exp * 1000 - now in
        mkState (users st) blacklist
                (timers st ++ [(fires_at now expiresIn, token)])
  | None => mkState (users st) blacklist (timers st)
  end.

(** The event loop at time [now]: every eviction that is due runs. *)
Definition run_timers (now : Z) (st : State) : State :=
  let '(due, pending) :=
    List.partition (λ t, t.1 <=? now) (timers st) in
  mkState (users st)
          (foldr (λ t bl, bl ∖ {[ t.2 ]}) (tokenBlacklist st) due)
          pending.

(** What happens to the blacklist in the life of the process: a token
    is added at some time, or the event loop reaches some time and runs
    the evictions that are due. *)
Inductive Event : Type :=
| Blacklisted (at_time : Z) (token : string)
| Evictions (at_time : Z).

Definition time (e : Event) : Z :=
  match e with
  | Blacklisted t _ => t
  | Evictions t => t
  end.

Definition after (st : State) (e : Event) : State :=
  match e with
  | Blacklisted t token => addTokenToBlacklist t token st
  | Evictions t => run_timers t st
  end.

(** A token whose expiry has passed at time [T]. *)
Definition lapsed (tok : string) (T : Z) : Prop :=
  ∃ exp, JsonWebToken.decode_exp L tok = Some exp ∧ exp * 1000 ≤ T.

(** Every eviction pending for [tok] is due no earlier than the expiry
    of [tok]. *)
Definition timely (tok : string) (st : State) : Prop :=
  ∀ t, (t, tok) ∈ timers st → lapsed tok t.

(** The token is on the blacklist or has lapsed at [T], and its pending
    evictions are timely. *)
Definition held (tok : string) (T : Z) (st : State) : Prop :=
  (tok ∈ tokenBlacklist st ∨ lapsed tok T) ∧ timely tok st.

(** [authHeader?.startsWith("Bearer ") ? authHeader.split(" ")[1]
     : req.cookies?.token] *)
Definition request_token (req : Request) : option string :=
  match authorization req with
  | Some authHeader =>
      if Js.startsWith "Bearer " authHeader
      then Js.split " " authHeader !! 1%nat
      else cookie_token req
  | None => cookie_token req
  end.

Definition verifyToken (st : State) (now : Z) (req : Request) : Outcome :=
  let token := request_token req in
  if Js.falsy token then Respond (failure 401 "Authentication required")
  else
    let token := default "" token in
    if isTokenBlacklisted st token then Respond session_expired
    else
      match JsonWebToken.verify L token (JWT_SECRET env) now with
      | inr decoded =>
          Next (with_token (Some token) (with_user (p_user decoded) req))
      | inl JsonWebToken.TokenExpiredError =>
          Respond (failure 401 "Session expired")
      | inl JsonWebToken.JsonWebTokenError =>
          Respond (failure 401 "Invalid token")
      end.

Definition logged_out : Response :=
  mkResponse 200 [ ("success", JBool true);
                   ("message", JStr "Logged out successfully") ].

(** [router.post("/logout", verifyToken, ...)] *)
Definition logout (st : State) (now : Z) (req : Request)
  : State * Response :=
  match verifyToken st now req with
  | Respond res => (st, res)
  | Next req' =>
      (addTokenToBlacklist now (default "" (token req')) st, logged_out)
  end.

(** The claims [router.post("/login")] signs. *)
Definition userPayload (u : UserModel.User) : Claims.t :=
  Claims.mk (Some (UserModel._id u)) (Some (UserModel.username u))
            (Some (UserModel.email u)) (Some (UserModel.role u))
            None None (Some (UserModel.permissions u)) None None None.

Definition claims_json (c : Claims.t) : list (string * json) :=
  opt_field "id" (Claims.id c) ++
  opt_field "username" (Claims.username c) ++
  opt_field "email" (Claims.email c) ++
  opt_field "role" (Claims.role c) ++
  match Claims.permissions c with
  | Some l => [("permissions", JStrs l)]
  | None => []
  end.

Definition invalid_credentials : Response :=
  failure 401 "Invalid credentials".

(** [User.updateOne({ _id }, { $set: { lastLogin } })] without
    validators, as both writes of the login handler are. *)
Definition touch_lastLogin (now : Z) (i : string)
    (db : UserModel.Collection) : UserModel.Collection :=
  UserModel.updateOne i
    (λ u, UserModel.set_updatedAt now
            (UserModel.set_lastLogin (Some now) u)) db.

(** [router.post("/login")] with [{ email, password }] as body. *)
Definition login (st : State) (now : Z) (email password : option string)
  : State * Response :=
  if Js.falsy email || Js.falsy password then
    (st, failure 400 "Email and password are required")
  else
    let email := default "" email in
    let password := default "" password in
    match UserModel.findOne
            (λ u, bool_decide (UserModel.email u = email)) (users st) with
    | None => (st, invalid_credentials)
    | Some u =>
        if Js.falsy (UserModel.password u) then
          (st, failure 500 "Authentication system error")
        else if negb (UserModel.isActive u) then
          (st, failure 403 "Account deactivated. Contact administrator.")
        else if negb (bcrypt_compare L password
                        (default "" (UserModel.password u))) then
          (st, invalid_credentials)
        else
          let db' := touch_lastLogin now (UserModel._id u) (users st) in
          let st' := mkState db' (tokenBlacklist st) (timers st) in
          match JWT_SECRET env with
          | Some secret =>
              if bool_decide (secret = "") then
                (st', failure 500 "secretOrPrivateKey must have a value")
              else
                let token :=
                  JsonWebToken.sign L
                    (mkPayload (Some (userPayload u)) Claims.empty None)
                    secret now 86400 in
                (st',
                 mkResponse 200
                   [ ("success", JBool true);
                     ("token", JStr token);
                     ("user",
                      JObj (claims_json (userPayload u) ++
                            [("menuAccess",
                              JStrs (Roles.getMenuAccess
                                       (Some (UserModel.role u))))]));
                     ("redirectUrl",
                      JStr (Roles.getRoleRedirectUrl
                              (Some (UserModel.role u)))) ])
          | None =>
              (st', failure 500 "secretOrPrivateKey must have a value")
          end
    end.

(** What [jwt.sign] is given by the registration handler. *)
Definition registered (u : UserModel.User) : Claims.t :=
  Claims.mk (Some (UserModel._id u)) None None (Some (UserModel.role u))
            None None (Some (UserModel.permissions u)) None None None.

(** The catch block of the registration handler. *)
Definition register_error (err : Error) : Response :=
  failure (match err with ValidationError _ => 400 | _ => 500 end)
          (if bool_decide (message L err = "")
           then "Registration failed" else message L err).

(** [router.post("/register")] with [{ username, email, password,
    role }] as body; [oid] and [uuid] are the identifiers the new
    document draws. *)
Definition register (st : State) (now : Z) (oid uuid : string)
    (username email password role : option string) : State * Response :=
  let role := default "perawat" role in
  if Js.falsy username || Js.falsy email || Js.falsy password then
    (st,
     mkResponse 400
       [ ("success", JBool false);
         ("message", JStr "All fields are required");
         ("missingFields",
          JObj [ ("username", JBool (Js.falsy username));
                 ("email", JBool (Js.falsy email));
                 ("password", JBool (Js.falsy password)) ]) ])
  else
    let username := default "" username in
    let email := default "" email in
    match UserModel.findOne
            (λ u, bool_decide (UserModel.email u = email)
                  || bool_decide (UserModel.username u = username))
            (users st) with
    | Some existingUser =>
        let field :=
          if bool_decide (UserModel.email existingUser = email)
          then "email" else "username" in
        (st,
         mkResponse 409
           [ ("success", JBool false);
             ("message",
              JStr ("User with this " +:+ field +:+ " already exists"));
             ("conflictField", JStr field) ])
    | None =>
        let user :=
          UserModel.construct now oid uuid
            (UserModel.mkUserData None (Some username) None (Some email)
               password None (Some role)
               (Some (Roles.getRolePermissions (Some role))) None None) in
        match UserModel.save L now (users st) user with
        | inl err => (st, register_error err)
        | inr (db', saved) =>
            let st' := mkState db' (tokenBlacklist st) (timers st) in
            let u := UserModel.data saved in
            match JWT_SECRET env with
            | Some secret =>
                if bool_decide (secret = "") then
                  (st', register_error
                          (Thrown "secretOrPrivateKey must have a value"))
                else
                  let token :=
                    JsonWebToken.sign L
                      (mkPayload (Some (registered u)) Claims.empty None)
                      secret now 86400 in
                  (st',
                   mkResponse 201
                     [ ("success", JBool true);
                       ("message", JStr "Registration successful");
                       ("token", JStr token);
                       ("user",
                        JObj [ ("id", JStr (UserModel._id u));
                               ("username", JStr (UserModel.username u));
                               ("email", JStr (UserModel.email u));
                               ("role", JStr (UserModel.role u));
                               ("permissions",
                                JStrs (UserModel.permissions u)) ]);
                       ("redirectUrl",
                        JStr (Roles.getRoleRedirectUrl
                                (Some (UserModel.role u)))) ])
            | None =>
                (st', register_error
                        (Thrown "secretOrPrivateKey must have a value"))
            end
        end
    end.

Definition password_updated : Response :=
  mkResponse 200 [ ("success", JBool true);
                   ("message", JStr "Password updated successfully") ].

(** [router.put("/update-password", verifyToken, ...)] with
    [{ currentPassword, newPassword }] as body.  Whatever is thrown on
    the way ([req.user] missing, an argument of [bcrypt] missing, a
    rejected [save]) ends in the catch block. *)
Definition updatePassword (st : State) (now : Z) (req : Request)
    (currentPassword newPassword : option string) : State * Response :=
  match verifyToken st now req with
  | Respond res => (st, res)
  | Next req' =>
      let caught := (st, failure 500 "Password update failed") in
      match user req' with
      | None => caught
      | Some claims =>
          match i ← Claims.id claims; UserModel.findById i true (users st) with
          | None => (st, failure 404 "User not found")
          | Some user =>
              match currentPassword,
                    UserModel.password (UserModel.data user) with
              | Some current, Some hash =>
                  if negb (bcrypt_compare L current hash) then
                    (st, failure 401 "Current password is incorrect")
                  else
                    match newPassword with
                    | None => caught
                    | Some new =>
                        match UserModel.save L now (users st)
                                (UserModel.assign_password
                                   (Some (bcrypt_hash L new)) user) with
                        | inl _ => caught
                        | inr (db', _) =>
                            (addTokenToBlacklist now
                               (default "" (token req'))
                               (mkState db' (tokenBlacklist st) (timers st)),
                             password_updated)
                        end
                    end
              | _, _ => caught
              end
          end
      end
  end.

End WithLibrary.

End AuthRoutes.

(** ** backend/server.js *)

Module Server.

Definition invalid_credentials : Response :=
  failure 401 "Invalid credentials".

Definition logged_out : Response :=
  mkResponse 200 [ ("success", JBool true);
                   ("message", JStr "Logged out successfully") ].

(** [app.post("/api/auth/logout")]: nothing is read from the request
    and nothing is kept. *)
Definition logout {S : Type} (st : S) (req : Request) : S * Response :=
  (st, logged_out).

Section WithLibrary.

Variable L : Library.
Variable env : Env.

(** The server's own [authenticateToken]. *)
Definition authenticateToken (now : Z) (req : Request) : Outcome :=
  let token := bearer (authorization req) in
  if Js.falsy token then Respond (failure 401 "Access token required")
  else
    match JsonWebToken.verify L (default "" token) (JWT_SECRET env) now with
    | inl _ => Respond (failure 403 "Invalid or expired token")
    | inr user => Next (with_userId (p_userId user) req)
    end.

(** The catch block of the login handler. *)
Definition login_error (err : Error) : Response :=
  if Js.contains "JWT_SECRET" (message L err)
  then failure 500 "Server configuration error"
  else
    mkResponse 500
      ([ ("success", JBool false);
         ("message", JStr "Internal server error") ]
       ++ if bool_decide (NODE_ENV env = Some "development")
          then [ ("error", JStr (message L err));
                 ("stack", JStr (stack L err)) ]
          else []).

(** What [jwt.sign({ userId: foundUser._id }, ...)] signs. *)
Definition session_payload (u : UserModel.User) : Payload :=
  mkPayload None Claims.empty (Some (UserModel._id u)).

(** [{ $or: [{ email: identifier.toLowerCase().trim() },
             { username: identifier.trim() }] }] *)
Definition by_identifier (identifier : string) (u : UserModel.User) : bool :=
  bool_decide (UserModel.email u = Js.trim (Js.toLowerCase identifier))
  || bool_decide (UserModel.username u = Js.trim identifier).

(** [app.post("/api/login")] with [{ identifier, password }] as
    body. *)
Definition login (now : Z) (db : UserModel.Collection)
    (identifier password : option string)
  : UserModel.Collection * Response :=
  if Js.falsy identifier || Js.falsy password then
    (db, failure 400 "Email/username and password are required")
  else
    let identifier := default "" identifier in
    let password := default "" password in
    match UserModel.findOne (by_identifier identifier) db with
    | None => (db, invalid_credentials)
    | Some u =>
        let foundUser := UserModel.hydrate false u in
        match UserModel.comparePassword L db foundUser password with
        | inl err => (db, login_error err)
        | inr false => (db, invalid_credentials)
        | inr true =>
            if Js.falsy (JWT_SECRET env)
            then (db, login_error (Thrown "JWT_SECRET not configured"))
            else
              let token :=
                JsonWebToken.sign L (session_payload u)
                  (default "" (JWT_SECRET env)) now 86400 in
              match UserModel.save L now db
                      (UserModel.assign_lastLogin (Some now) foundUser) with
              | inl err => (db, login_error err)
              | inr (db', saved) =>
                  let s := UserModel.data saved in
                  (db',
                   mkResponse 200
                     [ ("success", JBool true);
                       ("message", JStr "Login successful");
                       ("user",
                        JObj ([ ("_id", JStr (UserModel._id s));
                                ("username", JStr (UserModel.username s));
                                ("email", JStr (UserModel.email s));
                                ("role", JStr (UserModel.role s));
                                ("createdAt", JNum (UserModel.createdAt s)) ]
                              ++ match UserModel.lastLogin s with
                                 | Some t => [("lastLogin", JNum t)]
                                 | None => []
                                 end));
                       ("token", JStr token) ])
              end
        end
    end.

(** The catch block of the registration handler. *)
Definition register_error (err : Error) : Response :=
  match err with
  | DuplicateKey field => failure 409 (field +:+ " already exists")
  | _ =>
      if Js.contains "JWT_SECRET" (message L err)
      then failure 500 "Server configuration error"
      else
        match err with
        | ValidationError paths =>
            mkResponse 400
              [ ("success", JBool false);
                ("message", JStr "Validation failed");
                ("errors",
                 JStrs ((λ p, describe L (ValidationError [p])) <$> paths)) ]
        | _ =>
            mkResponse 500
              ([ ("success", JBool false);
                 ("message", JStr "Internal server error") ]
               ++ if bool_decide (NODE_ENV env = Some "development")
                  then [ ("error", JStr (message L err));
                         ("stack", JStr (stack L err)) ]
                  else [])
        end
  end.

(** [app.post("/api/register")] with
    [{ username, email, password, fullName, role }] as body; [oid]
    and [uuid] are the identifiers the new document draws. *)
Definition register (now : Z) (oid uuid : string)
    (db : UserModel.Collection)
    (username email password fullName role : option string)
  : UserModel.Collection * Response :=
  let role := Some (default "perawat" role) in
  if Js.falsy username || Js.falsy email || Js.falsy password then
    (db, failure 400 "All fields are required")
  else
    let username := default "" username in
    let email := default "" email in
    if Z.of_nat (String.length (Js.trim username)) <? 3 then
      (db, failure 400 "Username must be at least 3 characters long")
    else
      match UserModel.findOne
              (λ u, bool_decide (UserModel.username u = username)
                    || bool_decide (UserModel.email u = email)) db with
      | Some existingUser =>
          (db, failure 409
                 (if bool_decide (UserModel.username existingUser = username)
                  then "Username already exists"
                  else "Email already registered"))
      | None =>
          let newUser :=
            UserModel.construct now oid uuid
              (UserModel.mkUserData None
                 (Some (Js.trim username))
                 (Some (if Js.falsy fullName then username
                        else default "" fullName))
                 (Some (Js.toLowerCase (Js.trim email)))
                 password None
                 (Some (if Js.falsy role then "perawat"
                        else default "" role))
                 None None (Some true)) in
          match UserModel.save L now db newUser with
          | inl err => (db, register_error err)
          | inr (db', saved) =>
              let savedUser := UserModel.data saved in
              if Js.falsy (JWT_SECRET env)
              then (db', register_error (Thrown "JWT_SECRET not configured"))
              else
                let token :=
                  JsonWebToken.sign L (session_payload savedUser)
                    (default "" (JWT_SECRET env)) now 86400 in
                (db',
                 mkResponse 201
                   [ ("success", JBool true);
                     ("message", JStr "Registration successful");
                     ("user",
                      JObj ([ ("_id", JStr (UserModel._id savedUser));
                              ("username",
                               JStr (UserModel.username savedUser));
                              ("email", JStr (UserModel.email savedUser));
                              ("role", JStr (UserModel.role savedUser)) ]
                            ++ opt_field "fullName"
                                 (UserModel.fullName savedUser)
                            ++ opt_field "unit" (UserModel.unit savedUser)
                            ++ [ ("createdAt",
                                  JNum (UserModel.createdAt savedUser)) ]));
                     ("token", JStr token) ])
          end
      end.

(** The answers of [POST /api/auth/verify] that carry [valid: false]. *)
Definition invalid (code : Z) (msg : string) : Response :=
  mkResponse code [ ("success", JBool false); ("message", JStr msg);
                    ("valid", JBool false) ].

(** [app.post("/api/auth/verify")]: the token is verified and the
    record it names is looked up by [findById]; a payload without
    [userId] names none. *)
Definition verify (now : Z) (db : UserModel.Collection) (req : Request)
  : Response :=
  let token := bearer (authorization req) in
  if Js.falsy token then invalid 401 "Access token required"
  else
    match JsonWebToken.verify L (default "" token) (JWT_SECRET env) now with
    | inl _ => invalid 403 "Invalid or expired token"
    | inr encoded =>
        match i ← p_userId encoded; UserModel.findById i false db with
        | None => invalid 404 "User not found"
        | Some found =>
            let user := UserModel.data found in
            mkResponse 200
              [ ("success", JBool true);
                ("message", JStr "Token is valid");
                ("valid", JBool true);
                ("user",
                 JObj ([ ("_id", JStr (UserModel._id user));
                         ("username", JStr (UserModel.username user));
                         ("email", JStr (UserModel.email user));
                         ("role", JStr (UserModel.role user));
                         ("createdAt", JNum (UserModel.createdAt user)) ]
                       ++ match UserModel.lastLogin user with
                          | Some t => [("lastLogin", JNum t)]
                          | None => []
                          end)) ]
        end
    end.

End WithLibrary.

End Server.

(** ** backend/routes/users.js *)

Module UsersRoutes.

(** How a route ends: with a response of its own, or with an exception
    nothing catches, which Express hands to its error handler. *)
Inductive Answer : Type :=
| Sent (res : Response)
| Failed (e : Error).

Definition error (code : Z) (msg : string) : Response :=
  mkResponse code [("error", JStr msg)].

Definition allowedRoles : list string := ["admin"; "mitra"; "perawat"].

(** The role validation middleware: the body it passes on, or the way
    it ends the request. *)
Definition validateRoleUpdate (body : list (string * json))
  : Answer + list (string * json) :=
  if truthy_value (field "role" body) then
    match field "role" body with
    | Some (JStr role) =>
        let role := Js.toLowerCase role in
        if negb (Js.includes allowedRoles role) then
          inl (Sent (error 400 ("Invalid role. Allowed roles: "
                                +:+ Js.join ", " allowedRoles)))
        else inr (set_field "role" (JStr role) body)
    | _ =>
        inl (Failed (Thrown "req.body.role.toLowerCase is not a function"))
    end
  else inr body.

(** [toJSON] of a document loaded with [select("-password")]. *)
Definition toJSON (u : UserModel.User) : list (string * json) :=
  [ ("_id", JStr (UserModel._id u)); ("id", JStr (UserModel.id u));
    ("username", JStr (UserModel.username u)) ]
  ++ opt_field "fullName" (UserModel.fullName u)
  ++ [ ("email", JStr (UserModel.email u)) ]
  ++ opt_field "npk" (UserModel.npk u)
  ++ [ ("role", JStr (UserModel.role u));
       ("permissions", JStrs (UserModel.permissions u)) ]
  ++ opt_field "unit" (UserModel.unit u)
  ++ [ ("isActive", JBool (UserModel.isActive u)) ]
  ++ match UserModel.lastLogin u with
     | Some t => [("lastLogin", JNum t)]
     | None => []
     end
  ++ [ ("createdAt", JNum (UserModel.createdAt u));
       ("updatedAt", JNum (UserModel.updatedAt u)) ].

Definition by__id (i : string) (u : UserModel.User) : bool :=
  bool_decide (UserModel._id u = i).

Section WithLibrary.

Variable L : Library.

(** The ORM casts the [:id] of the path to an [ObjectId] before it
    queries: [castObjectId] gives the [_id] the text stands for, and
    none for a text the query rejects with a [CastError]. *)
Variable castObjectId : string → option string.

(** [router.get("/:id")] *)
Definition get (db : UserModel.Collection) (i : string) : Response :=
  match castObjectId i with
  | None => error 500 "Failed to fetch user"
  | Some oid =>
      match UserModel.findById oid false db with
      | None => error 404 "User not found"
      | Some foundUser =>
          mkResponse 200 (toJSON (UserModel.data foundUser))
      end
  end.

(** [Model.findByIdAndDelete(id)]: the first record under that [_id]
    is removed. *)
Fixpoint deleteFirst (filter : UserModel.User → bool)
    (db : UserModel.Collection) : UserModel.Collection :=
  match db with
  | [] => []
  | u :: rest => if filter u then rest else u :: deleteFirst filter rest
  end.

(** [router.delete("/:id")] *)
Definition delete (db : UserModel.Collection) (i : string)
  : UserModel.Collection * Response :=
  match castObjectId i with
  | None => (db, error 500 "Failed to delete user")
  | Some oid =>
      match UserModel.findOne (by__id oid) db with
      | None => (db, error 404 "User not found")
      | Some _ =>
          (deleteFirst (by__id oid) db,
           mkResponse 200 [("message", JStr "User deleted successfully")])
      end
  end.

Definition allowedUpdates : list string := ["name"; "email"; "npk"; "role"].

(** [router.put("/:id", validateRoleUpdate, ...)] *)
Definition put (now : Z) (db : UserModel.Collection) (i : string)
    (body : list (string * json)) : UserModel.Collection * Answer :=
  match validateRoleUpdate body with
  | inl answer => (db, answer)
  | inr updates =>
      let filteredUpdates :=
        List.filter (λ kv, Js.includes allowedUpdates kv.1) updates in
      match castObjectId i with
      | None => (db, Sent (error 500 "Failed to update user"))
      | Some oid =>
          match UserModel.findOneAndUpdate L now (by__id oid)
                  filteredUpdates db with
          | inl _ => (db, Sent (error 500 "Failed to update user"))
          | inr (db', None) => (db', Sent (error 404 "User not found"))
          | inr (db', Some updatedUser) =>
              (db', Sent (mkResponse 200
                            (toJSON (UserModel.set_password None
                                       updatedUser))))
          end
      end
  end.

(** [router.patch("/:id/role", validateRoleUpdate, ...)]: the update
    is [{ role }]; a role that is [undefined] is no entry of it. *)
Definition patch_role (now : Z) (db : UserModel.Collection) (i : string)
    (body : list (string * json)) : UserModel.Collection * Answer :=
  match validateRoleUpdate body with
  | inl answer => (db, answer)
  | inr body =>
      let update :=
        match field "role" body with
        | Some role => [("role", role)]
        | None => []
        end in
      match castObjectId i with
      | None => (db, Sent (error 500 "Failed to update user role"))
      | Some oid =>
          match UserModel.findOneAndUpdate L now (by__id oid) update db with
          | inl _ => (db, Sent (error 500 "Failed to update user role"))
          | inr (db', None) => (db', Sent (error 404 "User not found"))
          | inr (db', Some updatedUser) =>
              (db', Sent (mkResponse 200
                            [ ("message", JStr "Role updated successfully");
                              ("user",
                               JObj (toJSON (UserModel.set_password None
                                               updatedUser))) ]))
          end
      end
  end.

End WithLibrary.

End UsersRoutes.

(** ** backend/routes/exams.js

    The question bank and the exams are two arrays in memory.  A value
    read from the request body is a JSON value or [undefined]; a
    method called on a value that does not have it is a [TypeError],
    which every handler catches and answers with 500.  A stored
    question carries each property under an Indonesian and an English
    name, always with the same value: the record keeps one of the
    two.  The listing [GET /exams], the statistics and the image
    upload are not part of the model. *)

Module ExamRoutes.

Module Question.
Record t := mk {
  id : string;
  pertanyaan : string;              (* and [question] *)
  type : json;
  pilihan : option (list string);   (* and [options] *)
  jawabanBenar : option json;       (* and [correctAnswer] *)
  kategori : json;                  (* and [category] *)
  tingkatKesulitan : json;          (* and [difficulty] *)
  penjelasan : option json;         (* and [explanation] *)
  tags : option json;
  image : json;
  createdAt : Z;
  updatedAt : Z;
  updatedBy : option string;
}.
End Question.

Module Exam.
Record t := mk {
  id : string;
  title : string;
  description : string;
  questions : list Question.t;
  questionCount : Z;
  settings : list (string * json);
  status : json;
  createdAt : Z;
  updatedAt : Z;
  createdBy : string;
  updatedBy : option string;
  publishedAt : option Z;
}.
End Exam.

Record State := mkState {
  questions : list Question.t;
  exams : list Exam.t;
}.

(** How a handler ends: [res.status(code).json(...)] around a value,
    an error response of its own, or the 500 of its catch block. *)
Inductive Answer (A : Type) : Type :=
| Sent (code : Z) (value : A)
| Refused (code : Z) (error : string)
| Caught (error : string).
Arguments Sent {A} code value.
Arguments Refused {A} code error.
Arguments Caught {A} error.

Definition code {A} (a : Answer A) : Z :=
  match a with
  | Sent c _ | Refused c _ => c
  | Caught _ => 500
  end.

(** [a || b] *)
Definition or_value (a b : option json) : option json :=
  if truthy_value a then a else b.

(** [v === text] *)
Definition is_text (v : json) (text : string) : bool :=
  match v with JStr s => bool_decide (s = text) | _ => false end.

(** [!v || !v.trim()]; no result is the [TypeError] of a truthy value
    that is no string. *)
Definition blank (v : option json) : option bool :=
  if truthy_value v then
    match v with
    | Some (JStr s) => Some (bool_decide (Js.trim s = ""))
    | _ => None
    end
  else Some true.

(** [items.filter((opt) => opt && opt.trim() !== "")] *)
Fixpoint nonblank (items : list json) : option (list string) :=
  match items with
  | [] => Some []
  | x :: rest =>
      if truthy_value (Some x) then
        match x with
        | JStr s =>
            rest' ← nonblank rest;
            Some (if bool_decide (Js.trim s = "") then rest' else s :: rest')
        | _ => None
        end
      else nonblank rest
  end.

(** [v.filter(...)] on a truthy value: only an array has the method. *)
Definition filter_options (v : json) : option (list string) :=
  match v with JArr items => nonblank items | _ => None end.

(** [options.includes(v)] on an array of strings. *)
Definition among (options : list string) (v : option json) : bool :=
  match v with
  | Some (JStr s) => Js.includes options s
  | _ => false
  end.

(** [type === "multiple-choice" || type === "checkbox"] *)
Definition choice (type : json) : bool :=
  is_text type "multiple-choice" || is_text type "checkbox".

(** [list.find((x) => x.id === id)] for a value [id]. *)
Definition find_question (l : list Question.t) (i : json)
  : option Question.t :=
  match i with
  | JStr s => List.find (λ q, bool_decide (Question.id q = s)) l
  | _ => None
  end.

(** The first element the test selects is replaced. *)
Fixpoint replace_first {A} (p : A → bool) (f : A → A) (l : list A)
  : list A :=
  match l with
  | [] => []
  | x :: rest => if p x then f x :: rest else x :: replace_first p f rest
  end.

(** [l.splice(l.findIndex(p), 1)] *)
Fixpoint remove_first {A} (p : A → bool) (l : list A) : list A :=
  match l with
  | [] => []
  | x :: rest => if p x then rest else x :: remove_first p rest
  end.

(** [req.user?.id || "system"] *)
Definition actor (userId : option string) : string :=
  if Js.truthy userId then default "" userId else "system".

(** *** Questions *)

(** [router.post("/questions")]; [uuid] is the value of [uuidv4()]. *)
Definition post_question (now : Z) (uuid : string) (st : State)
    (body : option (list (string * json))) : State * Answer Question.t :=
  match body with
  | None => (st, Refused 400 "Request body is required")
  | Some body =>
      let caught := (st, Caught "Internal server error") in
      let questionText :=
        or_value (field "pertanyaan" body) (field "question" body) in
      match blank questionText with
      | None => caught
      | Some true => (st, Refused 400 "Question text is required")
      | Some false =>
          let text :=
            match questionText with
            | Some (JStr s) => Js.trim s
            | _ => ""
            end in
          if negb (truthy_value (field "type" body)) then
            (st, Refused 400 "Question type is required")
          else
            let type := default JNull (field "type" body) in
            let questionOptions :=
              default (JArr [])
                (or_value
                   (or_value (field "pilihan" body) (field "options" body))
                   (Some (JArr []))) in
            let correctAns :=
              or_value (field "jawabanBenar" body)
                       (field "correctAnswer" body) in
            let kategori :=
              default JNull
                (or_value
                   (or_value (field "kategori" body) (field "category" body))
                   (Some (JStr "Other"))) in
            let tingkatKesulitan :=
              default JNull
                (or_value
                   (or_value (field "tingkatKesulitan" body)
                             (field "difficulty" body))
                   (Some (JStr "Medium"))) in
            let image :=
              default JNull (or_value (field "image" body) (Some JNull)) in
            let store pilihan :=
              let newQuestion :=
                Question.mk uuid text type pilihan correctAns kategori
                  tingkatKesulitan None None image now now None in
              (mkState (questions st ++ [newQuestion]) (exams st),
               Sent 201 newQuestion) in
            if choice type then
              match filter_options questionOptions with
              | None => caught
              | Some validOptions =>
                  if Z.of_nat (length validOptions) <? 2 then
                    (st, Refused 400
                           "At least 2 options are required for this question type")
                  else if negb (truthy_value correctAns) then
                    (st, Refused 400
                           "Correct answer is required for this question type")
                  else if negb (among validOptions correctAns) then
                    (st, Refused 400
                           "Correct answer must be one of the options")
                  else store (Some validOptions)
              end
            else store None
      end
  end.


(** [...(v !== undefined && { key: v })] on one property. *)
Definition given {A} (v : option A) (old : A) : A := default old v.

(** [router.put("/questions/:id")] *)
Definition put_question (now : Z) (userId : option string) (st : State)
    (i : string) (body : option (list (string * json)))
  : State * Answer Question.t :=
  match find_question (questions st) (JStr i) with
  | None => (st, Refused 404 "Question not found")
  | Some old =>
      let caught := (st, Caught "Failed to update question") in
      match body with
      | None => caught
      | Some body =>
          let questionText :=
            or_value (field "pertanyaan" body) (field "question" body) in
          let questionOptions :=
            or_value (field "pilihan" body) (field "options" body) in
          let correctAns :=
            or_value (field "jawabanBenar" body)
                     (field "correctAnswer" body) in
          let questionCategory :=
            or_value (field "kategori" body) (field "category" body) in
          let questionDifficulty :=
            or_value (field "tingkatKesulitan" body)
                     (field "difficulty" body) in
          let questionExplanation :=
            or_value (field "penjelasan" body) (field "explanation" body) in
          let text : option (option string) :=
            if truthy_value questionText then
              match questionText with
              | Some (JStr s) => Some (Some (Js.trim s))
              | _ => None
              end
            else Some None in
          let pilihan : option (option (list string)) :=
            match questionOptions with
            | None => Some None
            | Some (JArr items) => Some <$> nonblank items
            | Some _ => Some (Some [])
            end in
          match text, pilihan with
          | None, _ => caught
          | Some (Some ""), _ =>
              (st, Refused 400 "Question text cannot be empty")
          | Some _, None => caught
          | Some text, Some pilihan =>
              let updatedQuestion :=
                Question.mk (Question.id old)
                  (given text (Question.pertanyaan old))
                  (if truthy_value (field "type" body)
                   then default JNull (field "type" body)
                   else Question.type old)
                  (match pilihan with
                   | Some l => Some l
                   | None => Question.pilihan old
                   end)
                  (match correctAns with
                   | Some v => Some v
                   | None => Question.jawabanBenar old
                   end)
                  (given questionCategory (Question.kategori old))
                  (given questionDifficulty (Question.tingkatKesulitan old))
                  (match questionExplanation with
                   | Some v => Some v
                   | None => Question.penjelasan old
                   end)
                  (match field "tags" body with
                   | Some v => Some v
                   | None => Question.tags old
                   end)
                  (given (field "image" body) (Question.image old))
                  (Question.createdAt old) now (Some (actor userId)) in
              (mkState
                 (replace_first (λ q, bool_decide (Question.id q = i))
                    (λ _, updatedQuestion) (questions st))
                 (exams st),
               Sent 200 updatedQuestion)
          end
      end
  end.





(** [questionIds.includes(q.id)] *)
Definition listed (ids : list json) (i : string) : bool :=
  existsb (λ x, is_text x i) ids.

(** [router.put("/questions-reorder")] *)
Definition reorder (st : State) (body : option (list (string * json)))
  : State * Answer () :=
  match body with
  | None => (st, Caught "Failed to reorder questions")
  | Some body =>
      match field "questionIds" body with
      | Some (JArr questionIds) =>
          let reorderedQuestions :=
            omap (find_question (questions st)) questionIds in
          let remainingQuestions :=
            List.filter (λ q, negb (listed questionIds (Question.id q)))
                        (questions st) in
          (mkState (reorderedQuestions ++ remainingQuestions) (exams st),
           Sent 200 ())
      | _ => (st, Refused 400 "Question IDs must be an array")
      end
  end.

(** *** Exams *)

(** [settings?.key] *)
Definition prop (key : string) (settings : option json) : option json :=
  match settings with
  | Some (JObj fields) => field key fields
  | _ => None
  end.

(** The own enumerable properties [{ ...v }] copies. *)
Definition spread (v : option json) : list (string * json) :=
  match v with
  | Some (JObj fields) => fields
  | Some (JArr items) => imap (λ k x, (pretty (Z.of_nat k), x)) items
  | Some (JStr s) =>
      imap (λ k c, (pretty (Z.of_nat k), JStr (String c "")))
           (list_ascii_of_string s)
  | _ => []
  end.

(** [{ ...o, ...v }] *)
Definition assign (o : list (string * json)) (v : option json)
  : list (string * json) :=
  foldl (λ acc kv, set_field kv.1 kv.2 acc) o (spread v).

(** [description?.trim() || ""] *)
Definition describe (v : option json) : option string :=
  match v with
  | None | Some JNull => Some ""
  | Some (JStr s) => Some (Js.trim s)
  | Some _ => None
  end.

Definition default_settings (settings : option json)
  : list (string * json) :=
  let or_else key fallback :=
    (key, default JNull (or_value (prop key settings) (Some fallback))) in
  let unless_false key :=
    (key, JBool (negb match prop key settings with
                      | Some (JBool false) => true
                      | _ => false
                      end)) in
  [ or_else "timeLimit" JNull;
    or_else "shuffleQuestions" (JBool false);
    unless_false "showResults";
    unless_false "allowReview";
    or_else "passingScore" (JNum 70);
    or_else "maxAttempts" (JNum 1) ].

(** [router.post("/exams")] *)
Definition post_exam (now : Z) (uuid : string) (userId : option string)
    (st : State) (body : option (list (string * json)))
  : State * Answer Exam.t :=
  let caught := (st, Caught "Failed to create exam") in
  match body with
  | None => caught
  | Some body =>
      match blank (field "title" body) with
      | None => caught
      | Some true => (st, Refused 400 "Exam title is required")
      | Some false =>
          let title :=
            match field "title" body with
            | Some (JStr s) => Js.trim s
            | _ => ""
            end in
          match field "questionIds" body with
          | Some (JArr (first :: rest)) =>
              let questionIds := first :: rest in
              let examQuestions :=
                omap (find_question (questions st)) questionIds in
              if negb (bool_decide (length examQuestions
                                    = length questionIds)) then
                (st, Refused 400 "Some question IDs are invalid")
              else
                match describe (field "description" body) with
                | None => caught
                | Some description =>
                    let settings := field "settings" body in
                    let newExam :=
                      Exam.mk uuid title description examQuestions
                        (Z.of_nat (length examQuestions))
                        (assign (default_settings settings) settings)
                        (JStr "draft") now now (actor userId) None None in
                    (mkState (questions st) (exams st ++ [newExam]),
                     Sent 201 newExam)
                end
          | _ => (st, Refused 400 "At least one question is required")
          end
      end
  end.

Definition find_exam (l : list Exam.t) (i : string) : option Exam.t :=
  List.find (λ e, bool_decide (Exam.id e = i)) l.

(** [router.get("/exams/:id")] *)
Definition get_exam (st : State) (i : string) : Answer Exam.t :=
  match find_exam (exams st) i with
  | None => Refused 404 "Exam not found"
  | Some exam => Sent 200 exam
  end.

(** [router.put("/exams/:id")] *)
Definition put_exam (now : Z) (userId : option string) (st : State)
    (i : string) (body : option (list (string * json)))
  : State * Answer Exam.t :=
  match find_exam (exams st) i with
  | None => (st, Refused 404 "Exam not found")
  | Some old =>
      let caught := (st, Caught "Failed to update exam") in
      match body with
      | None => caught
      | Some body =>
          let questionIds := field "questionIds" body in
          let examQuestions : option (option (list Question.t)) :=
            if truthy_value questionIds then
              match questionIds with
              | Some (JArr ids) =>
                  Some (Some (omap (find_question (questions st)) ids))
              | _ => None
              end
            else Some None in
          let title : option (option string) :=
            if truthy_value (field "title" body) then
              match field "title" body with
              | Some (JStr s) => Some (Some (Js.trim s))
              | _ => None
              end
            else Some None in
          let description : option (option string) :=
            match field "description" body with
            | None => Some None
            | Some v => Some <$> describe (Some v)
            end in
          match examQuestions, title, description with
          | Some examQuestions, Some title, Some description =>
              let settings := field "settings" body in
              let updatedExam :=
                Exam.mk (Exam.id old)
                  (given title (Exam.title old))
                  (given description (Exam.description old))
                  (given examQuestions (Exam.questions old))
                  (match examQuestions with
                   | Some l => Z.of_nat (length l)
                   | None => Exam.questionCount old
                   end)
                  (if truthy_value settings
                   then assign (Exam.settings old) settings
                   else Exam.settings old)
                  (if truthy_value (field "status" body)
                   then default JNull (field "status" body)
                   else Exam.status old)
                  (Exam.createdAt old) now (Exam.createdBy old)
                  (Some (actor userId)) (Exam.publishedAt old) in
              (mkState (questions st)
                 (replace_first (λ e, bool_decide (Exam.id e = i))
                    (λ _, updatedExam) (exams st)),
               Sent 200 updatedExam)
          | _, _, _ => caught
          end
      end
  end.

(** [router.delete("/exams/:id")] *)
Definition delete_exam (st : State) (i : string) : State * Answer () :=
  match find_exam (exams st) i with
  | None => (st, Refused 404 "Exam not found")
  | Some _ =>
      (mkState (questions st)
         (remove_first (λ e, bool_decide (Exam.id e = i)) (exams st)),
       Sent 200 ())
  end.

(** [router.put("/exams/:id/publish")] *)
Definition publish (now : Z) (st : State) (i : string)
  : State * Answer Exam.t :=
  match find_exam (exams st) i with
  | None => (st, Refused 404 "Exam not found")
  | Some exam =>
      if bool_decide (length (Exam.questions exam) = 0%nat) then
        (st, Refused 400 "Cannot publish exam without questions")
      else
        let published :=
          Exam.mk (Exam.id exam) (Exam.title exam) (Exam.description exam)
            (Exam.questions exam) (Exam.questionCount exam)
            (Exam.settings exam) (JStr "published") (Exam.createdAt exam)
            now (Exam.createdBy exam) (Exam.updatedBy exam) (Some now) in
        (mkState (questions st)
           (replace_first (λ e, bool_decide (Exam.id e = i))
              (λ _, published) (exams st)),
         Sent 200 published)
  end.

End ExamRoutes.

(** ** backend/routes/files.js, backend/models/file.js

    The upload route, from the file filter of [multer] to the answer.
    A text field of the multipart body is a string or absent. *)

Module FileRoutes.

Definition SCHEDULE_CATEGORY : string := "jadwal_perawat".

Definition ALLOWED_EXCEL_TYPES : list string :=
  [ "application/vnd.ms-excel";
    "application/vnd.openxmlformats-officedocument.spreadsheetml.sheet" ].

Definition allowedTypes : list string :=
  [ "application/pdf"; "application/msword";
    "application/vnd.openxmlformats-officedocument.wordprocessingml.document" ]
  ++ ALLOWED_EXCEL_TYPES
  ++ [ "application/vnd.ms-powerpoint";
       "application/vnd.openxmlformats-officedocument.presentationml.presentation";
       "text/plain"; "image/jpeg"; "image/png"; "image/gif";
       "application/zip"; "application/x-zip-compressed" ].

(** [fileFilter]: [cb(null, true)] or [cb(new Error(message), false)].
    [category] is [req.body.category] at the moment the file part
    starts: the field counts only when it precedes the file. *)
Definition fileFilter (category : option string) (mimetype : string)
  : Result () :=
  if bool_decide (category = Some SCHEDULE_CATEGORY)
     && negb (Js.includes ALLOWED_EXCEL_TYPES mimetype)
  then inl (Thrown "Only Excel files allowed for nurse schedules")
  else if Js.includes allowedTypes mimetype then inr ()
  else inl (Thrown "File type not allowed").

Definition typeMap : gmap string string :=
  list_to_map
    [ ("application/pdf", "pdf");
      ("application/msword", "docx");
      ("application/vnd.openxmlformats-officedocument.wordprocessingml.document",
       "docx");
      ("application/vnd.ms-excel", "xlsx");
      ("application/vnd.openxmlformats-officedocument.spreadsheetml.sheet",
       "xlsx");
      ("application/vnd.ms-powerpoint", "ppt");
      ("application/vnd.openxmlformats-officedocument.presentationml.presentation",
       "ppt");
      ("text/plain", "txt");
      ("image/jpeg", "img"); ("image/png", "img"); ("image/gif", "img");
      ("application/zip", "zip");
      ("application/x-zip-compressed", "zip") ].

(** [typeMap[mimetype] || "default"] *)
Definition getFileType (mimetype : string) : string :=
  match typeMap !! mimetype with
  | Some t => if bool_decide (t = "") then "default" else t
  | None => "default"
  end.

(** The paths of the file schema; [month], [year] and [unit] are the
    paths under [metadata]. *)
Module File.
Record t := mk {
  _id : string;
  fileName : string;
  originalName : string;
  displayName : string;
  category : string;
  fileType : string;
  size : Z;
  path : string;
  url : string;
  uploadedBy : option string;
  month : option string;
  year : option Z;
  unit : option string;
  uploadedAt : Z;
  downloadCount : Z;
  isActive : bool;
  createdAt : Z;
  updatedAt : Z;
}.
End File.

Definition categories : list string :=
  ["guidelines"; "templates"; "references"; "nurse_schedules"].

Definition months : list string :=
  [ "Januari"; "Februari"; "Maret"; "April"; "Mei"; "Juni"; "Juli";
    "Agustus"; "September"; "Oktober"; "November"; "Desember" ].

(** [required] on a path that holds a string. *)
Definition present (v : option string) : bool := Js.truthy v.

(** Document validation: the paths that fail.  [uncast] lists the
    paths whose value the ORM could not cast. *)
Definition validate (f : File.t) (uncast : list string) : list string :=
  let schedule := bool_decide (File.category f = "nurse_schedules") in
  UserModel.failing "fileName" (present (Some (File.fileName f))) ++
  UserModel.failing "originalName" (present (Some (File.originalName f))) ++
  UserModel.failing "displayName" (present (Some (File.displayName f))) ++
  UserModel.failing "category"
    (present (Some (File.category f))
     && Js.includes categories (File.category f)) ++
  UserModel.failing "fileType" (present (Some (File.fileType f))) ++
  UserModel.failing "path" (present (Some (File.path f))) ++
  UserModel.failing "url" (present (Some (File.url f))) ++
  UserModel.failing "uploadedBy"
    (negb (Js.includes uncast "uploadedBy")
     && bool_decide (File.uploadedBy f ≠ None)) ++
  UserModel.failing "metadata.month"
    (match File.month f with
     | Some m => Js.includes months m
     | None => negb schedule
     end) ++
  UserModel.failing "metadata.year"
    (negb (Js.includes uncast "metadata.year")
     && (bool_decide (File.year f ≠ None) || negb schedule)) ++
  UserModel.failing "metadata.unit"
    (match File.unit f with
     | Some u => negb schedule || negb (bool_decide (u = ""))
     | None => negb schedule
     end).

(** What [multer] hands over as [req.file]. *)
Record Upload := mkUpload {
  filename : string;
  originalname : string;
  mimetype : string;
  bytes : Z;                        (* [req.file.size] *)
  location : string;                (* [req.file.path] *)
}.

(** The text fields of the body. *)
Record Fields := mkFields {
  displayName : option string;
  category : option string;
  month : option string;
  unit : option string;
  year : option string;
}.

(** How the route ends: with a response, or with an error handed to
    the error handler of the application. *)
Inductive Answer : Type :=
| Sent (res : Response)
| Failed (e : Error).

(** The state after the request: the collection, the answer, and
    whether the uploaded file is left in the upload directory. *)
Record Outcome := mkOutcome {
  files : list File.t;
  answer : Answer;
  on_disk : bool;
}.

Section WithOrm.

Variable L : Library.

(** The ORM's casts of a text to an [ObjectId] and to a [Number]. *)
Variable castObjectId : string → option string.
Variable castNumber : string → option Z.

(** [new Date(now).getFullYear()] *)
Variable getFullYear : Z → Z.

(** [formatFileSize(bytes)], a text computed in floating point. *)
Variable formatFileSize : Z → string.

(** The pre-save hook of the schema. *)
Definition pre_save (f : File.t) : File.t :=
  if bool_decide (File.category f = "nurse_schedules")
     && bool_decide (File.displayName f = "")
  then
    let text {A} (show : A → string) (v : option A) :=
      match v with Some a => show a | None => "undefined" end in
    File.mk (File._id f) (File.fileName f) (File.originalName f)
      ("Jadwal Perawat " +:+ text (λ s, s) (File.unit f) +:+ " - "
       +:+ text (λ s, s) (File.month f) +:+ " "
       +:+ text pretty (File.year f))
      (File.category f) (File.fileType f) (File.size f) (File.path f)
      (File.url f) (File.uploadedBy f) (File.month f) (File.year f)
      (File.unit f) (File.uploadedAt f) (File.downloadCount f)
      (File.isActive f) (File.createdAt f) (File.updatedAt f)
  else f.

(** [year || new Date().getFullYear()], as the text the template shows
    and as the number the schema holds, if it casts. *)
Definition year_text (now : Z) (year : option string) : string :=
  if Js.truthy year then default "" year else pretty (getFullYear now).

Definition year_number (now : Z) (year : option string) : option Z :=
  if Js.truthy year then castNumber (default "" year)
  else Some (getFullYear now).

(** The handler of [router.post("/")], behind [auth],
    [requireRole(["admin", "kepala-unit"])] and [upload.single("file")];
    [userId] is [req.user.id] and [oid] the [_id] of the new
    document. *)
Definition handler (now : Z) (oid : string) (stored : list File.t)
    (userId : option string) (file : option Upload) (body : Fields)
  : Outcome :=
  match file with
  | None => mkOutcome stored (Sent (failure 400 "No file provided")) false
  | Some file =>
      let schedule :=
        bool_decide (category body = Some SCHEDULE_CATEGORY) in
      if schedule && (Js.falsy (month body) || Js.falsy (unit body)) then
        mkOutcome stored
          (Sent (failure 400
                   "Month and unit are required for nurse schedules"))
          false
      else if schedule
              && negb (Js.includes ALLOWED_EXCEL_TYPES (mimetype file)) then
        mkOutcome stored
          (Sent (failure 400 "Only Excel files allowed for nurse schedules"))
          false
      else
        let name :=
          if Js.truthy (displayName body) then default "" (displayName body)
          else if schedule then
            "Jadwal Perawat " +:+ default "" (unit body) +:+ " - "
            +:+ default "" (month body) +:+ " " +:+ year_text now (year body)
          else originalname file in
        let uploadedBy := userId ≫= castObjectId in
        let uncast :=
          (if bool_decide (userId ≠ None)
              && bool_decide (uploadedBy = None)
           then ["uploadedBy"] else [])
          ++ (if schedule && bool_decide (year_number now (year body) = None)
              then ["metadata.year"] else []) in
        let newFile :=
          File.mk oid (Js.trim (filename file)) (Js.trim (originalname file))
            (Js.trim name)
            (if Js.truthy (category body) then default "" (category body)
             else "guidelines")
            (getFileType (mimetype file)) (bytes file) (location file)
            ("/api/files/download/" +:+ filename file)
            uploadedBy
            (if schedule then month body else None)
            (if schedule then year_number now (year body) else None)
            (if schedule then unit body else None)
            now 0 true now now in
        match validate newFile uncast with
        | [] =>
            let saved := pre_save newFile in
            mkOutcome (stored ++ [saved])
              (Sent (mkResponse 201
                 [ ("success", JBool true);
                   ("message", JStr "File uploaded successfully");
                   ("data",
                    JObj ([ ("id", JStr (File._id saved));
                            ("name", JStr (File.displayName saved));
                            ("category", JStr (File.category saved));
                            ("type", JStr (File.fileType saved));
                            ("size", JStr (formatFileSize (File.size saved)));
                            ("url", JStr (File.url saved)) ]
                          ++ if bool_decide (File.category saved
                                             = SCHEDULE_CATEGORY)
                             then opt_field "month" (File.month saved)
                                  ++ opt_field "unit" (File.unit saved)
                                  ++ match File.year saved with
                                     | Some y => [("year", JNum y)]
                                     | None => []
                                     end
                             else [])) ]))
              true
        | paths =>
            mkOutcome stored
              (Sent (mkResponse 500
                 [ ("success", JBool false);
                   ("message", JStr (message L (ValidationError paths))) ]))
              false
        end
  end.

(** The limit of [multer] on the size of a file. *)
Definition fileSize : Z := 50 * 1024 * 1024.

(** The error-handling middleware at the end of the router, for the
    errors of [upload.single]. *)
Definition too_large : Answer :=
  Sent (failure 400 "File too large. Maximum size is 50MB.").

Definition on_error (e : Error) : Answer :=
  if bool_decide (message L e = "File type not allowed") then
    Sent (failure 400
            "File type not allowed. Please upload PDF, DOC, XLS, PPT, TXT, images, or ZIP files.")
  else Failed e.

(** [upload.single("file")] and the handler.  [seen] is the category
    field as far as it precedes the file part. *)
Definition post (now : Z) (oid : string) (stored : list File.t)
    (userId : option string) (seen : option string) (file : option Upload)
    (body : Fields) : Outcome :=
  match file with
  | None => handler now oid stored userId None body
  | Some upload =>
      match fileFilter seen (mimetype upload) with
      | inl e => mkOutcome stored (on_error e) false
      | inr _ =>
          if fileSize <? bytes upload
          then mkOutcome stored too_large false
          else handler now oid stored userId (Some upload) body
      end
  end.

End WithOrm.

End FileRoutes.

(** ** A concrete setting

    One instance of the libraries and a small collection, on which the
    statements below are exercised. *)

Module Demo.

Definition env : Env := mkEnv (Some "s3cret") None.

Definition now : Z := 1700000000000.

(** An active nurse whose record passes every validator. *)
Definition nurse : UserModel.User :=
  UserModel.mkUser "65a000000000000000000001"
    "0b1f6a58-3c1d-4e59-9f0a-5d2c7a1e4b10" "nurseA" (Some "Nurse A")
    "a@x.com" (Some "$2a$12$secret123") (Some "NPK0001") "perawat" []
    (Some "ICU") true None 1690000000000 1690000000000.

(** The same nurse after a soft delete. *)
Definition retired : UserModel.User := UserModel.set_isActive false nurse.

(** An administrator turned nurse by a role update: no npk is held. *)
Definition promoted : UserModel.User :=
  UserModel.mkUser "65a000000000000000000002"
    "7c9e6679-7425-40de-944b-e07fc1f90ae7" "kepala" (Some "Kepala")
    "k@x.com" (Some "$2a$12$rahasia99") None "perawat" []
    (Some "ICU") true None 1690000000000 1695000000000.

Definition session_jwt : Jwt :=
  mkJwt (Server.session_payload nurse) "s3cret"
        1700000000 (Some 1700086400).

Definition claims_jwt : Jwt :=
  mkJwt (mkPayload (Some (AuthRoutes.userPayload nurse)) Claims.empty None)
        "s3cret" 1700000000 (Some 1700086400).

(** A second session of the same nurse, opened a minute earlier. *)
Definition earlier_jwt : Jwt :=
  mkJwt (mkPayload (Some (AuthRoutes.userPayload nurse)) Claims.empty None)
        "s3cret" 1699999940 (Some 1700086340).

Definition render (j : Jwt) : string :=
  match p_userId (jwt_payload j) with
  | Some _ => "session.jwt"
  | None => if bool_decide (jwt_iat j = 1700000000)
            then "claims.jwt" else "earlier.jwt"
  end.

Definition parse (s : string) : option Jwt :=
  if bool_decide (s = "session.jwt") then Some session_jwt
  else if bool_decide (s = "claims.jwt") then Some claims_jwt
  else if bool_decide (s = "earlier.jwt") then Some earlier_jwt
  else None.

Definition as_string (v : json) : option string :=
  match v with JStr s => Some s | _ => None end.

Definition lib : Library :=
  mkLibrary render parse
    (λ plain, "$2a$12$" +:+ plain)
    (λ plain hash, bool_decide (hash = "$2a$12$" +:+ plain))
    as_string
    (λ v, match v with JBool b => Some b | _ => None end)
    (λ v, match v with JNum n => Some n | _ => None end)
    (λ v, match v with JArr l => mapM as_string l | _ => None end)
    (λ _, "User validation failed")
    (λ _, "").

Definition request (authHeader : option string) (u : option Claims.t)
  : Request :=
  mkRequest authHeader None u None None None.

Definition claims (i role : string) (permissions : list string) : Claims.t :=
  Claims.mk (Some i) None None (Some role) None None (Some permissions)
            None None None.

(** The body of the end-to-end registration scenario. *)
Definition nurseA : UserModel.UserData :=
  UserModel.mkUserData None (Some "nurseA") None (Some "a@x.com")
    (Some "secret123") None (Some "perawat") None (Some "ICU") None.

(** A registration as [mitra], and the record it makes. *)
Definition mitraB : UserModel.UserData :=
  UserModel.mkUserData None (Some "mitraB") None (Some "b@x.com")
    (Some "rahasia99") None (Some "mitra") None None None.

Definition mitra : UserModel.User :=
  UserModel.mkUser "65a000000000000000000004"
    "9a3b2c1d-0e4f-4a5b-8c6d-7e8f9a0b1c2d" "mitraB" (Some "")
    "b@x.com" (Some "$2a$12$rahasia99") None "mitra" []
    None true None now now.



(** The 24 hexadecimal digits of an [ObjectId], in lower case. *)
Definition castObjectId (s : string) : option string :=
  if bool_decide (String.length s = 24%nat)
     && forallb (λ c, bool_decide (Js.hex_value c ≠ None))
                (list_ascii_of_string s)
  then Some (Js.toLowerCase s) else None.

End Demo.

(** A bank of three questions and an exam over two of them. *)
Module DemoExams.
Import ExamRoutes.

Definition pulse : Question.t :=
  Question.mk "q-1" "What is the normal resting pulse of an adult?"
    (JStr "multiple-choice") (Some ["60-100"; "100-140"])
    (Some (JStr "60-100")) (JStr "Other") (JStr "Medium") None None JNull
    Demo.now Demo.now None.

Definition triage : Question.t :=
  Question.mk "q-2" "Describe the steps of triage."
    (JStr "short-answer") None None (JStr "Emergency") (JStr "Hard")
    None None (JStr "http://localhost:5000/uploads/questions/question-1.png")
    Demo.now Demo.now None.

Definition numbered : Question.t :=
  Question.mk "q-3" "Name the five moments of hand hygiene."
    (JStr "short-answer") None None (JStr "Other") (JStr "Medium")
    None None (JNum 5) Demo.now Demo.now None.

Definition bank : list Question.t := [pulse; triage; numbered].

Definition quiz : Exam.t :=
  Exam.mk "e-1" "Basics" "" [pulse; triage] 2
    (default_settings None) (JStr "draft") Demo.now Demo.now "system"
    None None.

Definition state : State := mkState bank [quiz].

End DemoExams.

(** An upload of a PDF and one of a spreadsheet, and stand-ins for the
    casts and the formatting of the runtime. *)
Module DemoFiles.
Import FileRoutes.

Definition guide : Upload :=
  mkUpload "file-1700000000000-1.pdf" "Hand hygiene.pdf" "application/pdf"
    20480 "uploads/files/file-1700000000000-1.pdf".

Definition roster : Upload :=
  mkUpload "file-1700000000000-2.xlsx" "Jadwal ICU.xlsx"
    "application/vnd.ms-excel" 10240
    "uploads/files/file-1700000000000-2.xlsx".

Definition castNumber (s : string) : option Z := Js.parseInt_any (Some s).

Definition getFullYear (now : Z) : Z := 1970 + now `div` 31556952000.

Definition formatFileSize (bytes : Z) : string := pretty bytes +:+ " Bytes".

Definition post :=
  FileRoutes.post Demo.lib Demo.castObjectId castNumber getFullYear
    formatFileSize.

End DemoFiles.

(** ** Proof steps *)

(** A path outside the allow-list of [updateUser] is none of its eight
    names. *)
Ltac outside_allow_list Hpath :=
  exfalso; apply Hpath; apply list_elem_of_In; simpl; tauto.

(** A setter leaves the value at every other path alone. *)
Ltac frame_of_setter Hpath :=
  intros [];
  unfold UserModel.path_value; simpl;
  repeat (case_bool_decide; [try done|]); try done;
  subst; outside_allow_list Hpath.

(** * Properties *)

(** ** Permission checks *)

Lemma includes_spec (l : list string) (x : string) :
  Js.includes l x = true ↔ x ∈ l.
Proof. unfold Js.includes. by rewrite bool_decide_eq_true. Qed.

Lemma includes_false (l : list string) (x : string) :
  Js.includes l x = false ↔ x ∉ l.
Proof. unfold Js.includes. by rewrite bool_decide_eq_false. Qed.





(** ** What [authenticateToken] leaves on the request *)

Section Authenticate.

Variable L : Library.
Variable env : Env.

(** Every way out of [authenticateToken] through [next()] has set
    [req.user] to a bundle with a non-empty role, and nothing else. *)
Lemma authenticateToken_next now req req' :
  RoleAuth.authenticateToken L env now req = Next req' →
  ∃ u, req' = with_user (Some u) req ∧ Js.truthy (Claims.role u) = true.
Proof.
  unfold RoleAuth.authenticateToken.
  destruct (Js.falsy (bearer _)); [done|].
  destruct (JsonWebToken.verify _ _ _ _) as [?|decoded]; [done|].
  destruct (p_user decoded) as [u|].
  - destruct (Js.falsy (Claims.role u)) eqn:Hrole; [done|].
    intros [= <-]. exists u. unfold Js.truthy. by rewrite Hrole.
  - destruct (Js.truthy (Claims.role (p_flat decoded))) eqn:Hrole; [|done].
    simpl. unfold Js.truthy in Hrole.
    destruct (Js.falsy (Claims.role (p_flat decoded))) eqn:Hf; [done|].
    intros [= <-]. eexists. split; [done|]. simpl.
    unfold Js.truthy. by rewrite Hf.
Qed.

End Authenticate.

(** C10.  When [authenticateToken] calls [next()], the request carries a
    [user] whose role is non-empty; on such a request neither
    [requireRole] nor [requireMinimumRole] can answer 401 "User not
    authenticated" or 403 "User role not defined". *)
Theorem authenticateToken_guards_unreachable (L : Library) (env : Env)
    (now : Z) (req req' : Request) :
  RoleAuth.authenticateToken L env now req = Next req' →
  (∃ u, user req' = Some u ∧ Js.truthy (Claims.role u) = true)
  ∧ (∀ allowedRoles,
       RoleAuth.requireRole allowedRoles req'
         ≠ Respond RoleAuth.not_authenticated
       ∧ RoleAuth.requireRole allowedRoles req'
         ≠ Respond RoleAuth.role_not_defined)
  ∧ (∀ minimumRole,
       RoleAuth.requireMinimumRole minimumRole req'
         ≠ Respond RoleAuth.not_authenticated
       ∧ RoleAuth.requireMinimumRole minimumRole req'
         ≠ Respond RoleAuth.role_not_defined).
Proof.
  intros (u & -> & Hrole)%authenticateToken_next.
  split; [by exists u|].
  unfold Js.truthy in Hrole. apply negb_true_iff in Hrole. split.
  - intros allowedRoles. unfold RoleAuth.requireRole. simpl. rewrite Hrole.
    destruct (negb _); split; discriminate.
  - intros minimumRole. unfold RoleAuth.requireMinimumRole. simpl.
    destruct (_ <? _); split; discriminate.
Qed.

Lemma authenticateToken_guards_unreachable_witness :
  let req := Demo.request (Some "Bearer claims.jwt") None in
  let req' := with_user (Some (AuthRoutes.userPayload Demo.nurse)) req in
  RoleAuth.authenticateToken Demo.lib Demo.env Demo.now req = Next req'
  ∧ (∀ allowedRoles,
       RoleAuth.requireRole allowedRoles req'
         ≠ Respond RoleAuth.not_authenticated
       ∧ RoleAuth.requireRole allowedRoles req'
         ≠ Respond RoleAuth.role_not_defined)
  ∧ RoleAuth.requireRole ["admin"] req'
    = Respond (mkResponse 403
        [ ("success", JBool false);
          ("message", JStr "Insufficient permissions. Required roles: admin");
          ("userRole", JStr "perawat") ]).
Proof.
  intros req req'.
  split; [reflexivity|].
  split; [|reflexivity].
  apply (authenticateToken_guards_unreachable Demo.lib Demo.env Demo.now
           req req' eq_refl).
Defined.

(** ** Tokens issued by the server's login *)

Section SessionTokens.

Variable L : Library.
Variable env : Env.

Lemma login_error_status err : status (Server.login_error L env err) = 500.
Proof. unfold Server.login_error. by destruct (Js.contains _ _). Qed.

(** The token of a 200 response is the signature of [{ userId }] for
    the record that was found, and of nothing more. *)
Lemma login_issues_session_payload now db identifier password db' res :
  Server.login L env now db identifier password = (db', res) →
  status res = 200 →
  ∃ u secret,
    u ∈ db ∧ JWT_SECRET env = Some secret ∧ secret ≠ "" ∧
    field "token" (body res)
    = Some (JStr (JsonWebToken.sign L (Server.session_payload u)
                    secret now 86400)).
Proof.
  unfold Server.login.
  destruct (_ || _); [by intros [= <- <-]|].
  destruct (UserModel.findOne _ db) as [u|] eqn:Hfind;
    [|by intros [= <- <-]].
  assert (u ∈ db) as Hin.
  { unfold UserModel.findOne in Hfind.
    apply head_Some_elem_of in Hfind.
    apply list_elem_of_In, filter_In in Hfind as [Hin _].
    by apply list_elem_of_In. }
  destruct (UserModel.comparePassword _ _ _ _) as [err|[|]].
  - intros [= <- <-]. by rewrite login_error_status.
  - destruct (Js.falsy (JWT_SECRET env)) eqn:Hsecret.
    { intros [= <- <-]. by rewrite login_error_status. }
    destruct (UserModel.save _ _ _ _) as [err|[db1 saved]].
    { intros [= <- <-]. by rewrite login_error_status. }
    intros [= <- <-] _.
    destruct (JWT_SECRET env) as [secret|]; [|done].
    exists u, secret. simpl in Hsecret. apply bool_decide_eq_false in Hsecret.
    done.
  - by intros [= <- <-].
Qed.

(** A token that decodes to a payload without [user] and without
    [role] does not get past [authenticateToken], whatever its key or
    age. *)
Lemma authenticateToken_rejects_bare_payload now req tok j :
  bearer (authorization req) = Some tok →
  tok ≠ "" →
  jwt_parse L tok = Some j →
  p_user (jwt_payload j) = None →
  Claims.role (p_flat (jwt_payload j)) = None →
  RoleAuth.authenticateToken L env now req = Respond RoleAuth.invalid_token.
Proof.
  intros Hbearer Hne Hparse Huser Hrole.
  unfold RoleAuth.authenticateToken. rewrite Hbearer. simpl.
  rewrite bool_decide_eq_false_2 by done.
  unfold JsonWebToken.verify. rewrite Hparse.
  destruct (Js.falsy (JWT_SECRET env)); [done|].
  destruct (negb _); [done|].
  destruct (jwt_exp j) as [exp|].
  - destruct (exp <=? _); [done|]. by rewrite Huser, Hrole.
  - by rewrite Huser, Hrole.
Qed.

End SessionTokens.

(** C2, as the code has it.  Whenever the server's login answers 200,
    the token it returns is the signature of [{ userId }] alone: it
    carries neither a role nor any other claim, and a request that
    presents it is turned away by the [authenticateToken] stage of
    [roleAuth.js] with 403 "Invalid or expired token". *)
Theorem login_token_rejected (L : Library) (env : Env) (now : Z)
    (db db' : UserModel.Collection) (identifier password : option string)
    (res : Response) :
  Server.login L env now db identifier password = (db', res) →
  status res = 200 →
  ∃ u secret,
    u ∈ db ∧ JWT_SECRET env = Some secret ∧
    let j := mkJwt (Server.session_payload u) secret
                   (now `div` 1000) (Some (now `div` 1000 + 86400)) in
    field "token" (body res) = Some (JStr (jwt_render L j))
    ∧ p_user (jwt_payload j) = None
    ∧ Claims.role (p_flat (jwt_payload j)) = None
    ∧ ∀ now' req,
        bearer (authorization req) = Some (jwt_render L j) →
        jwt_render L j ≠ "" →
        jwt_parse L (jwt_render L j) = Some j →
        RoleAuth.authenticateToken L env now' req
        = Respond RoleAuth.invalid_token.
Proof.
  intros Hlogin Hok.
  destruct (login_issues_session_payload L env _ _ _ _ _ _ Hlogin Hok)
    as (u & secret & Hin & Hsecret & _ & Htoken).
  exists u, secret. repeat split; try done.
  intros now' req Hbearer Hne Hparse.
  by eapply authenticateToken_rejects_bare_payload.
Qed.

Lemma login_token_rejected_witness :
  let db' := [ UserModel.set_updatedAt Demo.now
                 (UserModel.set_lastLogin (Some Demo.now) Demo.nurse) ] in
  let res := mkResponse 200
      [ ("success", JBool true);
        ("message", JStr "Login successful");
        ("user", JObj [ ("_id", JStr "65a000000000000000000001");
                        ("username", JStr "nurseA");
                        ("email", JStr "a@x.com");
                        ("role", JStr "perawat");
                        ("createdAt", JNum 1690000000000);
                        ("lastLogin", JNum Demo.now) ]);
        ("token", JStr "session.jwt") ] in
  Server.login Demo.lib Demo.env Demo.now [Demo.nurse]
    (Some "nurseA") (Some "secret123") = (db', res)
  ∧ status res = 200
  ∧ ∃ u secret,
      u ∈ [Demo.nurse] ∧ JWT_SECRET Demo.env = Some secret ∧
      let j := mkJwt (Server.session_payload u) secret
                     (Demo.now `div` 1000)
                     (Some (Demo.now `div` 1000 + 86400)) in
      field "token" (body res) = Some (JStr (jwt_render Demo.lib j))
      ∧ p_user (jwt_payload j) = None
      ∧ Claims.role (p_flat (jwt_payload j)) = None
      ∧ ∀ now' req,
          bearer (authorization req) = Some (jwt_render Demo.lib j) →
          jwt_render Demo.lib j ≠ "" →
          jwt_parse Demo.lib (jwt_render Demo.lib j) = Some j →
          RoleAuth.authenticateToken Demo.lib Demo.env now' req
          = Respond RoleAuth.invalid_token.
Proof.
  intros db' res.
  split; [reflexivity|]. split; [reflexivity|].
  apply (login_token_rejected Demo.lib Demo.env Demo.now [Demo.nurse] db'
           (Some "nurseA") (Some "secret123") res); reflexivity.
Defined.

(** The request the nurse then sends, and the answer of each of the two
    authentication stages: the server's own lets it through, the one of
    [roleAuth.js] does not.  The token of the auth router's login, which
    nests the claims under [user], is accepted. *)
Example session_token_at_both_stages :
  let req := Demo.request (Some "Bearer session.jwt") None in
  Server.authenticateToken Demo.lib Demo.env (Demo.now + 60000) req
  = Next (with_userId (Some "65a000000000000000000001") req)
  ∧ RoleAuth.authenticateToken Demo.lib Demo.env (Demo.now + 60000) req
    = Respond (failure 403 "Invalid or expired token")
  ∧ let req := Demo.request (Some "Bearer claims.jwt") None in
    RoleAuth.authenticateToken Demo.lib Demo.env (Demo.now + 60000) req
    = Next (with_user (Some (AuthRoutes.userPayload Demo.nurse)) req).
Proof. repeat split. Qed.

(** ** Revocation *)

Section Revocation.

Variable L : Library.
Variable env : Env.

Lemma addTokenToBlacklist_blacklist now tok st :
  AuthRoutes.tokenBlacklist (AuthRoutes.addTokenToBlacklist L now tok st)
  = {[ tok ]} ∪ AuthRoutes.tokenBlacklist st.
Proof.
  unfold AuthRoutes.addTokenToBlacklist.
  destruct (JsonWebToken.decode_exp L tok) as [exp|]; [|done].
  by destruct (bool_decide (exp = 0)).
Qed.

Lemma addTokenToBlacklist_users now tok st :
  AuthRoutes.users (AuthRoutes.addTokenToBlacklist L now tok st)
  = AuthRoutes.users st.
Proof.
  unfold AuthRoutes.addTokenToBlacklist.
  destruct (JsonWebToken.decode_exp L tok) as [exp|]; [|done].
  by destruct (bool_decide (exp = 0)).
Qed.

(** [verifyToken] reads the state through the blacklist test of the
    presented token only. *)
Lemma verifyToken_blacklist st st' now req :
  (∀ tok, AuthRoutes.request_token req = Some tok →
          AuthRoutes.isTokenBlacklisted st' tok
          = AuthRoutes.isTokenBlacklisted st tok) →
  AuthRoutes.verifyToken L env st' now req
  = AuthRoutes.verifyToken L env st now req.
Proof.
  intros H. unfold AuthRoutes.verifyToken.
  destruct (AuthRoutes.request_token req) as [tok|]; [|done].
  simpl. by rewrite (H tok eq_refl).
Qed.

Lemma verifyToken_next_token st now req req1 :
  AuthRoutes.verifyToken L env st now req = Next req1 →
  token req1 = Some (default "" (AuthRoutes.request_token req)).
Proof.
  unfold AuthRoutes.verifyToken.
  destruct (Js.falsy _); [done|].
  destruct (AuthRoutes.isTokenBlacklisted _ _); [done|].
  destruct (JsonWebToken.verify _ _ _ _) as [[]|decoded]; [done..|].
  by intros [= <-].
Qed.

End Revocation.

(** C3, as the code has it.  [addTokenToBlacklist], which the auth
    router calls on logout, puts the token into the revocation set; a
    [verifyToken] that follows at once answers 401 "Session expired.
    Please login again." for that very token, and answers for every
    other token as it did before.  The server's own
    [POST /api/auth/logout] handler keeps no state at all: it answers
    200 and leaves everything as it was. *)
Theorem revoked_token_is_refused (L : Library) (env : Env) (now : Z)
    (st : AuthRoutes.State) (tok : string) (req : Request) :
  AuthRoutes.request_token req = Some tok →
  tok ≠ "" →
  let st' := AuthRoutes.addTokenToBlacklist L now tok st in
  tok ∈ AuthRoutes.tokenBlacklist st'
  ∧ AuthRoutes.verifyToken L env st' now req
    = Respond AuthRoutes.session_expired
  ∧ (∀ req', AuthRoutes.request_token req' ≠ Some tok →
       AuthRoutes.verifyToken L env st' now req'
       = AuthRoutes.verifyToken L env st now req')
  ∧ (∀ req1, AuthRoutes.verifyToken L env st now req = Next req1 →
       AuthRoutes.logout L env st now req = (st', AuthRoutes.logged_out))
  ∧ Server.logout st req = (st, Server.logged_out).
Proof.
  intros Htok Hne st'.
  assert (tok ∈ AuthRoutes.tokenBlacklist st') as Hin.
  { unfold st'. rewrite addTokenToBlacklist_blacklist. set_solver. }
  split; [done|]. split.
  { unfold AuthRoutes.verifyToken. rewrite Htok. simpl.
    rewrite bool_decide_eq_false_2 by done.
    unfold AuthRoutes.isTokenBlacklisted.
    by rewrite bool_decide_eq_true_2. }
  split.
  { intros req' Hother. apply verifyToken_blacklist.
    intros tok' Htok'. unfold AuthRoutes.isTokenBlacklisted.
    apply bool_decide_ext. unfold st'.
    rewrite addTokenToBlacklist_blacklist, elem_of_union, elem_of_singleton.
    assert (tok' ≠ tok) by congruence. tauto. }
  split; [|done].
  intros req1 Hnext. unfold AuthRoutes.logout. rewrite Hnext.
  apply verifyToken_next_token in Hnext. rewrite Hnext, Htok. done.
Qed.

Lemma revoked_token_is_refused_witness :
  let st := AuthRoutes.mkState [Demo.nurse] ∅ [] in
  let req := Demo.request (Some "Bearer claims.jwt") None in
  AuthRoutes.request_token req = Some "claims.jwt"
  ∧ "claims.jwt" ≠ ""
  ∧ let st' :=
      AuthRoutes.addTokenToBlacklist Demo.lib Demo.now "claims.jwt" st in
    "claims.jwt" ∈ AuthRoutes.tokenBlacklist st'
    ∧ AuthRoutes.verifyToken Demo.lib Demo.env st' Demo.now req
      = Respond AuthRoutes.session_expired
    ∧ (∀ req', AuthRoutes.request_token req' ≠ Some "claims.jwt" →
         AuthRoutes.verifyToken Demo.lib Demo.env st' Demo.now req'
         = AuthRoutes.verifyToken Demo.lib Demo.env st Demo.now req')
    ∧ (∀ req1,
         AuthRoutes.verifyToken Demo.lib Demo.env st Demo.now req
         = Next req1 →
         AuthRoutes.logout Demo.lib Demo.env st Demo.now req
         = (st', AuthRoutes.logged_out))
    ∧ Server.logout st req = (st, Server.logged_out).
Proof.
  intros st req.
  split; [reflexivity|]. split; [discriminate|].
  apply (revoked_token_is_refused Demo.lib Demo.env Demo.now st
           "claims.jwt" req); [reflexivity|discriminate].
Defined.

(** The two logout handlers on the same session: after the server's
    own handler the token is in no revocation set and is verified as
    before; after the auth router's handler it is refused, while the
    nurse's other session stays valid. *)
Lemma server_logout_revokes_nothing :
  let st := AuthRoutes.mkState [Demo.nurse] ∅ [] in
  let req := Demo.request (Some "Bearer claims.jwt") None in
  let attached :=
    with_token (Some "claims.jwt")
      (with_user (Some (AuthRoutes.userPayload Demo.nurse)) req) in
  let st' := (Server.logout st req).1 in
  (Server.logout st req).2 = Server.logged_out
  ∧ ("claims.jwt" ∉ AuthRoutes.tokenBlacklist st')
  ∧ AuthRoutes.verifyToken Demo.lib Demo.env st' Demo.now req = Next attached
  ∧ AuthRoutes.verifyToken Demo.lib Demo.env st' Demo.now req
    ≠ Respond AuthRoutes.session_expired.
Proof.
  intros st req attached st'.
  split; [reflexivity|]. split; [set_solver|].
  split; [reflexivity|]. discriminate.
Qed.

Example router_logout_revokes :
  let st := AuthRoutes.mkState [Demo.nurse] ∅ [] in
  let req := Demo.request (Some "Bearer claims.jwt") None in
  let other := Demo.request (Some "Bearer earlier.jwt") None in
  let st' := (AuthRoutes.logout Demo.lib Demo.env st Demo.now req).1 in
  AuthRoutes.timers st' = [(1700086400000, "claims.jwt")]
  ∧ AuthRoutes.verifyToken Demo.lib Demo.env st' Demo.now req
    = Respond AuthRoutes.session_expired
  ∧ AuthRoutes.verifyToken Demo.lib Demo.env st' Demo.now other
    = Next (with_token (Some "earlier.jwt")
              (with_user (Some (AuthRoutes.userPayload Demo.nurse)) other)).
Proof. repeat split. Qed.

(** ** The collection: queries, writes and [save] *)

Module Store.

Import UserModel.

Lemma failing_nil path ok : failing path ok = [] ↔ ok = true.
Proof. unfold failing. destruct ok; split; done. Qed.

Lemma findOne_None p db :
  findOne p db = None ↔ ∀ r, r ∈ db → p r = false.
Proof.
  unfold findOne. induction db as [|x db IH]; simpl.
  - split; [|done]. intros _ r Hr. by apply elem_of_nil in Hr.
  - destruct (p x) eqn:Hx; simpl.
    + split; [done|]. intros H.
      specialize (H x (list_elem_of_here _ _)). congruence.
    + rewrite IH. split.
      * intros H r [->|Hr]%elem_of_cons; auto.
      * intros H r Hr. apply H. by apply list_elem_of_further.
Qed.

(** A record that is found has only non-matching records before it. *)
Lemma findOne_split p db u :
  findOne p db = Some u →
  ∃ pre post,
    db = pre ++ u :: post ∧ (∀ r, r ∈ pre → p r = false) ∧ p u = true.
Proof.
  unfold findOne. induction db as [|x db IH]; simpl; [done|].
  destruct (p x) eqn:Hx; simpl.
  - intros [= ->]. exists [], db. split; [done|]. split; [|done].
    intros r Hr. by apply elem_of_nil in Hr.
  - intros (pre & post & -> & Hpre & Hu)%IH.
    exists (x :: pre), post. split; [done|]. split; [|done].
    intros r [->|Hr]%elem_of_cons; auto.
Qed.

Lemma findOne_app_skip p pre x post :
  (∀ r, r ∈ pre → p r = false) → p x = true →
  findOne p (pre ++ x :: post) = Some x.
Proof.
  intros Hpre Hx. unfold findOne. induction pre as [|y pre IH]; simpl.
  - by rewrite Hx.
  - rewrite (Hpre y) by apply list_elem_of_here. apply IH.
    intros r Hr. apply Hpre. by apply list_elem_of_further.
Qed.

Lemma findOne_elem_of p db u :
  findOne p db = Some u → u ∈ db ∧ p u = true.
Proof.
  intros (pre & post & -> & _ & Hu)%findOne_split. split; [|done].
  apply elem_of_app. right. apply list_elem_of_here.
Qed.

Lemma updateFirst_split p f pre u post :
  (∀ r, r ∈ pre → p r = false) → p u = true →
  updateFirst p f (pre ++ u :: post) = pre ++ f u :: post.
Proof.
  intros Hpre Hu. induction pre as [|x pre IH]; simpl.
  - by rewrite Hu.
  - rewrite (Hpre x) by apply list_elem_of_here. f_equal. apply IH.
    intros r Hr. apply Hpre. by apply list_elem_of_further.
Qed.

Lemma updateFirst_ext p f g db :
  (∀ r, f r = g r) → updateFirst p f db = updateFirst p g db.
Proof.
  intros H. induction db as [|x db IH]; simpl; [done|].
  destruct (p x); [by rewrite H|by rewrite IH].
Qed.

(** Position by position, [updateFirst] leaves a record alone or puts
    [f] of it in its place. *)
Lemma updateFirst_Forall2 p f db :
  Forall2 (λ r r', r' = r ∨ (p r = true ∧ r' = f r))
          db (updateFirst p f db).
Proof.
  induction db as [|x db IH]; simpl; [constructor|].
  destruct (p x) eqn:Hx.
  - constructor; [by right|]. apply Forall2_same_length_lookup_2; [done|].
    intros n r r' H1 H2. left. congruence.
  - constructor; [by left|done].
Qed.

Lemma stored_elem i db u : u ∈ db → _id u = i → stored i db = true.
Proof.
  intros Hin Hi. unfold stored. apply existsb_exists. exists u.
  split; [by apply list_elem_of_In|]. by apply bool_decide_eq_true.
Qed.

Lemma findById_Some i sel db d :
  findById i sel db = Some d →
  ∃ u, findOne (λ r, bool_decide (_id r = i)) db = Some u
       ∧ d = hydrate sel u ∧ _id u = i.
Proof.
  unfold findById. destruct (findOne _ db) as [u|] eqn:Hu; [|done].
  intros [= <-]. exists u. split; [done|]. split; [done|].
  apply findOne_elem_of in Hu as [_ Hu]. by apply bool_decide_eq_true in Hu.
Qed.

Lemma findById_updateOne i sel db u f :
  findOne (λ r, bool_decide (_id r = i)) db = Some u →
  _id (f u) = i →
  findById i sel (updateOne i f db) = Some (hydrate sel (f u)).
Proof.
  intros Hfind Hid. unfold findById, updateOne.
  destruct (findOne_split _ _ _ Hfind) as (pre & post & -> & Hpre & Hu).
  rewrite updateFirst_split by done.
  rewrite findOne_app_skip; [done|done|by apply bool_decide_eq_true].
Qed.


(** *** Validation *)

Lemma validate_nil d :
  validate d = [] ↔
  username_ok (username (data d)) = true
  ∧ fullName_ok (fullName (data d)) = true
  ∧ email_ok (email (data d)) = true
  ∧ (negb (withPassword d || isModified d "password")
     || password_ok (password (data d))) = true
  ∧ npk_ok (role (data d)) (npk (data d)) = true
  ∧ role_ok (role (data d)) = true
  ∧ permissions_ok (permissions (data d)) = true
  ∧ unit_ok (role (data d)) (unit (data d)) = true.
Proof.
  unfold validate. rewrite !app_nil, !failing_nil. tauto.
Qed.

(** What [validate] reads of a document. *)
Lemma validate_ext d d' :
  username (data d) = username (data d') →
  fullName (data d) = fullName (data d') →
  email (data d) = email (data d') →
  password (data d) = password (data d') →
  npk (data d) = npk (data d') →
  role (data d) = role (data d') →
  permissions (data d) = permissions (data d') →
  unit (data d) = unit (data d') →
  withPassword d = withPassword d' →
  isModified d "password" = isModified d' "password" →
  validate d = validate d'.
Proof.
  intros. unfold validate. congruence.
Qed.

Lemma isModified_cons d path p u' :
  path ≠ p →
  isModified (mkDoc u' (isNew d) (withPassword d) (path :: modifiedPaths d)) p
  = isModified d p.
Proof.
  intros Hne. unfold isModified, Js.includes. simpl.
  apply bool_decide_ext. rewrite elem_of_cons.
  split; [intros [?|?]; [congruence|done] | auto].
Qed.

Lemma validate_assign_lastLogin v d :
  validate (assign_lastLogin v d) = validate d.
Proof.
  unfold assign_lastLogin, assigned.
  destruct (bool_decide _); [done|].
  apply validate_ext; try by destruct d as [[] ? ? ?].
  by apply isModified_cons.
Qed.


(** After validation the npk hook has nothing left to do: a [perawat]
    that passed holds a well-formed npk. *)
Lemma pre_save_npk_valid db d : validate d = [] → pre_save_npk db d = d.
Proof.
  intros (_ & _ & _ & _ & Hnpk & _)%validate_nil.
  unfold pre_save_npk.
  destruct (bool_decide (role (data d) = "perawat")) eqn:Hrole; [|done].
  apply bool_decide_eq_true in Hrole. rewrite Hrole in Hnpk.
  destruct (npk (data d)) as [v|]; simpl in *; [|done].
  destruct (bool_decide (v = "")) eqn:Hv; [|done].
  apply bool_decide_eq_true in Hv. by subst.
Qed.

Lemma duplicateKey_untouched touched u db :
  (∀ p, p ∈ uniquePaths → Js.includes touched p = false) →
  duplicateKey touched u db = None.
Proof.
  intros H. unfold duplicateKey, uniquePaths in *. simpl.
  rewrite !H; [done|apply list_elem_of_In; simpl; tauto..].
Qed.

Section Save.

Variable L : Library.

(** [save] on a stored, valid document none of whose assignments
    touches the password or a unique path. *)
Lemma save_plain now db d :
  validate d = [] →
  isNew d = false →
  isModified d "password" = false →
  (∀ p, p ∈ uniquePaths → isModified d p = false) →
  stored (_id (data d)) db = true →
  save L now db d =
    inr (match modifiedPaths d with
         | [] => (db, d)
         | paths =>
             let u := set_updatedAt now (data d) in
             (updateOne (_id u)
                (λ r, set_updatedAt now (foldr (copy_path u) r paths)) db,
              mkDoc u false (withPassword d) [])
         end).
Proof.
  intros Hvalid Hnew Hpw Huniq Hstored.
  unfold save. rewrite Hvalid.
  unfold pre_save_password. rewrite Hpw.
  rewrite pre_save_npk_valid by done. rewrite Hnew.
  destruct (modifiedPaths d) as [|p paths] eqn:Hpaths; [done|].
  rewrite duplicateKey_untouched.
  2:{ intros q Hq. specialize (Huniq q Hq).
      unfold isModified in Huniq. by rewrite Hpaths in Huniq. }
  assert (_id (set_updatedAt now (data d)) = _id (data d)) as ->
    by (by destruct (data d)).
  by rewrite Hstored.
Qed.

(** The shape of [save] after one assignment to [lastLogin] or
    [isActive] on a document loaded by [findById]. *)
Lemma save_assigned now db i sel d path same u' :
  findById i sel db = Some d →
  path = "lastLogin" ∨ path = "isActive" →
  validate (assigned path same u' d) = validate d →
  _id u' = _id (data d) →
  save L now db (assigned path same u' d) =
    match validate d with
    | [] =>
        inr (if same then (db, d)
             else
               let m := set_updatedAt now u' in
               (updateOne i (λ r, set_updatedAt now (copy_path m path r)) db,
                mkDoc m false sel []))
    | paths => inl (ValidationError paths)
    end.
Proof.
  intros (u & Hfind & -> & Hi)%findById_Some Hpath Hval Hid.
  destruct (validate (hydrate sel u)) as [|p ps] eqn:Hvalid.
  2:{ unfold save. by rewrite Hval. }
  assert (stored i db = true) as Hstored.
  { apply findOne_elem_of in Hfind as [Hin _]. by eapply stored_elem. }
  assert (_id (data (hydrate sel u)) = i) as Hid0 by (by destruct u, sel).
  rewrite save_plain.
  - unfold assigned. destruct same; [done|]. simpl.
    assert (_id (set_updatedAt now u') = i) as ->.
    { rewrite <-Hid0, <-Hid. by destruct u'. }
    done.
  - done.
  - unfold assigned. by destruct same.
  - unfold assigned. destruct same; [done|].
    unfold isModified, Js.includes. simpl. apply bool_decide_eq_false.
    intros [E|E]%elem_of_cons; [|by apply elem_of_nil in E].
    destruct Hpath; simplify_eq.
  - intros q Hq. unfold assigned. destruct same; [done|].
    unfold isModified, Js.includes. simpl. apply bool_decide_eq_false.
    intros [E|E]%elem_of_cons; [|by apply elem_of_nil in E].
    apply list_elem_of_In in Hq.
    destruct Hpath; subst; simpl in Hq; intuition discriminate.
  - unfold assigned. destruct same; [by rewrite Hid0|].
    cbn [data]. by rewrite Hid, Hid0.
Qed.

Lemma updateLastLogin_unfold now db i sel d :
  findById i sel db = Some d →
  updateLastLogin L now db d =
    match validate d with
    | [] =>
        inr (if bool_decide (lastLogin (data d) = Some now) then (db, d)
             else
               (updateOne i
                  (λ r, set_updatedAt now (set_lastLogin (Some now) r)) db,
                mkDoc (set_updatedAt now (set_lastLogin (Some now) (data d)))
                      false sel []))
    | paths => inl (ValidationError paths)
    end.
Proof.
  intros Hfind. unfold updateLastLogin, assign_lastLogin.
  erewrite save_assigned; [|done|by left|apply validate_assign_lastLogin|].
  - destruct (validate d); [|done]. destruct (bool_decide _); [done|].
    do 2 f_equal. apply updateFirst_ext. intros r.
    by destruct (data d), r.
  - by destruct (data d).
Qed.


End Save.

End Store.

(** ** Login timestamps and soft deletion *)

Module Lifecycle.

Import UserModel Store.


Lemma NoDup_fmap_split {A B} (f : A → B) pre u post :
  NoDup (f <$> (pre ++ u :: post)) →
  ∀ r, r ∈ pre ++ post → f r ≠ f u.
Proof.
  rewrite fmap_app, fmap_cons.
  intros (_ & Hpre & [Hpost _]%NoDup_cons)%NoDup_app r Hr Heq.
  apply elem_of_app in Hr as [Hr|Hr].
  - apply (Hpre (f r)); [by apply list_elem_of_fmap_2|].
    rewrite Heq. apply list_elem_of_here.
  - apply Hpost. rewrite <-Heq. by apply list_elem_of_fmap_2.
Qed.



(** C6, as the code has it.  [updateLastLogin] assigns the current time
    to [lastLogin] and goes through the ordinary [save], which validates
    the whole document first.  On a document loaded from the collection
    it fails with the validation error, naming the failing paths,
    whenever some path of the record violates the schema; when the
    record is valid it succeeds, and the stored record then holds the
    current time as [lastLogin]. *)
Theorem updateLastLogin_runs_validation (L : Library) (now : Z)
    (db : Collection) (i : string) (sel : bool) (d : Doc) :
  findById i sel db = Some d →
  (validate d ≠ [] →
   updateLastLogin L now db d = inl (ValidationError (validate d)))
  ∧ (validate d = [] →
     ∃ db' d',
       updateLastLogin L now db d = inr (db', d')
       ∧ lastLogin (data d') = Some now
       ∧ (λ x, lastLogin (data x)) <$> findById i sel db'
         = Some (Some now)).
Proof.
  intros Hfind. rewrite (updateLastLogin_unfold _ _ _ _ _ _ Hfind).
  split.
  - by destruct (validate d).
  - intros ->.
    destruct (bool_decide (lastLogin (data d) = Some now)) eqn:Hsame.
    + apply bool_decide_eq_true in Hsame.
      exists db, d. split; [done|]. split; [done|].
      by rewrite Hfind; simpl; rewrite Hsame.
    + eexists _, _. split; [done|]. split; [by destruct (data d)|].
      apply findById_Some in Hfind as (u & Hu & -> & Hi).
      erewrite findById_updateOne; [|done|by destruct u].
      by destruct u, sel.
Qed.

Lemma updateLastLogin_runs_validation_witness :
  let d := hydrate false Demo.nurse in
  findById "65a000000000000000000001" false [Demo.nurse; Demo.promoted]
  = Some d
  ∧ (validate d ≠ [] →
     updateLastLogin Demo.lib Demo.now [Demo.nurse; Demo.promoted] d
     = inl (ValidationError (validate d)))
  ∧ (validate d = [] →
     ∃ db' d',
       updateLastLogin Demo.lib Demo.now [Demo.nurse; Demo.promoted] d
       = inr (db', d')
       ∧ lastLogin (data d') = Some Demo.now
       ∧ (λ x, lastLogin (data x))
           <$> findById "65a000000000000000000001" false db'
         = Some (Some Demo.now)).
Proof.
  intros d. split; [reflexivity|].
  apply (updateLastLogin_runs_validation Demo.lib Demo.now
           [Demo.nurse; Demo.promoted] "65a000000000000000000001" false d).
  reflexivity.
Defined.

(** A record that lost its npk through a role update: every later
    [updateLastLogin] on it is rejected for that path, and nothing is
    written. *)
Lemma updateLastLogin_fails_on_stale_npk :
  let d := hydrate false Demo.promoted in
  findById "65a000000000000000000002" false [Demo.nurse; Demo.promoted]
  = Some d
  ∧ updateLastLogin Demo.lib Demo.now [Demo.nurse; Demo.promoted] d
    = inl (ValidationError ["npk"]).
Proof. split; reflexivity. Qed.





End Lifecycle.

(** ** The active-user stage *)

Module ActiveUser.

Import UserModel Store.

Section Stage.

Variable L : Library.

(** No record under the identity: 403, and nothing is written. *)
Lemma requireActiveUser_missing now db req i :
  RoleAuth.user_id req = Some i →
  findById i false db = None →
  RoleAuth.requireActiveUser L now db req
  = (db, Respond RoleAuth.deactivated).
Proof.
  intros Hi Hfind. unfold RoleAuth.requireActiveUser. by rewrite Hi, Hfind.
Qed.

(** The stage finds its record with [findById]; whether the record is
    active plays no part in what follows. *)
Lemma requireActiveUser_found now db req i d :
  RoleAuth.user_id req = Some i →
  findById i false db = Some d →
  RoleAuth.requireActiveUser L now db req =
    match updateLastLogin L now db d with
    | inl _ => (db, Respond (failure 500 "Error checking user status"))
    | inr (db', saved) => (db', Next (with_userDetails saved req))
    end.
Proof.
  intros Hi Hfind. unfold RoleAuth.requireActiveUser. by rewrite Hi, Hfind.
Qed.

End Stage.

(** C4, as the code has it.  [requireActiveUser] loads the record with
    [findById], which looks at [_id] alone.  A request whose identity
    refers to a record with [isActive = false] is therefore not turned
    away: when the record is valid, the stage calls [next()], and the
    record, still inactive, has its [lastLogin] set to the current
    time. *)
Theorem requireActiveUser_admits_inactive (L : Library) (now : Z)
    (db : Collection) (req : Request) (i : string) (d : Doc) :
  RoleAuth.user_id req = Some i →
  findById i false db = Some d →
  isActive (data d) = false →
  validate d = [] →
  ∃ db' d',
    RoleAuth.requireActiveUser L now db req
    = (db', Next (with_userDetails d' req))
    ∧ isActive (data d') = false
    ∧ lastLogin (data d') = Some now
    ∧ findById i false db' = Some d'.
Proof.
  intros Hi Hfind Hinactive Hvalid.
  rewrite (requireActiveUser_found L _ _ _ _ _ Hi Hfind).
  rewrite (updateLastLogin_unfold _ _ _ _ _ _ Hfind), Hvalid.
  destruct (bool_decide (lastLogin (data d) = Some now)) eqn:Hsame.
  - apply bool_decide_eq_true in Hsame. by exists db, d.
  - eexists _, _. split; [done|].
    apply findById_Some in Hfind as (u & Hu & -> & Hid).
    split; [by destruct u|]. split; [by destruct u|].
    erewrite findById_updateOne; [|done|by destruct u].
    by destruct u.
Qed.

Lemma requireActiveUser_admits_inactive_witness :
  let i := "65a000000000000000000001" in
  let req := Demo.request None (Some (Demo.claims i "perawat" [])) in
  let d := hydrate false Demo.retired in
  RoleAuth.user_id req = Some i
  ∧ findById i false [Demo.retired] = Some d
  ∧ isActive (data d) = false
  ∧ validate d = []
  ∧ ∃ db' d',
      RoleAuth.requireActiveUser Demo.lib Demo.now [Demo.retired] req
      = (db', Next (with_userDetails d' req))
      ∧ isActive (data d') = false
      ∧ lastLogin (data d') = Some Demo.now
      ∧ findById i false db' = Some d'.
Proof.
  intros i req d. repeat (split; [reflexivity|]).
  apply (requireActiveUser_admits_inactive Demo.lib Demo.now [Demo.retired]
           req i d); reflexivity.
Defined.

(** The same request at the two stages that load the record: the
    deactivated nurse passes [requireActiveUser] and is stopped by
    [refreshUserData], which asks [findActiveById]. *)
Example retired_nurse_at_both_stages :
  let req :=
    Demo.request None
      (Some (Demo.claims "65a000000000000000000001" "perawat" [])) in
  let kept :=
    set_updatedAt Demo.now (set_lastLogin (Some Demo.now) Demo.retired) in
  RoleAuth.requireActiveUser Demo.lib Demo.now [Demo.retired] req
  = ([kept],
     Next (with_userDetails (mkDoc (set_password None kept) false false [])
             req))
  ∧ RoleAuth.refreshUserData [Demo.retired] req
    = Respond RoleAuth.inactive.
Proof. split; reflexivity. Qed.

End ActiveUser.

(** ** Login failures *)

Section LoginFailures.

Variable L : Library.
Variable env : Env.



End LoginFailures.



(** ** updateUser *)

Module Update.

Import UserModel Store.

Section Frame.

Variable L : Library.





Lemma set_updatedAt_frame now path u :
  path ≠ "updatedAt" →
  path_value path (set_updatedAt now u) = path_value path u.
Proof.
  intros Hpath. destruct u. unfold path_value. simpl.
  repeat (case_bool_decide; [try done|]). done.
Qed.


End Frame.



(** The same patch under an identifier nobody holds, and a patch with
    no allow-listed entry. *)
Example updateUser_failures :
  updateUser Demo.lib Demo.now "65a0000000000000000000ff"
    [("fullName", JStr "Nurse B")] [Demo.retired]
  = inl (Rethrown "Failed to update user: " (Thrown "User not found"))
  ∧ updateUser Demo.lib Demo.now "65a000000000000000000001"
      [("password", JStr "hunter22")] [Demo.retired]
    = inl (Rethrown "Failed to update user: "
             (Thrown "No valid fields to update")).
Proof. split; reflexivity. Qed.

End Update.

(** ** The npk hook *)

Module Npk.

Import UserModel.

Lemma pretty_N_char_unprefixed x s :
  Js.unprefixed (String (pretty_N_char x) s).
Proof.
  unfold pretty_N_char. simpl. by repeat case_match.
Qed.

Lemma pretty_N_go_unprefixed x s :
  Js.unprefixed s → Js.unprefixed (pretty_N_go x s).
Proof.
  revert s. induction (N.lt_wf_0 x) as [x _ IH]; intros s Hs.
  destruct (decide (x = 0)%N) as [->|Hx]; [done|].
  rewrite pretty_N_go_step by lia.
  apply IH; [apply N.div_lt; lia|]. apply pretty_N_char_unprefixed.
Qed.

(** Decimal notation never starts with [N]. *)
Lemma pretty_Z_unprefixed (z : Z) : Js.unprefixed (pretty z).
Proof.
  destruct z as [|p|p]; [done| |done].
  unfold pretty, pretty_Z, pretty, pretty_positive, pretty, pretty_N.
  case_decide; [done|]. by apply pretty_N_go_unprefixed.
Qed.

Lemma toString_short_or_unprefixed n :
  Js.unprefixed (Js.toString n) ∨ (String.length (Js.toString n) < 4)%nat.
Proof.
  destruct n as [z|]; [left; apply pretty_Z_unprefixed|].
  right. simpl. lia.
Qed.

Lemma padStart_unprefixed s :
  Js.unprefixed s ∨ (String.length s < 4)%nat →
  Js.unprefixed (Js.padStart 4 "0" s).
Proof.
  unfold Js.padStart.
  destruct (4 - String.length s)%nat as [|k] eqn:Hk; simpl.
  - intros [H|H]; [done|lia].
  - done.
Qed.

Lemma unprefixed_not_npk s : Js.unprefixed s → npk_format s = false.
Proof.
  destruct s as [|c s]; [done|]. simpl. intros Hc.
  unfold npk_format. simpl.
  destruct (chars s) as [|? [|? [|? [|? [|? [|? [|? ?]]]]]]]; try done.
  by rewrite (bool_decide_eq_false_2 (c = "N"%char)).
Qed.

(** The hook's code is a bare number, which the schema's own validator
    turns down. *)
Lemma hook_code_rejected db :
  npk_format (Js.padStart 4 "0" (Js.toString (nextNumber db))) = false.
Proof.
  apply unprefixed_not_npk, padStart_unprefixed,
    toString_short_or_unprefixed.
Qed.

(** With the prefix in front, a number of at most four digits makes a
    well-formed npk. *)
Lemma prefixed_format (n : Z) :
  0 ≤ n ≤ 9999 →
  npk_format ("NPK" +:+ Js.padStart 4 "0" (pretty n)) = true.
Proof.
  intros Hrange.
  assert (forallb (λ n, npk_format ("NPK" +:+ Js.padStart 4 "0" (pretty n)))
            (seqZ 0 10000) = true) as Hall by (vm_compute; reflexivity).
  rewrite forallb_forall in Hall. apply Hall.
  apply list_elem_of_In, elem_of_seqZ. lia.
Qed.

(** The codes of [generateMissingNPKs] are well formed as long as the
    number has four digits. *)
Lemma repaired_npk_format (next index : Z) :
  0 ≤ next + index ≤ 9999 →
  npk_format (repaired_npk (Some next) index) = true.
Proof. apply prefixed_format. Qed.

(** A well-formed npk, letter by letter. *)
Lemma npk_format_inv v :
  npk_format v = true →
  ∃ d1 d2 d3 d4,
    v = String "N" (String "P" (String "K"
          (String d1 (String d2 (String d3 (String d4 ""))))))
    ∧ Js.is_digit d1 = true ∧ Js.is_digit d2 = true
    ∧ Js.is_digit d3 = true ∧ Js.is_digit d4 = true.
Proof.
  unfold npk_format, chars.
  destruct v as [|c1 [|c2 [|c3 [|e1 [|e2 [|e3 [|e4 [|c8 v]]]]]]]];
    simpl; try done.
  rewrite !andb_true_iff, !bool_decide_eq_true.
  intros [[[[[[-> ->] ->] ?] ?] ?] ?]. by exists e1, e2, e3, e4.
Qed.

Lemma is_digit_bounds c :
  Js.is_digit c = true ↔ 0 ≤ Js.digit_value c ≤ 9.
Proof.
  unfold Js.is_digit, Js.digit_value.
  rewrite andb_true_iff, !N.leb_le. lia.
Qed.

Lemma digits_step acc c rest :
  Js.is_digit c = true →
  Js.digits acc (c :: rest) = Js.digits (10 * acc + Js.digit_value c) rest.
Proof. intros H. simpl. by rewrite H. Qed.

Lemma numeric_suffix_format d1 d2 d3 d4 :
  Js.is_digit d1 = true → Js.is_digit d2 = true →
  Js.is_digit d3 = true → Js.is_digit d4 = true →
  numeric_suffix (String "N" (String "P" (String "K"
     (String d1 (String d2 (String d3 (String d4 "")))))))
  = 1000 * Js.digit_value d1 + 100 * Js.digit_value d2
    + 10 * Js.digit_value d3 + Js.digit_value d4.
Proof.
  intros H1 H2 H3 H4. unfold numeric_suffix, chars. simpl Js.drop.
  cbn [list_ascii_of_string].
  rewrite !digits_step by done. simpl. lia.
Qed.

(** A digit is neither white space nor a sign. *)
Lemma digit_plain c :
  Js.is_digit c = true →
  Js.is_space c = false ∧ c ≠ "-"%char ∧ c ≠ "+"%char.
Proof.
  intros H. apply is_digit_bounds in H. unfold Js.digit_value in H.
  unfold Js.is_space. repeat split.
  - rewrite !orb_false_iff, andb_false_iff, !N.leb_gt, !N.eqb_neq.
    revert H. generalize (Js.code c). intros n H. repeat split; lia.
  - intros ->. destruct H as [H _]. apply H. reflexivity.
  - intros ->. destruct H as [H _]. apply H. reflexivity.
Qed.

(** What the hook reads off the npk of the last nurse. *)
Lemma parseInt_format v :
  npk_format v = true →
  Js.parseInt (Js.replace "NPK" "" v) = Some (numeric_suffix v).
Proof.
  intros (d1 & d2 & d3 & d4 & -> & H1 & H2 & H3 & H4)%npk_format_inv.
  rewrite numeric_suffix_format by done.
  destruct (digit_plain d1 H1) as (Hsp & Hminus & Hplus).
  unfold Js.parseInt. cbn [Js.replace Js.startsWith].
  rewrite !bool_decide_eq_true_2 by done. simpl.
  rewrite Hsp. cbn [list_ascii_of_string].
  rewrite !bool_decide_eq_false_2 by done.
  cbn [Js.leading_digit]. rewrite H1.
  rewrite !digits_step by done. simpl. f_equal. lia.
Qed.

(** Between well-formed npks, the order of the strings is the order of
    the numbers. *)
Lemma ltb_format v w :
  npk_format v = true → npk_format w = true →
  String.ltb v w = bool_decide (numeric_suffix v < numeric_suffix w).
Proof.
  intros (a1 & a2 & a3 & a4 & -> & Ha1 & Ha2 & Ha3 & Ha4)%npk_format_inv
         (b1 & b2 & b3 & b4 & -> & Hb1 & Hb2 & Hb3 & Hb4)%npk_format_inv.
  rewrite !numeric_suffix_format by done.
  apply is_digit_bounds in Ha1, Ha2, Ha3, Ha4, Hb1, Hb2, Hb3, Hb4.
  unfold String.ltb. cbn [String.compare].
  change (Ascii.compare "N" "N") with Eq.
  change (Ascii.compare "P" "P") with Eq.
  change (Ascii.compare "K" "K") with Eq. cbv iota.
  unfold Ascii.compare. unfold Js.digit_value, Js.code in *.
  destruct (N.compare_spec (N_of_ascii a1) (N_of_ascii b1));
    [destruct (N.compare_spec (N_of_ascii a2) (N_of_ascii b2));
       [destruct (N.compare_spec (N_of_ascii a3) (N_of_ascii b3));
          [destruct (N.compare_spec (N_of_ascii a4) (N_of_ascii b4))|..]
       |..]
    |..];
    first [ by rewrite bool_decide_eq_true_2 by lia
          | by rewrite bool_decide_eq_false_2 by lia ].
Qed.

Lemma foldr_max_base a b l :
  foldr Z.max (Z.max a b) l = Z.max b (foldr Z.max a l).
Proof. induction l as [|x l IH]; simpl; lia. Qed.

Lemma numeric_suffix_nonneg v : npk_format v = true → 0 ≤ numeric_suffix v.
Proof.
  intros (d1 & d2 & d3 & d4 & -> & H1 & H2 & H3 & H4)%npk_format_inv.
  rewrite numeric_suffix_format by done.
  apply is_digit_bounds in H1, H2, H3, H4. lia.
Qed.

Lemma numbered_nurse_format r :
  numbered_nurse r = true → npk_format (npk_text r) = true.
Proof.
  intros [_ H]%andb_true_iff. unfold npk_text. by destruct (npk r).
Qed.

(** The head of the descending sort holds the greatest number. *)
Lemma greatest_npk_max l b u :
  Forall (λ r, numbered_nurse r = true) l →
  numbered_nurse b = true →
  greatest_npk (Some b) l = Some u →
  numbered_nurse u = true
  ∧ numeric_suffix (npk_text u)
    = foldr Z.max (numeric_suffix (npk_text b))
        ((λ r, numeric_suffix (npk_text r)) <$> l).
Proof.
  intros Hl. revert b.
  induction Hl as [|x l Hx _ IH]; intros b Hb; simpl.
  - by intros [= ->].
  - rewrite (ltb_format _ _ (numbered_nurse_format b Hb)
               (numbered_nurse_format x Hx)).
    case_bool_decide as Hlt; intros Hu.
    + destruct (IH _ Hx Hu) as [Hnum ->]. split; [done|].
      rewrite <-foldr_max_base. f_equal. lia.
    + destruct (IH _ Hb Hu) as [Hnum ->]. split; [done|].
      rewrite <-foldr_max_base. f_equal. lia.
Qed.

(** The number the hook arrives at is one more than the greatest
    number in use. *)
Lemma nextNumber_max db : nextNumber db = Some (max_numeric_suffix db + 1).
Proof.
  unfold nextNumber, lastNurse, max_numeric_suffix.
  assert (Forall (λ r, numbered_nurse r = true)
            (List.filter numbered_nurse db)) as Hall.
  { apply Forall_forall. intros r Hr.
    by apply list_elem_of_In, filter_In in Hr as [_ Hr]. }
  destruct (List.filter numbered_nurse db) as [|x l]; [done|].
  apply Forall_cons in Hall as [Hx Hl]. simpl.
  destruct (greatest_npk (Some x) l) as [u|] eqn:Hu.
  - destruct (greatest_npk_max _ _ _ Hl Hx Hu) as [Hnum Hmax].
    pose proof (numbered_nurse_format u Hnum) as Hformat.
    assert (Js.truthy (npk u) = true) as ->.
    { unfold npk_text in Hformat. destruct (npk u) as [v|]; [|done].
      unfold Js.truthy. simpl. by destruct v. }
    rewrite parseInt_format by done. simpl.
    pose proof (numeric_suffix_nonneg _ (numbered_nurse_format x Hx)).
    by rewrite Hmax, <-foldr_max_base, Z.max_r.
  - exfalso. clear -Hu. revert x Hu.
    induction l as [|y l IH]; intros x; simpl; [done|].
    destruct (String.ltb _ _); apply IH.
Qed.

Lemma max_numeric_suffix_nonneg db : 0 ≤ max_numeric_suffix db.
Proof.
  unfold max_numeric_suffix.
  induction (_ <$> _) as [|x l IH]; simpl; lia.
Qed.

(** The hook does not change what validation says: a document the
    hook would number is rejected on [npk] before the hook, for want of
    a value, and after it, for the form of the value.  Whether
    validation comes before or after the hook, [save] turns such a
    document down. *)
Lemma validate_pre_save_npk db d :
  validate (pre_save_npk db d) = validate d.
Proof.
  unfold pre_save_npk.
  destruct (bool_decide (role (data d) = "perawat")) eqn:Hrole; [|done].
  destruct (Js.falsy (npk (data d))) eqn:Hnpk; [|done]. simpl.
  apply bool_decide_eq_true in Hrole.
  set (code := Js.padStart 4 "0" (Js.toString (nextNumber db))).
  unfold assign_npk, assigned.
  destruct (bool_decide (npk (data d) = Some code)); [done|].
  unfold validate, isModified, Js.includes.
  cbn [data withPassword modifiedPaths].
  assert (bool_decide ("password" ∈ "npk" :: modifiedPaths d)
          = bool_decide ("password" ∈ modifiedPaths d)) as ->.
  { apply bool_decide_ext. rewrite elem_of_cons.
    split; [intros [?|?]; [done|done] | auto]. }
  assert (npk_ok (role (data d)) (npk (data d)) = false) as Hbefore.
  { rewrite Hrole. destruct (npk (data d)) as [v|]; [|done].
    simpl in Hnpk. apply bool_decide_eq_true in Hnpk. by subst. }
  destruct (data d) as [? ? ? ? ? ? n r ? ? ? ? ? ?]. simpl in *.
  rewrite Hbefore. unfold code. by rewrite hook_code_rejected.
Qed.

(** C1, as the code has it.  For a [perawat] document that holds no
    npk, the pre-save hook takes the greatest number among the
    well-formed npks of the [perawat] records, adds one and pads the
    result to four digits, but puts nothing in front of it: the code it
    assigns never has the form [NPK] followed by four digits, and is
    the well-formed code less its prefix as long as the number has four
    digits. *)
Theorem pre_save_npk_assigns_bare_number (db : Collection) (d : Doc) :
  role (data d) = "perawat" →
  Js.falsy (npk (data d)) = true →
  let code := Js.padStart 4 "0" (pretty (max_numeric_suffix db + 1)) in
  npk (data (pre_save_npk db d)) = Some code
  ∧ npk_format code = false
  ∧ (max_numeric_suffix db + 1 ≤ 9999 →
     npk_format ("NPK" +:+ code) = true).
Proof.
  intros Hrole Hnpk code.
  assert (code = Js.padStart 4 "0" (Js.toString (nextNumber db))) as Hcode
    by (by rewrite nextNumber_max).
  split; [|split].
  - unfold pre_save_npk. rewrite Hrole, Hnpk. simpl.
    unfold assign_npk, assigned. rewrite <-Hcode.
    destruct (bool_decide (npk (data d) = Some code)) eqn:Hsame.
    + by apply bool_decide_eq_true in Hsame.
    + simpl. by destruct (data d).
  - rewrite Hcode. apply hook_code_rejected.
  - intros Hmax. apply prefixed_format.
    pose proof (max_numeric_suffix_nonneg db). lia.
Qed.

Lemma pre_save_npk_assigns_bare_number_witness :
  let d := construct Demo.now "65a000000000000000000003"
             "1c6f3b0e-8f0a-4a53-9d57-2b8f5f0c7d21" Demo.nurseA in
  role (data d) = "perawat"
  ∧ Js.falsy (npk (data d)) = true
  ∧ Js.padStart 4 "0" (pretty (max_numeric_suffix [Demo.nurse] + 1)) = "0002"
  ∧ npk (data (pre_save_npk [Demo.nurse] d)) = Some "0002"
  ∧ npk_format "0002" = false
  ∧ (max_numeric_suffix [Demo.nurse] + 1 ≤ 9999 →
     npk_format ("NPK" +:+ "0002") = true).
Proof.
  intros d. repeat (split; [reflexivity|]).
  apply (pre_save_npk_assigns_bare_number [Demo.nurse] d); reflexivity.
Defined.

(** The end-to-end scenario on an empty collection and on one that
    holds [NPK0001]: the hook's codes, the codes the batch repair would
    give, and what [createUser] returns. *)
Example nurseA_is_not_numbered :
  let d := construct Demo.now "65a000000000000000000003"
             "1c6f3b0e-8f0a-4a53-9d57-2b8f5f0c7d21" Demo.nurseA in
  npk (data (pre_save_npk [] d)) = Some "0001"
  ∧ npk (data (pre_save_npk [Demo.nurse] d)) = Some "0002"
  ∧ repaired_npk (nextNumber []) 0 = "NPK0001"
  ∧ repaired_npk (nextNumber [Demo.nurse]) 0 = "NPK0002"
  ∧ validate (pre_save_npk [] d) = ["npk"]
  ∧ createUser Demo.lib Demo.now "65a000000000000000000003"
      "1c6f3b0e-8f0a-4a53-9d57-2b8f5f0c7d21" Demo.nurseA []
    = inl (Rethrown "Failed to create user: " (ValidationError ["npk"])).
Proof. repeat split. Qed.

End Npk.

(** ** The role tables *)

Module RoleTables.


End RoleTables.

Module RoleOrder.
Import RoleTables.














End RoleOrder.

Module Menus.





Lemma menus_nurse :
  Roles.getMenuAccess (Some "nurse")
  = [ "dashboard"; "credentials"; "profile" ].
Proof. reflexivity. Qed.

Lemma menus_other role :
  Roles.at_role Roles.menuAccess role = None → Roles.getMenuAccess role = [].
Proof. unfold Roles.getMenuAccess. by intros ->. Qed.


End Menus.



(** ** Unique indexes *)

Module Indexes.
Import UserModel Store.

Lemma NoDup_fmap_snoc {A B} (f : A → B) l x :
  NoDup (f <$> l) → f x ∉ f <$> l → NoDup (f <$> (l ++ [x])).
Proof.
  intros Hl Hx. rewrite fmap_app. apply NoDup_app. split; [done|].
  split; [|apply NoDup_singleton].
  intros y Hy [->|Hin]%elem_of_cons; [done|by apply elem_of_nil in Hin].
Qed.

Lemma NoDup_omap_snoc {A B} (f : A → option B) l x :
  NoDup (omap f l) →
  (∀ v, f x = Some v → v ∉ omap f l) →
  NoDup (omap f (l ++ [x])).
Proof.
  intros Hl Hx. rewrite omap_app. simpl.
  destruct (f x) as [v|]; simpl; [|by rewrite app_nil_r].
  apply NoDup_app. split; [done|]. split; [|apply NoDup_singleton].
  intros y Hy [->|Hin]%elem_of_cons; [by apply (Hx v)|].
  by apply elem_of_nil in Hin.
Qed.

Lemma NoDup_fmap_replace {A B} (f : A → B) pre u u' post :
  NoDup (f <$> (pre ++ u :: post)) →
  f u' = f u ∨ (∀ r, r ∈ pre ++ post → f r ≠ f u') →
  NoDup (f <$> (pre ++ u' :: post)).
Proof.
  rewrite !fmap_app, !fmap_cons. intros Hnd [->|Hfresh]; [done|].
  apply NoDup_app in Hnd as (Hpre & Hsep & [_ Hpost]%NoDup_cons).
  apply NoDup_app. split; [done|]. split.
  - intros y Hy [->|Hin]%elem_of_cons.
    + apply list_elem_of_fmap in Hy as (r & Hr & Hin).
      apply (Hfresh r); [|done]. apply elem_of_app. by left.
    + apply (Hsep y Hy). by apply list_elem_of_further.
  - apply NoDup_cons. split; [|done].
    intros (r & Hr & Hin)%list_elem_of_fmap.
    apply (Hfresh r); [|done]. apply elem_of_app. by right.
Qed.

Lemma NoDup_omap_replace {A B} (f : A → option B) pre u u' post :
  NoDup (omap f (pre ++ u :: post)) →
  f u' = f u ∨ (∀ v r, f u' = Some v → r ∈ pre ++ post → f r ≠ Some v) →
  NoDup (omap f (pre ++ u' :: post)).
Proof.
  rewrite !omap_app. cbn [omap list_omap].
  intros Hnd [->|Hfresh]; [done|].
  assert (NoDup (omap f pre ++ omap f post)
          ∧ ∀ v, f u' = Some v → v ∉ omap f pre ++ omap f post)
    as [Hrest Hnew].
  { split.
    - destruct (f u).
      + apply NoDup_app in Hnd as (Hpre & Hsep & [_ Hpost]%NoDup_cons).
        apply NoDup_app. split; [done|]. split; [|done].
        intros y Hy Hy'. apply (Hsep y Hy). by apply list_elem_of_further.
      + done.
    - intros v Hv. rewrite <-omap_app.
      intros (r & Hr & Hin)%list_elem_of_omap. by apply (Hfresh v r). }
  destruct (f u') as [v|]; [|done].
  specialize (Hnew v eq_refl).
  apply NoDup_app in Hrest as (Hpre & Hsep & Hpost).
  apply NoDup_app. split; [done|]. split.
  - intros y Hy [->|Hin]%elem_of_cons.
    + apply Hnew. apply elem_of_app. by left.
    + by apply (Hsep y).
  - apply NoDup_cons. split; [|done].
    intros Hin. apply Hnew. apply elem_of_app. by right.
Qed.

End Indexes.

Module Insert.
Import UserModel Store.

Section WithLibrary.
Variable L : Library.

Lemma pre_save_npk_ok db d :
  npk_ok (role (data d)) (npk (data d)) = true → pre_save_npk db d = d.
Proof.
  intros Hnpk. unfold pre_save_npk.
  destruct (bool_decide (role (data d) = "perawat")) eqn:Hrole; [|done].
  apply bool_decide_eq_true in Hrole. rewrite Hrole in Hnpk.
  destruct (npk (data d)) as [v|]; simpl in *; [|done].
  destruct (bool_decide (v = "")) eqn:Hv; [|done].
  apply bool_decide_eq_true in Hv. by subst.
Qed.

(** What a successful [save] of a freshly constructed document has
    done: the document passed validation, the password it was given
    was hashed, and the record was appended under keys no stored record
    holds. *)
Lemma save_construct now oid uuid userData db db' saved :
  let d := construct now oid uuid userData in
  save L now db d = inr (db', saved) →
  ∃ plain,
    new_password userData = Some plain
    ∧ validate d = []
    ∧ let u := set_updatedAt now
                 (set_password (Some (bcrypt_hash L plain)) (data d)) in
      db' = db ++ [u]
      ∧ saved = mkDoc u false true []
      ∧ stored oid db = false
      ∧ duplicateKey uniquePaths u db = None.
Proof.
  intros d. unfold save.
  destruct (validate d) eqn:Hvalid; [|done].
  pose proof Hvalid as (_ & _ & _ & Hpw & Hnpk & _)%validate_nil.
  destruct (new_password userData) as [plain|] eqn:Hplain.
  2:{ unfold d, construct in Hpw. simpl in Hpw. by rewrite Hplain in Hpw. }
  assert (pre_save_password L d
          = inr (mkDoc (set_password (Some (bcrypt_hash L plain)) (data d))
                       true true ["password"])) as ->.
  { unfold pre_save_password, d, construct, isModified. simpl.
    by rewrite Hplain. }
  rewrite pre_save_npk_ok by (by unfold d, construct in *).
  cbn [isNew data withPassword].
  assert (_id (set_updatedAt now
                 (set_password (Some (bcrypt_hash L plain)) (data d))) = oid)
    as -> by done.
  destruct (stored oid db); [done|].
  destruct (duplicateKey _ _ _) eqn:Hdup; [done|].
  intros [= <- <-]. by exists plain.
Qed.

Lemma stored_false i db : stored i db = false → i ∉ _id <$> db.
Proof.
  intros H (u & -> & Hu)%list_elem_of_fmap.
  by rewrite (stored_elem (_id u) db u) in H.
Qed.

(** No collision on a unique path, spelled out. *)
Lemma duplicateKey_None touched u db path :
  duplicateKey touched u db = None →
  path ∈ uniquePaths → path ∈ touched →
  ∀ r, r ∈ db → collides path u r = false.
Proof.
  intros Hdup Hpath Htouched r Hr.
  unfold duplicateKey in Hdup.
  apply find_none with (x := path) in Hdup; [|by apply list_elem_of_In].
  apply andb_false_iff in Hdup as [Hdup|Hdup].
  - apply includes_false in Hdup. done.
  - destruct (collides path u r) eqn:Hc; [|done].
    assert (existsb (collides path u) db = true); [|congruence].
    apply existsb_exists. exists r. split; [by apply list_elem_of_In|done].
Qed.

End WithLibrary.
End Insert.

Ltac unique_path := apply list_elem_of_In; simpl; tauto.

Module Unique.
Import UserModel Store Indexes Insert.

Section WithLibrary.
Variable L : Library.

Lemma collides_false path u r :
  collides path u r = false → _id r ≠ _id u →
  (path = "id" → id r ≠ id u)
  ∧ (path = "username" → username r ≠ username u)
  ∧ (path = "email" → email r ≠ email u)
  ∧ (path = "npk" → ∀ v, npk u = Some v → npk r ≠ Some v).
Proof.
  intros Hc Hid. unfold collides in Hc.
  rewrite bool_decide_eq_false_2 in Hc by done. simpl in Hc.
  repeat split; intros ->; simpl in Hc.
  - by apply bool_decide_eq_false in Hc.
  - by apply bool_decide_eq_false in Hc.
  - by apply bool_decide_eq_false in Hc.
  - intros v Hv. rewrite Hv in Hc. by apply bool_decide_eq_false in Hc.
Qed.

(** Appending a record that passed the duplicate-key checks keeps the
    indexes unique. *)
Lemma unique_indexes_insert db u :
  unique_indexes db →
  stored (_id u) db = false →
  duplicateKey uniquePaths u db = None →
  unique_indexes (db ++ [u]).
Proof.
  intros (Hoid & Huuid & Hname & Hmail & Hnpk) Hfresh%stored_false Hdup.
  assert (∀ path r, path ∈ uniquePaths → r ∈ db → collides path u r = false)
    as Hc by (intros; by eapply duplicateKey_None).
  assert (∀ r, r ∈ db → _id r ≠ _id u) as Hne.
  { intros r Hr E. apply Hfresh. rewrite <-E. by apply list_elem_of_fmap_2. }
  assert (∀ path r, path ∈ uniquePaths → r ∈ db →
            (path = "id" → id r ≠ id u)
            ∧ (path = "username" → username r ≠ username u)
            ∧ (path = "email" → email r ≠ email u)
            ∧ (path = "npk" → ∀ v, npk u = Some v → npk r ≠ Some v))
    as Hkeys by (intros; apply collides_false; auto).
  repeat split.
  - by apply NoDup_fmap_snoc.
  - apply NoDup_fmap_snoc; [done|].
    intros (r & E & Hr)%list_elem_of_fmap.
    destruct (Hkeys "id" r) as (H & _); [unique_path|done|]. by apply H.
  - apply NoDup_fmap_snoc; [done|].
    intros (r & E & Hr)%list_elem_of_fmap.
    destruct (Hkeys "username" r) as (_ & H & _); [unique_path|done|].
    by apply H.
  - apply NoDup_fmap_snoc; [done|].
    intros (r & E & Hr)%list_elem_of_fmap.
    destruct (Hkeys "email" r) as (_ & _ & H & _); [unique_path|done|].
    by apply H.
  - apply NoDup_omap_snoc; [done|].
    intros v Hv (r & Hr & E)%list_elem_of_omap.
    destruct (Hkeys "npk" r) as (_ & _ & _ & H); [unique_path|done|].
    by apply (H eq_refl v).
Qed.

Lemma createUser_inr now oid uuid userData db db' u :
  createUser L now oid uuid userData db = inr (db', u) →
  ∃ saved, save L now db (construct now oid uuid userData) = inr (db', saved)
           ∧ u = toObject saved.
Proof.
  unfold createUser.
  destruct (save _ _ _ _) as [e|[db1 saved]]; [by destruct e|].
  intros [= <- <-]. by exists saved.
Qed.

End WithLibrary.
End Unique.

(** X4.  [createUser] keeps the unique indexes: when the collection
    has no two records with the same [_id], [id], [username], [email]
    or [npk], a successful [createUser] leaves it so. *)
Theorem createUser_keeps_indexes (L : Library) (now : Z) (oid uuid : string)
    (userData : UserModel.UserData) (db db' : UserModel.Collection)
    (u : UserModel.User) :
  UserModel.unique_indexes db →
  UserModel.createUser L now oid uuid userData db = inr (db', u) →
  UserModel.unique_indexes db'.
Proof.
  intros Hdb (saved & Hsave & _)%Unique.createUser_inr.
  apply Insert.save_construct in Hsave
    as (plain & _ & _ & -> & _ & Hfresh & Hdup).
  by apply Unique.unique_indexes_insert.
Qed.

Lemma demo_unique_indexes :
  UserModel.unique_indexes [Demo.nurse; Demo.promoted].
Proof.
  repeat split; apply (bool_decide_unpack _); vm_compute; exact I.
Qed.

Lemma createUser_keeps_indexes_witness :
  let db := [Demo.nurse; Demo.promoted] in
  UserModel.unique_indexes db
  ∧ UserModel.createUser Demo.lib Demo.now "65a000000000000000000004"
      "9a3b2c1d-0e4f-4a5b-8c6d-7e8f9a0b1c2d" Demo.mitraB db
    = inr (db ++ [Demo.mitra], UserModel.set_password None Demo.mitra)
  ∧ UserModel.unique_indexes (db ++ [Demo.mitra]).
Proof.
  intros db.
  split; [exact demo_unique_indexes|]. split; [reflexivity|].
  apply (createUser_keeps_indexes Demo.lib Demo.now
           "65a000000000000000000004"
           "9a3b2c1d-0e4f-4a5b-8c6d-7e8f9a0b1c2d" Demo.mitraB db
           (db ++ [Demo.mitra]) (UserModel.set_password None Demo.mitra));
    [exact demo_unique_indexes|reflexivity].
Defined.

Module Touched.
Import UserModel Store Indexes Insert Unique.

Section WithLibrary.
Variable L : Library.

(** One [$set] entry writes to the path it names and to none of the
    indexed ones besides. *)
Lemma cast_set_keeps key v f :
  cast_set L key v = inr f →
  ∀ u, (key ≠ "id" → id (f u) = id u)
       ∧ (key ≠ "username" → username (f u) = username u)
       ∧ (key ≠ "email" → email (f u) = email u)
       ∧ (key ≠ "npk" → npk (f u) = npk u).
Proof.
  unfold cast_set.
  repeat (case_bool_decide; [subst; intros Hcast; repeat case_match;
                             simplify_eq; intros []; by repeat split|]).
  intros [= <-] u. done.
Qed.

Lemma cast_update_keeps updates apply :
  cast_update L updates = inr apply →
  ∀ u, ("id" ∉ updates.*1 → id (apply u) = id u)
       ∧ ("username" ∉ updates.*1 → username (apply u) = username u)
       ∧ ("email" ∉ updates.*1 → email (apply u) = email u)
       ∧ ("npk" ∉ updates.*1 → npk (apply u) = npk u).
Proof.
  revert apply. induction updates as [|[key v] rest IH]; simpl; intros apply.
  - by intros [= <-].
  - destruct (cast_set L key v) as [?|f] eqn:Hf; [done|].
    destruct (cast_update L rest) as [?|g]; [done|].
    intros [= <-] u.
    destruct (IH g eq_refl (f u)) as (H1 & H2 & H3 & H4).
    destruct (cast_set_keeps key v f Hf u) as (K1 & K2 & K3 & K4).
    repeat split; intros [Hne Hrest]%not_elem_of_cons.
    + rewrite H1, K1; done.
    + rewrite H2, K2; done.
    + rewrite H3, K3; done.
    + rewrite H4, K4; done.
Qed.

(** A successful [findOneAndUpdate] keeps the indexes unique. *)
Lemma findOneAndUpdate_keeps_indexes now filter updates db db' found :
  unique_indexes db →
  findOneAndUpdate L now filter updates db = inr (db', found) →
  unique_indexes db'.
Proof.
  intros Hdb. unfold findOneAndUpdate.
  destruct (cast_update L updates) as [?|apply] eqn:Hcast; [done|].
  destruct (validate_update _ _); [|done].
  destruct (findOne filter db) as [u|] eqn:Hfind; [|by intros [= <- _]].
  set (u' := set_updatedAt now (apply u)).
  destruct (negb _) eqn:Hid; [done|].
  apply negb_false_iff, bool_decide_eq_true in Hid.
  destruct (duplicateKey _ _ _) eqn:Hdup; [done|].
  intros [= <- _].
  destruct (findOne_split _ _ _ Hfind) as (pre & post & -> & Hpre & Hu).
  rewrite updateFirst_split by done.
  destruct Hdb as (Hoid & Huuid & Hname & Hmail & Hnpk).
  destruct (cast_update_keeps _ _ Hcast u) as (K1 & K2 & K3 & K4).
  assert (id u' = id (apply u) ∧ username u' = username (apply u)
          ∧ email u' = email (apply u) ∧ npk u' = npk (apply u))
    as (E1 & E2 & E3 & E4) by (unfold u'; by destruct (apply u)).
  assert (∀ r, r ∈ pre ++ post → _id r ≠ _id u') as Hne.
  { intros r Hr. rewrite Hid. by eapply Lifecycle.NoDup_fmap_split. }
  assert (∀ path r, path ∈ uniquePaths → path ∈ updates.*1 →
            r ∈ pre ++ post →
            (path = "id" → id r ≠ id u')
            ∧ (path = "username" → username r ≠ username u')
            ∧ (path = "email" → email r ≠ email u')
            ∧ (path = "npk" → ∀ v, npk u' = Some v → npk r ≠ Some v))
    as Hkeys.
  { intros path r Hpath Htouched Hr. apply collides_false; [|auto].
    eapply duplicateKey_None; [done..|].
    apply elem_of_app in Hr as [Hr|Hr]; apply elem_of_app;
      [by left|right; by apply list_elem_of_further]. }
  repeat split.
  - apply (NoDup_fmap_replace _id pre u); auto.
  - apply (NoDup_fmap_replace id pre u); [done|].
    destruct (decide ("id" ∈ updates.*1)) as [Hin|Hout].
    + right. intros r Hr.
      destruct (Hkeys "id" r) as (H & _); [unique_path|done..|by apply H].
    + left. rewrite E1. auto.
  - apply (NoDup_fmap_replace username pre u); [done|].
    destruct (decide ("username" ∈ updates.*1)) as [Hin|Hout].
    + right. intros r Hr.
      destruct (Hkeys "username" r) as (_ & H & _);
        [unique_path|done..|by apply H].
    + left. rewrite E2. auto.
  - apply (NoDup_fmap_replace email pre u); [done|].
    destruct (decide ("email" ∈ updates.*1)) as [Hin|Hout].
    + right. intros r Hr.
      destruct (Hkeys "email" r) as (_ & _ & H & _);
        [unique_path|done..|by apply H].
    + left. rewrite E3. auto.
  - apply (NoDup_omap_replace npk pre u); [done|].
    destruct (decide ("npk" ∈ updates.*1)) as [Hin|Hout].
    + right. intros v r Hv Hr.
      destruct (Hkeys "npk" r) as (_ & _ & _ & H);
        [unique_path|done..|by apply (H eq_refl v)].
    + left. rewrite E4. auto.
Qed.

End WithLibrary.
End Touched.

(** X5.  [updateUser] keeps the unique indexes: when no two records
    share an [_id], [id], [username], [email] or [npk], a successful
    [updateUser] leaves the collection so. *)
Theorem updateUser_keeps_indexes (L : Library) (now : Z) (userId : string)
    (updateData : list (string * json)) (db db' : UserModel.Collection)
    (d : UserModel.Doc) :
  UserModel.unique_indexes db →
  UserModel.updateUser L now userId updateData db = inr (db', d) →
  UserModel.unique_indexes db'.
Proof.
  intros Hdb. unfold UserModel.updateUser.
  destruct (UserModel.allowed_entries updateData) as [|kv rest]; [done|].
  destruct (UserModel.findOneAndUpdate _ _ _ _ _) as [e|[db1 [user|]]] eqn:E;
    [by destruct e| |done].
  intros [= <- _]. by eapply Touched.findOneAndUpdate_keeps_indexes.
Qed.

Lemma updateUser_keeps_indexes_witness :
  let db := [Demo.nurse; Demo.promoted] in
  let changed :=
    UserModel.set_updatedAt Demo.now
      (UserModel.set_username "nurseB" Demo.nurse) in
  UserModel.unique_indexes db
  ∧ UserModel.updateUser Demo.lib Demo.now "65a000000000000000000001"
      [("username", JStr " nurseB ")] db
    = inr ([changed; Demo.promoted], UserModel.hydrate false changed)
  ∧ UserModel.unique_indexes [changed; Demo.promoted]
  ∧ UserModel.updateUser Demo.lib Demo.now "65a000000000000000000001"
      [("username", JStr "kepala")] db
    = inl (Thrown "username already exists").
Proof.
  intros db changed.
  split; [exact demo_unique_indexes|]. split; [reflexivity|].
  split; [|reflexivity].
  apply (updateUser_keeps_indexes Demo.lib Demo.now
           "65a000000000000000000001" [("username", JStr " nurseB ")] db
           [changed; Demo.promoted] (UserModel.hydrate false changed));
    [exact demo_unique_indexes|reflexivity].
Defined.

(** X6.  A successful [createUser] has appended exactly one record,
    under the [_id] the document drew, which no stored record had; the
    record holds the hash of the password that was given, a password
    of at least 8 characters, and what is returned is that record
    without its password. *)
Theorem createUser_hashes_password (L : Library) (now : Z)
    (oid uuid : string) (userData : UserModel.UserData)
    (db db' : UserModel.Collection) (u : UserModel.User) :
  UserModel.createUser L now oid uuid userData db = inr (db', u) →
  ∃ plain r,
    UserModel.new_password userData = Some plain
    ∧ 8 ≤ UserModel.len plain
    ∧ db' = db ++ [r]
    ∧ UserModel._id r = oid
    ∧ (oid ∉ UserModel._id <$> db)
    ∧ UserModel.password r = Some (bcrypt_hash L plain)
    ∧ u = UserModel.set_password None r
    ∧ UserModel.password u = None.
Proof.
  intros (saved & Hsave & ->)%Unique.createUser_inr.
  apply Insert.save_construct in Hsave
    as (plain & Hplain & Hvalid & -> & -> & Hfresh%Insert.stored_false & _).
  apply Store.validate_nil in Hvalid as (_ & _ & _ & Hpw & _).
  exists plain. eexists. split; [done|]. split.
  { simpl in Hpw. rewrite Hplain in Hpw. simpl in Hpw.
    apply andb_true_iff in Hpw as [_ Hlen]. by apply Z.leb_le. }
  split; [done|]. repeat split; try done.
Qed.

Lemma createUser_hashes_password_witness :
  let db := [Demo.nurse; Demo.promoted] in
  UserModel.createUser Demo.lib Demo.now "65a000000000000000000004"
    "9a3b2c1d-0e4f-4a5b-8c6d-7e8f9a0b1c2d" Demo.mitraB db
  = inr (db ++ [Demo.mitra], UserModel.set_password None Demo.mitra)
  ∧ ∃ plain r,
      UserModel.new_password Demo.mitraB = Some plain
      ∧ 8 ≤ UserModel.len plain
      ∧ db ++ [Demo.mitra] = db ++ [r]
      ∧ UserModel._id r = "65a000000000000000000004"
      ∧ ("65a000000000000000000004" ∉ UserModel._id <$> db)
      ∧ UserModel.password r = Some (bcrypt_hash Demo.lib plain)
      ∧ UserModel.set_password None Demo.mitra
        = UserModel.set_password None r
      ∧ UserModel.password (UserModel.set_password None Demo.mitra) = None.
Proof.
  intros db. split; [reflexivity|].
  apply (createUser_hashes_password Demo.lib Demo.now
           "65a000000000000000000004"
           "9a3b2c1d-0e4f-4a5b-8c6d-7e8f9a0b1c2d" Demo.mitraB db).
  reflexivity.
Defined.

(** ** Registration with the server *)

Section Registration.

Variable L : Library.
Variable env : Env.

Lemma register_error_status err :
  status (Server.register_error L env err) ≠ 201.
Proof.
  unfold Server.register_error.
  destruct err; try done; by destruct (Js.contains _ _).
Qed.

End Registration.

(** X7.  The server's registration never makes a nurse.  The handler
    passes neither [unit] nor [npk] to the new document, so for every
    role but [admin] and [mitra], the default [perawat] included, it
    leaves the collection as it was and does not answer 201.  When it
    answers 201 it has appended one active record of the role asked
    for, without unit and npk, holding the hash of the password. *)
Theorem register_makes_no_nurse (L : Library) (env : Env) (now : Z)
    (oid uuid : string) (db db' : UserModel.Collection)
    (username email password fullName role : option string)
    (res : Response) :
  Server.register L env now oid uuid db username email password fullName role
  = (db', res) →
  (role ≠ Some "admin" → role ≠ Some "mitra" →
   db' = db ∧ status res ≠ 201)
  ∧ (status res = 201 →
     ∃ plain r,
       password = Some plain
       ∧ db' = db ++ [r]
       ∧ Some (UserModel.role r) = role
       ∧ UserModel.password r = Some (bcrypt_hash L plain)
       ∧ UserModel.unit r = None
       ∧ UserModel.npk r = None
       ∧ UserModel.isActive r = true).
Proof.
  unfold Server.register.
  destruct (_ || _); [by intros [= <- <-]|].
  destruct (_ <? 3); [by intros [= <- <-]|].
  destruct (UserModel.findOne _ db); [by intros [= <- <-]|].
  destruct (UserModel.save _ _ _ _) as [err|[db1 saved]] eqn:Hsave.
  { intros [= <- <-]. split.
    - intros _ _. split; [done|apply register_error_status].
    - intros H. by apply register_error_status in H. }
  apply Insert.save_construct in Hsave
    as (plain & Hplain & Hvalid & -> & -> & _).
  simpl in Hplain.
  apply Store.validate_nil in Hvalid as (_ & _ & _ & _ & _ & Hrole & _ & Hunit).
  assert (role = Some "admin" ∨ role = Some "mitra") as Hcases.
  { destruct role as [r|]; [|by vm_compute in Hunit].
    simpl in Hrole, Hunit.
    destruct (bool_decide (r = "")) eqn:Hr; [by vm_compute in Hunit|].
    apply includes_spec, list_elem_of_In in Hrole. simpl in Hrole.
    destruct Hrole as [<-|[<-|[<-|[<-|[]]]]]; auto;
      by vm_compute in Hunit. }
  intros Hres. split.
  { intros Ha Hm. by destruct Hcases. }
  destruct (Js.falsy (JWT_SECRET env)).
  { by injection Hres as <- <-. }
  injection Hres as <- <-. intros _.
  exists plain. eexists. split; [done|]. split; [done|].
  split; [|done]. by destruct Hcases as [-> | ->].
Qed.

Lemma register_makes_no_nurse_witness :
  let db := [Demo.nurse; Demo.promoted] in
  let body :=
    [ ("success", JBool true);
      ("message", JStr "Registration successful");
      ("user", JObj [ ("_id", JStr "65a000000000000000000004");
                      ("username", JStr "mitraB");
                      ("email", JStr "b@x.com");
                      ("role", JStr "mitra");
                      ("fullName", JStr "mitraB");
                      ("createdAt", JNum Demo.now) ]);
      ("token", JStr "session.jwt") ] in
  let r := UserModel.set_fullName (Some "mitraB") Demo.mitra in
  Server.register Demo.lib Demo.env Demo.now "65a000000000000000000004"
    "9a3b2c1d-0e4f-4a5b-8c6d-7e8f9a0b1c2d" db (Some "mitraB")
    (Some "b@x.com") (Some "rahasia99") None (Some "mitra")
  = (db ++ [r], mkResponse 201 body)
  ∧ (∃ plain r',
       Some "rahasia99" = Some plain
       ∧ db ++ [r] = db ++ [r']
       ∧ Some (UserModel.role r') = Some "mitra"
       ∧ UserModel.password r' = Some (bcrypt_hash Demo.lib plain)
       ∧ UserModel.unit r' = None
       ∧ UserModel.npk r' = None
       ∧ UserModel.isActive r' = true)
  ∧ (Server.register Demo.lib Demo.env Demo.now "65a000000000000000000004"
       "9a3b2c1d-0e4f-4a5b-8c6d-7e8f9a0b1c2d" db (Some "nurseC")
       (Some "c@x.com") (Some "rahasia99") None None).1 = db.
Proof.
  intros db body r.
  split; [reflexivity|]. split.
  - apply (register_makes_no_nurse Demo.lib Demo.env Demo.now
             "65a000000000000000000004"
             "9a3b2c1d-0e4f-4a5b-8c6d-7e8f9a0b1c2d" db (db ++ [r])
             (Some "mitraB") (Some "b@x.com") (Some "rahasia99") None
             (Some "mitra") (mkResponse 201 body) eq_refl).
    reflexivity.
  - reflexivity.
Defined.

(** ** The blacklist and its timers *)

Module Eviction.
Import AuthRoutes.

Section WithLibrary.
Variable L : Library.
Variable env : Env.

Lemma lapsed_mono tok t T : lapsed L tok t → t ≤ T → lapsed L tok T.
Proof. intros (exp & ? & ?) ?. exists exp. split; [done|lia]. Qed.

Lemma verify_lapsed tok secret T :
  lapsed L tok T → ∃ e, JsonWebToken.verify L tok secret T = inl e.
Proof.
  intros (exp & Hexp & Hle). unfold JsonWebToken.verify.
  destruct (Js.falsy secret); [eauto|].
  unfold JsonWebToken.decode_exp in Hexp.
  destruct (jwt_parse L tok) as [j|]; [|eauto]. simpl in Hexp.
  destruct (negb _); [eauto|]. rewrite Hexp.
  assert ((exp <=? T `div` 1000) = true) as ->; [|eauto].
  apply Z.leb_le. apply Z.div_le_lower_bound; lia.
Qed.

Lemma fires_at_timely now exp :
  exp * 1000 - now ≤ 2147483647 →
  exp * 1000 ≤ fires_at now (exp * 1000 - now).
Proof.
  intros Hshort. unfold fires_at.
  destruct (1 <=? exp * 1000 - now) eqn:H1; simpl.
  - destruct (_ <=? 2147483647) eqn:H2; [lia|].
    apply Z.leb_gt in H2. lia.
  - apply Z.leb_gt in H1. lia.
Qed.

Lemma timers_blacklisted t k st :
  timers (addTokenToBlacklist L t k st) = timers st
  ∨ ∃ exp, JsonWebToken.decode_exp L k = Some exp
           ∧ timers (addTokenToBlacklist L t k st)
             = timers st ++ [(fires_at t (exp * 1000 - t), k)].
Proof.
  unfold addTokenToBlacklist.
  destruct (JsonWebToken.decode_exp L k) as [exp|]; [|by left].
  destruct (bool_decide (exp = 0)); [by left|]. right. by exists exp.
Qed.

Lemma evicted (due : list (Z * string)) (bl : gset string) tok :
  tok ∈ bl →
  tok ∈ foldr (λ t bl, bl ∖ {[ t.2 ]}) bl due ∨ ∃ t, (t, tok) ∈ due.
Proof.
  intros Hin. induction due as [|[t k] due IH]; simpl; [by left|].
  destruct IH as [IH|[t' IH]].
  - destruct (decide (k = tok)) as [->|Hne].
    + right. exists t. apply list_elem_of_here.
    + left. apply elem_of_difference. split; [done|].
      by intros ?%elem_of_singleton.
  - right. exists t'. by apply list_elem_of_further.
Qed.

Lemma timely_blacklisted tok now t k st :
  (∀ exp, JsonWebToken.decode_exp L tok = Some exp →
          exp * 1000 - now ≤ 2147483647) →
  now ≤ t →
  timely L tok st → timely L tok (addTokenToBlacklist L t k st).
Proof.
  intros Hshort Hlo Htimely t0 Ht0.
  destruct (timers_blacklisted t k st) as [E|(exp & Hexp & E)];
    rewrite E in Ht0; [by apply Htimely|].
  apply elem_of_app in Ht0 as [Ht0|Ht0]; [by apply Htimely|].
  apply list_elem_of_singleton in Ht0. injection Ht0 as -> ->.
  exists exp. split; [done|].
  apply fires_at_timely. specialize (Hshort exp Hexp). lia.
Qed.

Lemma held_after tok now T st e :
  (∀ exp, JsonWebToken.decode_exp L tok = Some exp →
          exp * 1000 - now ≤ 2147483647) →
  now ≤ time e ≤ T →
  held L tok T st → held L tok T (after L st e).
Proof.
  intros Hshort [Hlo Hhi] [Hin Htimely].
  destruct e as [t k|t]; cbn [after time] in *.
  - split.
    + rewrite addTokenToBlacklist_blacklist, elem_of_union. tauto.
    + by eapply timely_blacklisted.
  - unfold run_timers.
    rewrite partition_as_filter. simpl. split.
    + destruct Hin as [Hin|Hin]; [|by right].
      destruct (evicted (List.filter (λ x, x.1 <=? t) (timers st))
                  (tokenBlacklist st) tok Hin) as [?|[t0 Ht0]]; [by left|].
      right. apply list_elem_of_In, filter_In in Ht0 as [Ht0 Hdue].
      apply list_elem_of_In in Ht0. simpl in Hdue. apply Z.leb_le in Hdue.
      apply (lapsed_mono tok t0); [by apply Htimely|lia].
    + intros t0 Ht0. apply Htimely.
      apply list_elem_of_In, filter_In in Ht0 as [Ht0 _].
      by apply list_elem_of_In.
Qed.

Lemma held_foldl tok now T events st :
  (∀ exp, JsonWebToken.decode_exp L tok = Some exp →
          exp * 1000 - now ≤ 2147483647) →
  Forall (λ e, now ≤ time e ≤ T) events →
  held L tok T st → held L tok T (foldl (after L) st events).
Proof.
  intros Hshort Hall. revert st.
  induction Hall as [|e events He _ IH]; simpl; [done|].
  intros st Hst. apply IH. by eapply held_after.
Qed.

Lemma verifyToken_held tok T st req :
  request_token req = Some tok → tok ≠ "" →
  held L tok T st →
  ∃ res, verifyToken L env st T req = Respond res ∧ status res = 401.
Proof.
  intros Hreq Hne [[Hin|Hlapsed] _]; unfold verifyToken; rewrite Hreq; simpl;
    rewrite bool_decide_eq_false_2 by done.
  - unfold isTokenBlacklisted. rewrite bool_decide_eq_true_2 by done. eauto.
  - destruct (isTokenBlacklisted st tok); [eauto|].
    destruct (verify_lapsed tok (JWT_SECRET env) T Hlapsed) as [e ->].
    destruct e; eauto.
Qed.

End WithLibrary.
End Eviction.

(** X8.  Revocation lasts.  Take a token whose expiry, if it has one,
    lies at most 2^31 - 1 ms ahead, the longest delay a timer takes,
    and for which no eviction is pending early.  Once
    [addTokenToBlacklist] has taken it, then whatever tokens are
    blacklisted and whichever evictions run afterwards, [verifyToken]
    answers 401 to a request that presents it, at every later time: an
    eviction removes a token only when it has expired. *)
Theorem revocation_lasts (L : Library) (env : Env) (now T : Z)
    (st : AuthRoutes.State) (tok : string)
    (events : list AuthRoutes.Event) (req : Request) :
  (∀ exp, JsonWebToken.decode_exp L tok = Some exp →
          exp * 1000 - now ≤ 2147483647) →
  AuthRoutes.timely L tok st →
  Forall (λ e, now ≤ AuthRoutes.time e ≤ T) events →
  AuthRoutes.request_token req = Some tok →
  tok ≠ "" →
  let st' :=
    foldl (AuthRoutes.after L) (AuthRoutes.addTokenToBlacklist L now tok st)
          events in
  ∃ res, AuthRoutes.verifyToken L env st' T req = Respond res
         ∧ status res = 401.
Proof.
  intros Hshort Htimely Hevents Hreq Hne st'.
  apply Eviction.verifyToken_held with (tok := tok); [done..|].
  apply (Eviction.held_foldl L tok now); [done..|]. split.
  - left. rewrite addTokenToBlacklist_blacklist, elem_of_union.
    left. by apply elem_of_singleton.
  - by apply (Eviction.timely_blacklisted L tok now).
Qed.

Lemma revocation_lasts_witness :
  let st := AuthRoutes.mkState [Demo.nurse] ∅ [] in
  let req := Demo.request (Some "Bearer claims.jwt") None in
  let events :=
    [ AuthRoutes.Evictions (Demo.now + 1000);
      AuthRoutes.Blacklisted (Demo.now + 2000) "earlier.jwt";
      AuthRoutes.Evictions 1700086400000 ] in
  let st' :=
    foldl (AuthRoutes.after Demo.lib)
          (AuthRoutes.addTokenToBlacklist Demo.lib Demo.now "claims.jwt" st)
          events in
  AuthRoutes.verifyToken Demo.lib Demo.env st Demo.now req
  = Next (with_token (Some "claims.jwt")
            (with_user (Some (AuthRoutes.userPayload Demo.nurse)) req))
  ∧ ("claims.jwt" ∉ AuthRoutes.tokenBlacklist st')
  ∧ ∃ res,
      AuthRoutes.verifyToken Demo.lib Demo.env st' 1700086400000 req
      = Respond res
      ∧ status res = 401.
Proof.
  intros st req events st'.
  split; [reflexivity|].
  split; [apply (bool_decide_unpack _); vm_compute; exact I|].
  apply (revocation_lasts Demo.lib Demo.env Demo.now 1700086400000 st
           "claims.jwt" events req).
  - intros exp H. vm_compute in H. injection H as <-. vm_compute.
    discriminate.
  - intros t Ht. by apply elem_of_nil in Ht.
  - unfold events, Demo.now. repeat constructor; simpl; lia.
  - reflexivity.
  - discriminate.
Defined.

(** ** Sessions *)

Module Sessions.

Section WithLibrary.
Variable L : Library.
Variable env : Env.

(** [jwt.verify] on a token that decodes to what was signed with the
    configured secret: the payload until the expiry, the expiry error
    from then on. *)
Lemma verify_signed payload secret iat exp T :
  let j := mkJwt payload secret iat (Some exp) in
  JWT_SECRET env = Some secret → secret ≠ "" →
  jwt_parse L (jwt_render L j) = Some j →
  JsonWebToken.verify L (jwt_render L j) (JWT_SECRET env) T
  = if exp <=? T `div` 1000 then inl JsonWebToken.TokenExpiredError
    else inr payload.
Proof.
  intros j Hsecret Hne Hparse. unfold JsonWebToken.verify.
  rewrite Hsecret, Hparse. simpl.
  rewrite bool_decide_eq_false_2 by done.
  by rewrite bool_decide_eq_true_2.
Qed.


End WithLibrary.
End Sessions.



Module ServerSessions.

Section WithLibrary.
Variable L : Library.
Variable env : Env.

(** What a 200 of the server's login says. *)
Lemma server_login_200 now db identifier password db' res :
  Server.login L env now db identifier password = (db', res) →
  status res = 200 →
  ∃ u secret,
    UserModel.findOne
      (Server.by_identifier (default "" identifier)) db = Some u
    ∧ UserModel.comparePassword L db (UserModel.hydrate false u)
        (default "" password) = inr true
    ∧ JWT_SECRET env = Some secret ∧ secret ≠ ""
    ∧ field "token" (body res)
      = Some (JStr (JsonWebToken.sign L (Server.session_payload u)
                      secret now 86400)).
Proof.
  unfold Server.login.
  destruct (_ || _); [by intros [= <- <-]|].
  destruct (UserModel.findOne _ db) as [u|] eqn:Hfind;
    [|by intros [= <- <-]].
  destruct (UserModel.comparePassword _ _ _ _) as [err|[|]] eqn:Hcompare.
  - intros [= <- <-]. by rewrite login_error_status.
  - destruct (Js.falsy (JWT_SECRET env)) eqn:Hsecret.
    { intros [= <- <-]. by rewrite login_error_status. }
    destruct (UserModel.save _ _ _ _) as [err|[db1 saved]].
    { intros [= <- <-]. by rewrite login_error_status. }
    intros [= <- <-] _.
    destruct (JWT_SECRET env) as [secret|]; [|done].
    exists u, secret. simpl in Hsecret. apply bool_decide_eq_false in Hsecret.
    done.
  - by intros [= <- <-].
Qed.

End WithLibrary.
End ServerSessions.

(** X10.  A 200 of the server's login means that the first record under
    that identifier, active or not, holds a hash the password matches.
    The token of the response signs [{ userId }] for 86400 seconds:
    until the expiry, the server's own [authenticateToken] lets a
    request that presents it through with [req.userId] set to the
    [_id] of that record, and [POST /api/auth/verify] answers 200 as
    long as a record is stored under that [_id], 404 once there is
    none. *)
Theorem server_session_round_trip (L : Library) (env : Env) (now : Z)
    (db db' : UserModel.Collection) (identifier password : option string)
    (res : Response) :
  Server.login L env now db identifier password = (db', res) →
  status res = 200 →
  ∃ u secret,
    u ∈ db
    ∧ Server.by_identifier (default "" identifier) u = true
    ∧ UserModel.comparePassword L db (UserModel.hydrate false u)
        (default "" password) = inr true
    ∧ let j := mkJwt (Server.session_payload u) secret (now `div` 1000)
                     (Some (now `div` 1000 + 86400)) in
      field "token" (body res) = Some (JStr (jwt_render L j))
      ∧ ∀ T db1 req,
          bearer (authorization req) = Some (jwt_render L j) →
          jwt_render L j ≠ "" →
          jwt_parse L (jwt_render L j) = Some j →
          T `div` 1000 < now `div` 1000 + 86400 →
          Server.authenticateToken L env T req
          = Next (with_userId (Some (UserModel._id u)) req)
          ∧ (∀ found,
               UserModel.findById (UserModel._id u) false db1 = Some found →
               status (Server.verify L env T db1 req) = 200)
          ∧ (UserModel.findById (UserModel._id u) false db1 = None →
             Server.verify L env T db1 req
             = Server.invalid 404 "User not found").
Proof.
  intros Hlogin Hok.
  destruct (ServerSessions.server_login_200 L env _ _ _ _ _ _ Hlogin Hok)
    as (u & secret & Hfind & Hmatch & Hsecret & Hne & Htoken).
  apply Store.findOne_elem_of in Hfind as [Hin Hid].
  exists u, secret. do 3 (split; [done|]). split; [done|].
  intros T db1 req Hbearer Hne' Hparse Hlive.
  unfold Server.authenticateToken, Server.verify. rewrite Hbearer. simpl.
  rewrite bool_decide_eq_false_2 by done.
  rewrite Sessions.verify_signed by done.
  rewrite (proj2 (Z.leb_gt _ _)) by lia. simpl.
  split; [done|]. split.
  - by intros found ->.
  - by intros ->.
Qed.

Lemma server_session_round_trip_witness :
  let db := [Demo.nurse; Demo.promoted] in
  let r := Server.login Demo.lib Demo.env Demo.now db
             (Some "nurseA") (Some "secret123") in
  let req := Demo.request (Some "Bearer session.jwt") None in
  status r.2 = 200
  ∧ field "token" (body r.2) = Some (JStr "session.jwt")
  ∧ Server.authenticateToken Demo.lib Demo.env (Demo.now + 60000) req
    = Next (with_userId (Some "65a000000000000000000001") req)
  ∧ status (Server.verify Demo.lib Demo.env (Demo.now + 60000) r.1 req) = 200
  ∧ Server.verify Demo.lib Demo.env (Demo.now + 60000) [Demo.promoted] req
    = Server.invalid 404 "User not found"
  ∧ ∃ u secret,
      u ∈ db
      ∧ Server.by_identifier "nurseA" u = true
      ∧ UserModel.comparePassword Demo.lib db (UserModel.hydrate false u)
          "secret123" = inr true
      ∧ let j := mkJwt (Server.session_payload u) secret
                       (Demo.now `div` 1000)
                       (Some (Demo.now `div` 1000 + 86400)) in
        field "token" (body r.2) = Some (JStr (jwt_render Demo.lib j))
        ∧ ∀ T db1 req,
            bearer (authorization req) = Some (jwt_render Demo.lib j) →
            jwt_render Demo.lib j ≠ "" →
            jwt_parse Demo.lib (jwt_render Demo.lib j) = Some j →
            T `div` 1000 < Demo.now `div` 1000 + 86400 →
            Server.authenticateToken Demo.lib Demo.env T req
            = Next (with_userId (Some (UserModel._id u)) req)
            ∧ (∀ found,
                 UserModel.findById (UserModel._id u) false db1
                 = Some found →
                 status (Server.verify Demo.lib Demo.env T db1 req) = 200)
            ∧ (UserModel.findById (UserModel._id u) false db1 = None →
               Server.verify Demo.lib Demo.env T db1 req
               = Server.invalid 404 "User not found").
Proof.
  intros db r req.
  do 5 (split; [reflexivity|]).
  apply (server_session_round_trip Demo.lib Demo.env Demo.now db r.1
           (Some "nurseA") (Some "secret123") r.2); reflexivity.
Defined.

(** ** Password updates *)

Module Passwords.
Import UserModel Store Insert.

Section WithLibrary.
Variable L : Library.

(** [save] after [this.password = h] on a document loaded by
    [findById]: the first pre-save hook sees the path modified and
    hashes [h] once more before the write. *)
Lemma save_assigned_password now db i sel d h :
  findById i sel db = Some d →
  password (data d) ≠ Some h →
  save L now db (assign_password (Some h) d) =
    match validate (assign_password (Some h) d) with
    | [] =>
        let stored h' u := set_updatedAt now (set_password (Some h') u) in
        inr (updateOne i (stored (bcrypt_hash L h)) db,
             mkDoc (stored (bcrypt_hash L h) (data d)) false sel [])
    | paths => inl (ValidationError paths)
    end.
Proof.
  intros (u & Hfind & -> & Hi)%findById_Some Hnew.
  unfold assign_password, assigned.
  rewrite bool_decide_eq_false_2 by done.
  set (d0 := mkDoc _ _ _ _).
  unfold save. destruct (validate d0) eqn:Hvalid; [|done].
  assert (pre_save_password L d0
          = inr (mkDoc (set_password (Some (bcrypt_hash L h)) (data d0))
                       false sel ["password"])) as ->.
  { unfold pre_save_password.
    assert (isModified d0 "password" = true) as ->
      by (apply includes_spec, list_elem_of_here).
    unfold d0. by destruct u, sel. }
  apply validate_nil in Hvalid as (_ & _ & _ & _ & Hnpk & _).
  rewrite pre_save_npk_ok.
  2:{ unfold d0 in *. by destruct u, sel. }
  cbn [isNew modifiedPaths data withPassword].
  rewrite duplicateKey_untouched.
  2:{ intros p Hp. apply includes_false.
      intros [->|E]%elem_of_cons; [|by apply elem_of_nil in E].
      apply list_elem_of_In in Hp. simpl in Hp. intuition discriminate. }
  assert (_id (set_updatedAt now
                 (set_password (Some (bcrypt_hash L h)) (data d0))) = i)
    as -> by (unfold d0; by destruct u, sel).
  apply findOne_elem_of in Hfind as [Hin _].
  rewrite (stored_elem i db u Hin Hi).
  f_equal. f_equal.
  - apply updateFirst_ext. intros r. unfold d0. by destruct u, r, sel.
  - unfold d0. by destruct u, sel.
Qed.

End WithLibrary.
End Passwords.

(** X11.  [updatePassword] hashes the new password and assigns the hash,
    and [save] then finds [password] modified and hashes it again: on
    a valid document loaded by [findById], when the hash passes the
    length check of the schema, the call succeeds and the stored
    record holds the hash of the hash of the new password.  With no
    new password the call fails. *)
Theorem updatePassword_hashes_twice (L : Library) (now : Z)
    (db : UserModel.Collection) (i : string) (sel : bool)
    (d : UserModel.Doc) (plain : string) :
  UserModel.findById i sel db = Some d →
  UserModel.validate d = [] →
  UserModel.password_ok (Some (bcrypt_hash L plain)) = true →
  UserModel.password (UserModel.data d) ≠ Some (bcrypt_hash L plain) →
  (∃ db' d',
     UserModel.updatePassword L now db d (Some plain) = inr (db', d')
     ∧ (λ x, UserModel.password (UserModel.data x))
         <$> UserModel.findById i true db'
       = Some (Some (bcrypt_hash L (bcrypt_hash L plain))))
  ∧ UserModel.updatePassword L now db d None
    = inl (Thrown "Failed to update password").
Proof.
  intros Hfind Hvalid Hok Hnew. split; [|done].
  unfold UserModel.updatePassword.
  rewrite (Passwords.save_assigned_password L now db i sel d) by done.
  assert (UserModel.validate
            (UserModel.assign_password (Some (bcrypt_hash L plain)) d) = [])
    as ->.
  { apply Store.validate_nil in Hvalid
      as (H1 & H2 & H3 & _ & H5 & H6 & H7 & H8).
    apply Store.validate_nil.
    unfold UserModel.assign_password, UserModel.assigned.
    rewrite bool_decide_eq_false_2 by done.
    destruct d as [[] ? ? ?]. simpl in *.
    repeat split; try done. rewrite Hok. apply orb_true_r. }
  eexists _, _. split; [done|].
  apply Store.findById_Some in Hfind as (u & Hu & _ & _).
  erewrite Store.findById_updateOne; [|done|].
  - by destruct u.
  - apply Store.findOne_elem_of in Hu as [_ Hu].
    apply bool_decide_eq_true in Hu. by destruct u.
Qed.

Lemma updatePassword_hashes_twice_witness :
  let db := [Demo.nurse; Demo.promoted] in
  let d := UserModel.hydrate false Demo.nurse in
  UserModel.findById "65a000000000000000000001" false db = Some d
  ∧ UserModel.validate d = []
  ∧ UserModel.password_ok (Some (bcrypt_hash Demo.lib "rahasia99")) = true
  ∧ (∃ db' d',
       UserModel.updatePassword Demo.lib Demo.now db d (Some "rahasia99")
       = inr (db', d')
       ∧ (λ x, UserModel.password (UserModel.data x))
           <$> UserModel.findById "65a000000000000000000001" true db'
         = Some (Some "$2a$12$$2a$12$rahasia99"))
  ∧ UserModel.updatePassword Demo.lib Demo.now db d None
    = inl (Thrown "Failed to update password").
Proof.
  intros db d.
  do 3 (split; [reflexivity|]).
  apply (updatePassword_hashes_twice Demo.lib Demo.now db
           "65a000000000000000000001" false d "rahasia99");
    [reflexivity..|discriminate].
Defined.

Module PasswordRoute.

Section WithLibrary.
Variable L : Library.
Variable env : Env.

(** Every way through [verifyToken]. *)
Lemma verifyToken_next st now req req' :
  AuthRoutes.verifyToken L env st now req = Next req' →
  ∃ tok decoded,
    AuthRoutes.request_token req = Some tok ∧ tok ≠ ""
    ∧ AuthRoutes.isTokenBlacklisted st tok = false
    ∧ JsonWebToken.verify L tok (JWT_SECRET env) now = inr decoded
    ∧ req' = with_token (Some tok) (with_user (p_user decoded) req).
Proof.
  unfold AuthRoutes.verifyToken.
  destruct (AuthRoutes.request_token req) as [tok|]; [|done]. simpl.
  destruct (bool_decide (tok = "")) eqn:Hne; [done|].
  apply bool_decide_eq_false in Hne.
  destruct (AuthRoutes.isTokenBlacklisted st tok) eqn:Hbl; [done|].
  destruct (JsonWebToken.verify _ _ _ _) as [[]|decoded] eqn:Hv; [done..|].
  intros [= <-]. by exists tok, decoded.
Qed.

Lemma blacklisted_refused now T tok st req :
  AuthRoutes.request_token req = Some tok → tok ≠ "" →
  AuthRoutes.verifyToken L env
    (AuthRoutes.addTokenToBlacklist L now tok st) T req
  = Respond AuthRoutes.session_expired.
Proof.
  intros Hreq Hne. unfold AuthRoutes.verifyToken. rewrite Hreq. simpl.
  rewrite bool_decide_eq_false_2 by done.
  unfold AuthRoutes.isTokenBlacklisted.
  rewrite bool_decide_eq_true_2; [done|].
  rewrite addTokenToBlacklist_blacklist, elem_of_union. left.
  by apply elem_of_singleton.
Qed.

End WithLibrary.
End PasswordRoute.

(** X12.  A 200 of [PUT /update-password] means that the request got
    through [verifyToken], that the record its claims name holds a hash
    the current password matches, and that a new password was given.
    Afterwards the presented token is on the blacklist and refused,
    and the record holds the hash of the hash of the new password:
    the handler hashes it and the first pre-save hook of the model
    hashes the result again. *)
Theorem password_route_hashes_twice (L : Library) (env : Env) (now : Z)
    (st st' : AuthRoutes.State) (req : Request)
    (currentPassword newPassword : option string) (res : Response) :
  AuthRoutes.updatePassword L env st now req currentPassword newPassword
  = (st', res) →
  status res = 200 →
  ∃ tok i d hash current plain,
    AuthRoutes.request_token req = Some tok
    ∧ UserModel.findById i true (AuthRoutes.users st) = Some d
    ∧ UserModel.password (UserModel.data d) = Some hash
    ∧ currentPassword = Some current
    ∧ bcrypt_compare L current hash = true
    ∧ newPassword = Some plain
    ∧ tok ∈ AuthRoutes.tokenBlacklist st'
    ∧ AuthRoutes.verifyToken L env st' now req
      = Respond AuthRoutes.session_expired
    ∧ (hash ≠ bcrypt_hash L plain →
       (λ x, UserModel.password (UserModel.data x))
         <$> UserModel.findById i true (AuthRoutes.users st')
       = Some (Some (bcrypt_hash L (bcrypt_hash L plain)))).
Proof.
  unfold AuthRoutes.updatePassword.
  destruct (AuthRoutes.verifyToken _ _ _ _ _) as [req'|res'] eqn:Hverify.
  2:{ intros [= <- <-] Hok.
      unfold AuthRoutes.verifyToken in Hverify.
      repeat case_match; simplify_eq; discriminate. }
  apply PasswordRoute.verifyToken_next in Hverify
    as (tok & decoded & Hreq & Hne & _ & _ & ->).
  cbn [user token with_token with_user default].
  destruct (p_user decoded) as [claims|]; [|by intros [= <- <-]].
  destruct (Claims.id claims) as [i|]; simpl; [|by intros [= <- <-]].
  destruct (UserModel.findById i true _) as [d|] eqn:Hfind;
    [|by intros [= <- <-]].
  destruct currentPassword as [current|]; [|by intros [= <- <-]].
  destruct (UserModel.password (UserModel.data d)) as [hash|] eqn:Hhash;
    [|by intros [= <- <-]].
  destruct (negb _) eqn:Hmatch; [by intros [= <- <-]|].
  apply negb_false_iff in Hmatch.
  destruct newPassword as [plain|]; [|by intros [= <- <-]].
  destruct (UserModel.save _ _ _ _) as [e|[db' saved]] eqn:Hsave;
    [by intros [= <- <-]|].
  intros [= <- <-] _.
  exists tok, i, d, hash, current, plain. do 6 (split; [done|]).
  split.
  { rewrite addTokenToBlacklist_blacklist, elem_of_union. left.
    by apply elem_of_singleton. }
  split; [by apply PasswordRoute.blacklisted_refused|].
  intros Hnew. rewrite addTokenToBlacklist_users. simpl.
  rewrite (Passwords.save_assigned_password L now _ i true d) in Hsave.
  2:{ done. }
  2:{ rewrite Hhash. congruence. }
  destruct (UserModel.validate _); [|done]. injection Hsave as <- _.
  apply Store.findById_Some in Hfind as (u & Hu & _ & _).
  erewrite Store.findById_updateOne; [|done|].
  - by destruct u.
  - apply Store.findOne_elem_of in Hu as [_ Hu].
    apply bool_decide_eq_true in Hu. by destruct u.
Qed.

Lemma password_route_hashes_twice_witness :
  let st := AuthRoutes.mkState [Demo.nurse; Demo.promoted] ∅ [] in
  let req := Demo.request (Some "Bearer claims.jwt") None in
  let r := AuthRoutes.updatePassword Demo.lib Demo.env st Demo.now req
             (Some "secret123") (Some "rahasia99") in
  status r.2 = 200
  ∧ (λ x, UserModel.password (UserModel.data x))
      <$> UserModel.findById "65a000000000000000000001" true
            (AuthRoutes.users r.1)
    = Some (Some "$2a$12$$2a$12$rahasia99")
  ∧ (AuthRoutes.login Demo.lib Demo.env r.1 Demo.now
       (Some "a@x.com") (Some "rahasia99")).2
    = AuthRoutes.invalid_credentials
  ∧ ∃ tok i d hash current plain,
      AuthRoutes.request_token req = Some tok
      ∧ UserModel.findById i true (AuthRoutes.users st) = Some d
      ∧ UserModel.password (UserModel.data d) = Some hash
      ∧ Some "secret123" = Some current
      ∧ bcrypt_compare Demo.lib current hash = true
      ∧ Some "rahasia99" = Some plain
      ∧ tok ∈ AuthRoutes.tokenBlacklist r.1
      ∧ AuthRoutes.verifyToken Demo.lib Demo.env r.1 Demo.now req
        = Respond AuthRoutes.session_expired
      ∧ (hash ≠ bcrypt_hash Demo.lib plain →
         (λ x, UserModel.password (UserModel.data x))
           <$> UserModel.findById i true (AuthRoutes.users r.1)
         = Some (Some (bcrypt_hash Demo.lib (bcrypt_hash Demo.lib plain)))).
Proof.
  intros st req r.
  do 3 (split; [reflexivity|]).
  apply (password_route_hashes_twice Demo.lib Demo.env Demo.now st r.1 req
           (Some "secret123") (Some "rahasia99") r.2); reflexivity.
Defined.

(** ** generateMissingNPKs *)

Module Repair.
Import UserModel Store Insert.

Section WithLibrary.
Variable L : Library.

(** A successful [save] after [nurse.npk = code] on the document of an
    unnumbered nurse: the code is well formed, and it is written, with
    [updatedAt], to the record under the nurse's [_id]. *)
Lemma save_assigned_npk now db n code db1 saved :
  unnumbered_nurse n = true →
  save L now db (assign_npk (Some code) (hydrate false n))
  = inr (db1, saved) →
  npk_format code = true
  ∧ db1 = updateOne (_id n)
            (λ r, set_updatedAt now (set_npk (Some code) r)) db.
Proof.
  intros [Hrole Hbad]%andb_true_iff.
  apply bool_decide_eq_true in Hrole. apply negb_true_iff in Hbad.
  unfold assign_npk, assigned.
  destruct (bool_decide (npk (data (hydrate false n)) = Some code))
    eqn:Hsame.
  { apply bool_decide_eq_true in Hsame. unfold save.
    destruct (validate _) eqn:Hvalid; [|done].
    apply validate_nil in Hvalid as (_ & _ & _ & _ & Hnpk & _).
    rewrite Hsame in Hnpk. simpl in Hnpk.
    assert (npk n = Some code) as E by (by destruct n).
    rewrite E in Hbad. congruence. }
  set (d0 := mkDoc _ _ _ _). unfold save.
  destruct (validate d0) eqn:Hvalid; [|done].
  apply validate_nil in Hvalid as (_ & _ & _ & _ & Hnpk & _).
  assert (npk_format code = true) as Hcode.
  { unfold d0 in Hnpk. by destruct n. }
  assert (pre_save_password L d0 = inr d0) as ->.
  { unfold pre_save_password.
    assert (isModified d0 "password" = false) as ->; [|done].
    apply includes_false.
    intros [E|E]%elem_of_cons; [done|by apply elem_of_nil in E]. }
  rewrite pre_save_npk_ok by done.
  cbn [isNew d0 modifiedPaths hydrate].
  destruct (duplicateKey _ _ _); [done|].
  assert (_id (set_updatedAt now (data d0)) = _id n) as ->
    by (unfold d0; by destruct n).
  destruct (stored (_id n) db); [|done].
  intros [= <- _]. split; [done|].
  apply updateFirst_ext. intros r. unfold d0. by destruct n, r.
Qed.

(** Under a primary key, the write to the record with a given [_id]
    is the write to every record with that [_id]. *)
Lemma updateOne_fmap i f db :
  NoDup (_id <$> db) →
  updateOne i f db = (λ r, if bool_decide (_id r = i) then f r else r) <$> db.
Proof.
  unfold updateOne. induction db as [|x db IH]; simpl; [done|].
  intros [Hx Hdb]%NoDup_cons.
  destruct (bool_decide (_id x = i)) eqn:Hi.
  - f_equal. apply bool_decide_eq_true in Hi. subst i.
    clear IH. induction db as [|y db IH]; simpl; [done|].
    rewrite bool_decide_eq_false_2.
    2:{ intros E. apply Hx. rewrite <-E. apply list_elem_of_here. }
    f_equal. apply IH.
    + intros Hin. apply Hx. by apply list_elem_of_further.
    + by apply NoDup_cons in Hdb as [_ ?].
  - f_equal. by apply IH.
Qed.

(** The state of the repair once the nurses whose [_id] is in [done]
    have been saved: their records hold a well-formed code, every
    other record is as it was. *)
Lemma repaired_step now db0 cur (done : list string) i code :
  NoDup (_id <$> db0) →
  i ∉ done →
  npk_format code = true →
  Forall2 (λ r r',
             _id r' = _id r
             ∧ (_id r ∈ done →
                ∃ c, npk_format c = true
                     ∧ r' = set_updatedAt now (set_npk (Some c) r))
             ∧ (_id r ∉ done → r' = r)) db0 cur →
  Forall2 (λ r r',
             _id r' = _id r
             ∧ (_id r ∈ done ++ [i] →
                ∃ c, npk_format c = true
                     ∧ r' = set_updatedAt now (set_npk (Some c) r))
             ∧ (_id r ∉ done ++ [i] → r' = r)) db0
    (updateOne i (λ r, set_updatedAt now (set_npk (Some code) r)) cur).
Proof.
  intros Hkey Hfresh Hcode Hinv.
  assert (_id <$> cur = _id <$> db0) as Hids.
  { clear -Hinv. induction Hinv as [|r r' db0 cur [E _] _ IH]; [done|].
    rewrite !fmap_cons. by rewrite E, IH. }
  assert (NoDup (_id <$> cur)) as Hcur by (rewrite Hids; exact Hkey).
  rewrite (updateOne_fmap _ _ _ Hcur).
  apply Forall2_fmap_r. eapply Forall2_impl; [exact Hinv|].
  intros r r' (Hid & Hdone & Hrest). simpl.
  destruct (bool_decide (_id r' = i)) eqn:Hi.
  - apply bool_decide_eq_true in Hi.
    assert (_id r ∉ done) as Hout by congruence.
    rewrite (Hrest Hout). split; [by destruct r|]. split.
    + intros _. by exists code.
    + intros Hnot. exfalso. apply Hnot. apply elem_of_app. right.
      apply list_elem_of_singleton. congruence.
  - apply bool_decide_eq_false in Hi. split; [done|]. split.
    + intros [Hin|Hin%list_elem_of_singleton]%elem_of_app; [auto|congruence].
    + intros Hnot. apply Hrest. intros Hin. apply Hnot.
      apply elem_of_app. by left.
Qed.

Lemma save_each_repairs now next db0 nurses :
  NoDup (_id <$> db0) →
  ∀ index cur (done : list string) db',
    Forall2 (λ r r',
               _id r' = _id r
               ∧ (_id r ∈ done →
                  ∃ c, npk_format c = true
                       ∧ r' = set_updatedAt now (set_npk (Some c) r))
               ∧ (_id r ∉ done → r' = r)) db0 cur →
    Forall (λ n, unnumbered_nurse n = true) nurses →
    (∀ n, n ∈ nurses → _id n ∉ done) →
    NoDup (_id <$> nurses) →
    save_each L now next index nurses cur = (db', []) →
    Forall2 (λ r r',
               _id r' = _id r
               ∧ (_id r ∈ done ++ (_id <$> nurses) →
                  ∃ c, npk_format c = true
                       ∧ r' = set_updatedAt now (set_npk (Some c) r))
               ∧ (_id r ∉ done ++ (_id <$> nurses) → r' = r)) db0 db'.
Proof.
  intros Hkey. induction nurses as [|n rest IH];
    intros index cur done db' Hinv Hall Hfresh Hnd; cbn [save_each].
  - intros [= <-]. by rewrite fmap_nil, app_nil_r.
  - destruct (save L now cur _) as [e|[db1 saved]] eqn:Hsave.
    { by destruct (save_each _ _ _ _ _ _). }
    apply Forall_cons in Hall as [Hn Hall].
    apply NoDup_cons in Hnd as [Hn' Hnd].
    apply save_assigned_npk in Hsave as [Hcode ->]; [|done].
    intros Hrest.
    rewrite fmap_cons, cons_middle, app_assoc.
    eapply IH; [|done| |done|exact Hrest].
    + apply repaired_step; try done.
      apply Hfresh, list_elem_of_here.
    + intros m Hm [Hin|Hin%list_elem_of_singleton]%elem_of_app.
      * by apply (Hfresh m); [apply list_elem_of_further|].
      * apply Hn'. rewrite <-Hin. by apply list_elem_of_fmap_2.
Qed.

End WithLibrary.
End Repair.

Module RepairAll.
Import UserModel Store.

Lemma NoDup_fmap_filter {A B} (f : A → B) (p : A → bool) l :
  NoDup (f <$> l) → NoDup (f <$> List.filter p l).
Proof.
  induction l as [|x l IH]; [done|]. cbn [List.filter].
  rewrite fmap_cons. intros [Hx Hl]%NoDup_cons.
  destruct (p x); [|auto]. rewrite fmap_cons. apply NoDup_cons.
  split; [|auto].
  intros (y & E & Hy)%list_elem_of_fmap. apply Hx. rewrite E.
  apply list_elem_of_fmap_2.
  apply list_elem_of_In, filter_In in Hy as [Hy _].
  by apply list_elem_of_In.
Qed.

Lemma Forall2_impl_elem {A B} (P Q : A → B → Prop) l k :
  Forall2 P l k →
  (∀ x y, x ∈ l → P x y → Q x y) →
  Forall2 Q l k.
Proof.
  induction 1 as [|x y l k Hxy _ IH]; intros HPQ; constructor.
  - apply HPQ; [apply list_elem_of_here|done].
  - apply IH. intros x' y' Hx'. apply HPQ. by apply list_elem_of_further.
Qed.

End RepairAll.

(** X13.  When [generateMissingNPKs] returns its count, over a
    collection with [_id] as primary key, the count is the number of
    [perawat] records that held no well-formed npk; each of those
    records differs from what it was only by a well-formed npk and
    [updatedAt], every other record is as it was; so every [perawat]
    record now holds a well-formed npk. *)
Theorem generateMissingNPKs_numbers_nurses (L : Library) (now : Z)
    (db db' : UserModel.Collection) (count : Z) :
  NoDup (UserModel._id <$> db) →
  UserModel.generateMissingNPKs L now db = (db', inr count) →
  count = UserModel.countDocuments UserModel.unnumbered_nurse db
  ∧ Forall2 (λ r r',
               if UserModel.unnumbered_nurse r
               then ∃ code,
                      UserModel.npk_format code = true
                      ∧ r' = UserModel.set_updatedAt now
                               (UserModel.set_npk (Some code) r)
               else r' = r) db db'
  ∧ (∀ r', r' ∈ db' → UserModel.role r' = "perawat" →
           UserModel.numbered_nurse r' = true).
Proof.
  intros Hkey. unfold UserModel.generateMissingNPKs.
  set (nurses := merge_sort _ _).
  assert (nurses ≡ₚ List.filter UserModel.unnumbered_nurse db) as Hperm
    by apply merge_sort_Permutation.
  destruct (UserModel.save_each _ _ _ _ _ _) as [db1 errors] eqn:Hsave.
  destruct errors; [|done]. intros [= <- <-].
  assert (∀ n, n ∈ nurses ↔ UserModel.unnumbered_nurse n = true ∧ n ∈ db)
    as Hnurses.
  { intros n. rewrite Hperm, list_elem_of_In, filter_In, <-list_elem_of_In.
    tauto. }
  apply (Repair.save_each_repairs L now _ db nurses Hkey 0 db []) in Hsave.
  2:{ apply Forall_Forall2_diag, Forall_forall. intros r _.
      split; [done|]. split; [|done]. intros Hin. by apply elem_of_nil in Hin. }
  2:{ apply Forall_forall. intros n Hn. by apply Hnurses. }
  2:{ intros n _ Hin. by apply elem_of_nil in Hin. }
  2:{ rewrite Hperm. by apply RepairAll.NoDup_fmap_filter. }
  rewrite app_nil_l in Hsave.
  assert (Forall2 (λ r r',
                     if UserModel.unnumbered_nurse r
                     then ∃ code,
                            UserModel.npk_format code = true
                            ∧ r' = UserModel.set_updatedAt now
                                     (UserModel.set_npk (Some code) r)
                     else r' = r) db db1) as Hall.
  { eapply RepairAll.Forall2_impl_elem; [exact Hsave|].
    intros r r' Hr (_ & Hdone & Hrest). simpl in *.
    destruct (UserModel.unnumbered_nurse r) eqn:Hun.
    - apply Hdone. apply list_elem_of_fmap_2. by apply Hnurses.
    - apply Hrest. intros (n & E & [Hn Hin]%Hnurses)%list_elem_of_fmap.
      assert (n = r); [|congruence].
      apply list_elem_of_lookup_1 in Hin as [i Hi].
      apply list_elem_of_lookup_1 in Hr as [j Hj].
      assert (i = j); [|congruence].
      eapply NoDup_lookup; [exact Hkey|..].
      + rewrite list_lookup_fmap, Hi. done.
      + rewrite list_lookup_fmap, Hj. simpl. by rewrite E. }
  split.
  { unfold UserModel.countDocuments. by rewrite Hperm. }
  split; [done|].
  intros r' [i Hi]%list_elem_of_lookup_1 Hrole.
  destruct (Forall2_lookup_r _ _ _ _ _ Hall Hi) as (r & _ & Hrel).
  unfold UserModel.numbered_nurse, UserModel.unnumbered_nurse in *.
  rewrite Hrole. rewrite bool_decide_eq_true_2 by done. simpl.
  destruct (bool_decide (UserModel.role r = "perawat")) eqn:Hr; simpl in Hrel.
  - destruct (match UserModel.npk r with Some v => _ | None => _ end)
      eqn:Hnpk; simpl in Hrel.
    + by subst r'.
    + destruct Hrel as (code & Hcode & ->). by destruct r.
  - subst r'. apply bool_decide_eq_false in Hr. done.
Qed.

Lemma generateMissingNPKs_numbers_nurses_witness :
  let db := [Demo.nurse; Demo.promoted; Demo.mitra] in
  let repaired :=
    UserModel.set_updatedAt Demo.now
      (UserModel.set_npk (Some "NPK0002") Demo.promoted) in
  NoDup (UserModel._id <$> db)
  ∧ UserModel.generateMissingNPKs Demo.lib Demo.now db
    = ([Demo.nurse; repaired; Demo.mitra], inr 1)
  ∧ 1 = UserModel.countDocuments UserModel.unnumbered_nurse db
  ∧ (∀ r', r' ∈ [Demo.nurse; repaired; Demo.mitra] →
           UserModel.role r' = "perawat" →
           UserModel.numbered_nurse r' = true).
Proof.
  intros db repaired.
  assert (NoDup (UserModel._id <$> db)) as Hkey
    by (apply (bool_decide_unpack _); vm_compute; exact I).
  split; [exact Hkey|]. split; [reflexivity|].
  destruct (generateMissingNPKs_numbers_nurses Demo.lib Demo.now db
              [Demo.nurse; repaired; Demo.mitra] 1 Hkey eq_refl)
    as (Hcount & _ & Hall).
  split; [exact Hcount|exact Hall].
Defined.

(** ** Statistics of the users *)

Module Counting.
Import UserModel.

Lemma countDocuments_cons p x db :
  countDocuments p (x :: db)
  = (if p x then 1 else 0) + countDocuments p db.
Proof.
  unfold countDocuments. simpl. destruct (p x); simpl length; lia.
Qed.

Lemma countDocuments_nonneg p db : 0 ≤ countDocuments p db.
Proof. unfold countDocuments. lia. Qed.

Lemma countDocuments_weaken p q db :
  (∀ u, p u = true → q u = true) →
  countDocuments p db ≤ countDocuments q db.
Proof.
  intros Hpq. induction db as [|x db IH]; [done|].
  rewrite !countDocuments_cons.
  destruct (p x) eqn:Hp; [rewrite (Hpq x Hp)|destruct (q x)]; lia.
Qed.

(** Summed over distinct keys that cover the list, the per-key counts
    add up to its length. *)
Lemma counts_add_up (keys : list string) (l : list User) :
  NoDup keys →
  (∀ u, u ∈ l → role u ∈ keys) →
  foldr Z.add 0
    ((λ r, countDocuments (λ u, bool_decide (role u = r)) l) <$> keys)
  = Z.of_nat (length l).
Proof.
  intros Hkeys. induction l as [|x l IH]; intros Hcover.
  - clear. induction keys as [|k keys IH]; [done|].
    rewrite fmap_cons. cbn [foldr]. rewrite IH. done.
  - assert (foldr Z.add 0
              ((λ r, countDocuments (λ u, bool_decide (role u = r)) (x :: l))
                 <$> keys)
            = foldr Z.add 0
                ((λ r, if bool_decide (role x = r) then 1 else 0) <$> keys)
              + foldr Z.add 0
                  ((λ r, countDocuments (λ u, bool_decide (role u = r)) l)
                     <$> keys)) as ->.
    { clear. induction keys as [|k keys IH]; [done|].
      rewrite !fmap_cons. cbn [foldr]. rewrite IH, countDocuments_cons. lia. }
    rewrite IH.
    2:{ intros u Hu. apply Hcover. by apply list_elem_of_further. }
    assert (foldr Z.add 0
              ((λ r, if bool_decide (role x = r) then 1 else 0) <$> keys) = 1)
      as ->; [|simpl length; lia].
    specialize (Hcover x (list_elem_of_here _ _)).
    clear IH. induction Hkeys as [|k keys Hk Hkeys IH].
    { by apply elem_of_nil in Hcover. }
    rewrite fmap_cons. cbn [foldr].
    destruct (bool_decide (role x = k)) eqn:Hx.
    + apply bool_decide_eq_true in Hx. subst k.
      assert (foldr Z.add 0
                ((λ r, if bool_decide (role x = r) then 1 else 0) <$> keys)
              = 0) as ->; [|done].
      clear -Hk. induction keys as [|k keys IH]; [done|].
      rewrite fmap_cons. cbn [foldr].
      apply not_elem_of_cons in Hk as [Hne Hk].
      rewrite bool_decide_eq_false_2 by done. by rewrite IH.
    + apply bool_decide_eq_false in Hx.
      apply elem_of_cons in Hcover as [?|Hcover]; [done|].
      by rewrite IH.
Qed.

End Counting.

(** X14.  The figures of [getStats] fit together: the counts of the
    role distribution add up to the number of active users, each role
    appears once, with a count of at least one, and the new users of
    the week are some of the active users. *)
Theorem getStats_totals (now : Z) (db : UserModel.Collection) :
  let stats := UserModel.getStats now db in
  foldr Z.add 0 (UserModel.roleDistribution stats).*2
  = UserModel.totalUsers stats
  ∧ NoDup (UserModel.roleDistribution stats).*1
  ∧ Forall (λ entry, 1 ≤ entry.2) (UserModel.roleDistribution stats)
  ∧ 0 ≤ UserModel.newUsersThisWeek stats ≤ UserModel.totalUsers stats.
Proof.
  intros stats. unfold stats, UserModel.getStats, UserModel.group_by_role.
  cbn [UserModel.roleDistribution UserModel.totalUsers
       UserModel.newUsersThisWeek].
  set (active := List.filter UserModel.isActive db).
  split; [|split; [|split]].
  - rewrite <-list_fmap_compose.
    rewrite (Counting.counts_add_up _ active).
    + done.
    + apply NoDup_remove_dups.
    + intros u Hu. apply elem_of_remove_dups. by apply list_elem_of_fmap_2.
  - rewrite <-list_fmap_compose. simpl.
    rewrite list_fmap_id. apply NoDup_remove_dups.
  - apply Forall_fmap, Forall_forall. intros r Hr. simpl.
    apply elem_of_remove_dups, list_elem_of_fmap in Hr as (u & -> & Hu).
    unfold UserModel.countDocuments.
    assert (u ∈ List.filter
                  (λ v, bool_decide (UserModel.role v = UserModel.role u))
                  active) as Hin.
    { apply list_elem_of_In, filter_In. split; [by apply list_elem_of_In|].
      by apply bool_decide_eq_true. }
    destruct (List.filter _ active); [by apply elem_of_nil in Hin|].
    simpl length. lia.
  - split; [apply Counting.countDocuments_nonneg|].
    apply Counting.countDocuments_weaken.
    by intros u [? _]%andb_true_iff.
Qed.

(** ** Listing users *)

Module Pages.
Import UserModel.






End Pages.



(** ** authorize *)

Module Chains.
Import RoleAuth.







Section WithLibrary.
Variable L : Library.



End WithLibrary.
End Chains.



(** ** Registration through the auth router *)

Section RouterRegistration.

Variable L : Library.
Variable env : Env.

Lemma router_register_error_status err :
  status (AuthRoutes.register_error L err) ≠ 201.
Proof. unfold AuthRoutes.register_error. by destruct err. Qed.

End RouterRegistration.

(** X17.  Registration through the auth router never makes a nurse
    either: it passes no [unit], so for every role but [admin] and
    [mitra], the default [perawat] included, the collection is left as
    it was and the answer is not 201.  A 201 means one record was
    appended, with the role asked for and the permissions the role
    table gives that role; the token of the response signs its [_id],
    role and permissions, and until its expiry 86400 seconds later the
    [authenticateToken] stage lets a request that presents it through
    with that identity. *)
Theorem router_register_makes_no_nurse (L : Library) (env : Env) (now : Z)
    (oid uuid : string) (st st' : AuthRoutes.State)
    (username email password role : option string) (res : Response) :
  AuthRoutes.register L env st now oid uuid username email password role
  = (st', res) →
  (role ≠ Some "admin" → role ≠ Some "mitra" →
   AuthRoutes.users st' = AuthRoutes.users st ∧ status res ≠ 201)
  ∧ (status res = 201 →
     ∃ r secret,
       AuthRoutes.users st' = AuthRoutes.users st ++ [r]
       ∧ Some (UserModel.role r) = role
       ∧ UserModel.permissions r
         = Roles.getRolePermissions (Some (UserModel.role r))
       ∧ let j := mkJwt (mkPayload (Some (AuthRoutes.registered r))
                                   Claims.empty None)
                        secret (now `div` 1000)
                        (Some (now `div` 1000 + 86400)) in
         field "token" (body res) = Some (JStr (jwt_render L j))
         ∧ ∀ T req,
             bearer (authorization req) = Some (jwt_render L j) →
             jwt_render L j ≠ "" →
             jwt_parse L (jwt_render L j) = Some j →
             T `div` 1000 < now `div` 1000 + 86400 →
             RoleAuth.authenticateToken L env T req
             = Next (with_user (Some (AuthRoutes.registered r)) req)).
Proof.
  unfold AuthRoutes.register.
  destruct (_ || _); [by intros [= <- <-]|].
  destruct (UserModel.findOne _ _); [by intros [= <- <-]|].
  destruct (UserModel.save _ _ _ _) as [err|[db1 saved]] eqn:Hsave.
  { intros [= <- <-]. split.
    - intros _ _. split; [done|apply router_register_error_status].
    - intros H. by apply router_register_error_status in H. }
  apply Insert.save_construct in Hsave
    as (plain & Hplain & Hvalid & -> & -> & _).
  apply Store.validate_nil in Hvalid as (_ & _ & _ & _ & _ & Hrole & _ & Hunit).
  assert (role = Some "admin" ∨ role = Some "mitra") as Hcases.
  { destruct role as [r|]; [|by vm_compute in Hunit].
    simpl in Hrole, Hunit.
    apply includes_spec, list_elem_of_In in Hrole. simpl in Hrole.
    destruct Hrole as [<-|[<-|[<-|[<-|[]]]]]; auto;
      by vm_compute in Hunit. }
  intros Hres. split.
  { intros Ha Hm. by destruct Hcases. }
  destruct (JWT_SECRET env) as [secret|] eqn:Hsecret.
  2:{ injection Hres as <- <-. intros H.
      by apply router_register_error_status in H. }
  destruct (bool_decide (secret = "")) eqn:Hne.
  { injection Hres as <- <-. intros H.
    by apply router_register_error_status in H. }
  apply bool_decide_eq_false in Hne.
  injection Hres as <- <-. intros _.
  eexists _, secret. split; [done|].
  split; [by destruct Hcases as [-> | ->]|].
  split; [by destruct Hcases as [-> | ->]|].
  split; [done|].
  intros T req Hbearer Hne' Hparse Hlive.
  unfold RoleAuth.authenticateToken. rewrite Hbearer. simpl.
  rewrite bool_decide_eq_false_2 by done.
  rewrite Sessions.verify_signed by done.
  rewrite (proj2 (Z.leb_gt _ _)) by lia. simpl.
  by destruct Hcases as [-> | ->].
Qed.

Lemma router_register_makes_no_nurse_witness :
  let st := AuthRoutes.mkState [Demo.nurse; Demo.promoted] ∅ [] in
  let r :=
    UserModel.set_permissions
      [ "view_credentials"; "create_credentials"; "edit_credentials";
        "view_reports" ] Demo.mitra in
  let out :=
    AuthRoutes.register Demo.lib Demo.env st Demo.now
      "65a000000000000000000004" "9a3b2c1d-0e4f-4a5b-8c6d-7e8f9a0b1c2d"
      (Some "mitraB") (Some "b@x.com") (Some "rahasia99") (Some "mitra") in
  status out.2 = 201
  ∧ AuthRoutes.users out.1 = [Demo.nurse; Demo.promoted; r]
  ∧ (AuthRoutes.register Demo.lib Demo.env st Demo.now
       "65a000000000000000000004" "9a3b2c1d-0e4f-4a5b-8c6d-7e8f9a0b1c2d"
       (Some "nurseC") (Some "c@x.com") (Some "rahasia99") None).2
    = failure 400 "User validation failed"
  ∧ ∃ r' secret,
      AuthRoutes.users out.1 = AuthRoutes.users st ++ [r']
      ∧ Some (UserModel.role r') = Some "mitra"
      ∧ UserModel.permissions r'
        = Roles.getRolePermissions (Some (UserModel.role r'))
      ∧ let j := mkJwt (mkPayload (Some (AuthRoutes.registered r'))
                                  Claims.empty None)
                       secret (Demo.now `div` 1000)
                       (Some (Demo.now `div` 1000 + 86400)) in
        field "token" (body out.2) = Some (JStr (jwt_render Demo.lib j))
        ∧ ∀ T req,
            bearer (authorization req) = Some (jwt_render Demo.lib j) →
            jwt_render Demo.lib j ≠ "" →
            jwt_parse Demo.lib (jwt_render Demo.lib j) = Some j →
            T `div` 1000 < Demo.now `div` 1000 + 86400 →
            RoleAuth.authenticateToken Demo.lib Demo.env T req
            = Next (with_user (Some (AuthRoutes.registered r')) req).
Proof.
  intros st r out.
  do 3 (split; [reflexivity|]).
  apply (router_register_makes_no_nurse Demo.lib Demo.env Demo.now
           "65a000000000000000000004"
           "9a3b2c1d-0e4f-4a5b-8c6d-7e8f9a0b1c2d" st out.1
           (Some "mitraB") (Some "b@x.com") (Some "rahasia99")
           (Some "mitra") out.2); reflexivity.
Defined.

(** ** Normal forms of names and addresses *)

Module Normal.

Lemma app_cons (c : ascii) (s t : string) :
  String c s +:+ t = String c (s +:+ t).
Proof. reflexivity. Qed.

Lemma app_nil_r (s : string) : s +:+ "" = s.
Proof.
  induction s as [|c s IH]; [done|]. by rewrite app_cons, IH.
Qed.

Lemma app_assoc (a b c : string) : (a +:+ b) +:+ c = a +:+ (b +:+ c).
Proof.
  induction a as [|x a IH]; [done|]. by rewrite !app_cons, IH.
Qed.

Lemma rev_app_acc (s acc : string) :
  String.rev_app s acc = String.rev s +:+ acc.
Proof.
  unfold String.rev. revert acc.
  induction s as [|c s IH]; intros acc; simpl; [done|].
  rewrite (IH (String c acc)), (IH (String c "")).
  by rewrite app_assoc.
Qed.

Lemma rev_cons (c : ascii) (s : string) :
  String.rev (String c s) = String.rev s +:+ String c "".
Proof. unfold String.rev at 1. simpl. apply rev_app_acc. Qed.

Lemma rev_app (a b : string) :
  String.rev (a +:+ b) = String.rev b +:+ String.rev a.
Proof.
  induction a as [|x a IH].
  - by rewrite app_nil_r.
  - by rewrite app_cons, !rev_cons, IH, app_assoc.
Qed.

Lemma rev_involutive (s : string) : String.rev (String.rev s) = s.
Proof.
  induction s as [|c s IH]; [done|].
  by rewrite rev_cons, rev_app, IH.
Qed.

Lemma lower_lower (c : ascii) : Js.lower (Js.lower c) = Js.lower c.
Proof. destruct c as [[] [] [] [] [] [] [] []]; reflexivity. Qed.

Lemma is_space_lower (c : ascii) : Js.is_space (Js.lower c) = Js.is_space c.
Proof. destruct c as [[] [] [] [] [] [] [] []]; reflexivity. Qed.

Lemma toLowerCase_idem (s : string) :
  Js.toLowerCase (Js.toLowerCase s) = Js.toLowerCase s.
Proof.
  induction s as [|c s IH]; simpl; [done|]. by rewrite lower_lower, IH.
Qed.

Lemma toLowerCase_app (a b : string) :
  Js.toLowerCase (a +:+ b) = Js.toLowerCase a +:+ Js.toLowerCase b.
Proof.
  induction a as [|x a IH]; [done|].
  rewrite app_cons. simpl. by rewrite IH.
Qed.

Lemma toLowerCase_rev (s : string) :
  Js.toLowerCase (String.rev s) = String.rev (Js.toLowerCase s).
Proof.
  induction s as [|c s IH]; [done|].
  rewrite rev_cons, toLowerCase_app, IH. simpl. by rewrite rev_cons.
Qed.

Lemma toLowerCase_trimStart (s : string) :
  Js.toLowerCase (Js.trimStart s) = Js.trimStart (Js.toLowerCase s).
Proof.
  induction s as [|c s IH]; simpl; [done|].
  rewrite is_space_lower. by destruct (Js.is_space c).
Qed.

(** [s.toLowerCase().trim()] is [s.trim().toLowerCase()]. *)
Lemma trim_toLowerCase (s : string) :
  Js.trim (Js.toLowerCase s) = Js.toLowerCase (Js.trim s).
Proof.
  unfold Js.trim.
  by rewrite <-toLowerCase_trimStart, <-toLowerCase_rev,
             <-toLowerCase_trimStart, <-toLowerCase_rev.
Qed.

Lemma trimStart_idem (s : string) :
  Js.trimStart (Js.trimStart s) = Js.trimStart s.
Proof.
  induction s as [|c s IH]; simpl; [done|].
  destruct (Js.is_space c) eqn:E; [done|]. simpl. by rewrite E.
Qed.

(** What [trimStart] returns does not start with white space. *)
Lemma flush_trimStart (s : string) :
  match Js.trimStart s with
  | String c _ => Js.is_space c = false
  | "" => True
  end.
Proof.
  induction s as [|c s IH]; simpl; [done|].
  destruct (Js.is_space c) eqn:E; [done|]. by simpl.
Qed.

Lemma trimStart_flush (s : string) :
  match s with String c _ => Js.is_space c = false | "" => True end →
  Js.trimStart s = s.
Proof. destruct s as [|c s]; simpl; [done|]. by intros ->. Qed.

Lemma trimStart_snoc (s : string) (c : ascii) :
  Js.is_space c = false →
  ∃ w, Js.trimStart (s +:+ String c "") = w +:+ String c "".
Proof.
  intros Hc. induction s as [|x s IH].
  - exists ""%string. simpl. by rewrite Hc.
  - rewrite app_cons. simpl.
    destruct (Js.is_space x); [done|]. by exists (String x s).
Qed.

Lemma flush_trim (s : string) :
  match s with String c _ => Js.is_space c = false | "" => True end →
  match Js.trim s with String c _ => Js.is_space c = false | "" => True end.
Proof.
  intros Hs. unfold Js.trim. rewrite (trimStart_flush s Hs).
  destruct s as [|c s]; [done|]. simpl in Hs. rewrite rev_cons.
  destruct (trimStart_snoc (String.rev s) c Hs) as (w & ->).
  rewrite rev_app. by simpl.
Qed.

Lemma trim_idem (s : string) : Js.trim (Js.trim s) = Js.trim s.
Proof.
  pose proof (flush_trim _ (flush_trimStart s)) as Hflush.
  assert (Js.trim (Js.trimStart s) = Js.trim s) as Hsame.
  { unfold Js.trim. by rewrite trimStart_idem. }
  rewrite Hsame in Hflush.
  unfold Js.trim at 1. rewrite (trimStart_flush _ Hflush).
  unfold Js.trim. by rewrite rev_involutive, trimStart_idem.
Qed.

End Normal.

Module RoundTrip.
Import UserModel Store.

Section WithLibrary.
Variable L : Library.

(** The document of a record that was valid when it was made is
    valid when it is loaded without its password. *)
Lemma validate_loaded now oid uuid userData hash t :
  validate (construct now oid uuid userData) = [] →
  validate (hydrate false
              (set_updatedAt t
                 (set_password hash
                    (data (construct now oid uuid userData))))) = [].
Proof.
  intros Hvalid. apply validate_nil. apply validate_nil in Hvalid.
  destruct Hvalid as (Hu & Hf & He & _ & Hn & Hr & Hp & Hunit).
  simpl in *. by repeat split.
Qed.

(** The record [save] has appended is the one [findById] loads. *)
Lemma findById_appended sel db (u : User) :
  stored (_id u) db = false →
  findById (_id u) sel (db ++ [u]) = Some (hydrate sel u).
Proof.
  intros Hnew. unfold findById.
  rewrite (findOne_app_skip _ db u []); [done| |].
  - intros r Hr. apply bool_decide_eq_false. intros Hid.
    by rewrite (stored_elem _ _ r Hr Hid) in Hnew.
  - by apply bool_decide_eq_true.
Qed.

End WithLibrary.
End RoundTrip.

(** ** Registration, then login *)

Module ServerRoundTrip.
Import UserModel Store.

Section WithLibrary.
Variable L : Library.
Variable env : Env.

(** What a 201 of the server's registration says. *)
Lemma register_201 now oid uuid db username email password fullName role
    db' res :
  Server.register L env now oid uuid db username email password fullName role
  = (db', res) →
  status res = 201 →
  ∃ un em plain secret d,
    username = Some un ∧ un ≠ "" ∧ email = Some em ∧ em ≠ ""
    ∧ password = Some plain ∧ plain ≠ ""
    ∧ JWT_SECRET env = Some secret ∧ secret ≠ ""
    ∧ validate d = []
    ∧ UserModel.username (data d) = Js.trim (Js.trim un)
    ∧ UserModel.email (data d)
      = Js.toLowerCase (Js.trim (Js.toLowerCase (Js.trim em)))
    ∧ _id (data d) = oid
    ∧ (∃ userData, d = construct now oid uuid userData)
    ∧ stored oid db = false
    ∧ db' = db ++ [set_updatedAt now
                     (set_password (Some (bcrypt_hash L plain)) (data d))].
Proof.
  unfold Server.register.
  destruct (Js.falsy username || _ || _) eqn:Hgiven; [by intros [= <- <-]|].
  apply orb_false_iff in Hgiven as [Hgiven Hpw].
  apply orb_false_iff in Hgiven as [Hun Hem].
  destruct username as [un|]; [|done]. destruct email as [em|]; [|done].
  destruct password as [plain|]; [|done]. simpl in Hun, Hem, Hpw.
  apply bool_decide_eq_false in Hun, Hem, Hpw.
  cbn [default].
  destruct (_ <? 3); [by intros [= <- <-]|].
  destruct (findOne _ db); [by intros [= <- <-]|].
  match goal with
  | |- context [save L now db ?doc] =>
      destruct (save L now db doc) as [err|[db1 saved]] eqn:Hsave
  end.
  { intros [= <- <-] Hok. by apply register_error_status in Hok. }
  destruct (Js.falsy (JWT_SECRET env)) eqn:Hsecret.
  { by intros [= <- <-] Hok. }
  intros [= <- <-] _.
  destruct (JWT_SECRET env) as [secret|]; [|done].
  simpl in Hsecret. apply bool_decide_eq_false in Hsecret.
  apply Insert.save_construct in Hsave
    as (plain' & Hplain & Hvalid & -> & _ & Hnew & _).
  simpl in Hplain. injection Hplain as <-.
  eexists un, em, plain, secret, _.
  do 8 (split; [done|]). split; [exact Hvalid|].
  split; [reflexivity|]. split; [reflexivity|]. split; [reflexivity|].
  split; [by eexists|]. by split.
Qed.

End WithLibrary.
End ServerRoundTrip.

(** X18.  Whoever has registered with the server can log in.  After a
    201 of [POST /api/register], and with a [bcrypt] under which the
    password matches its own hash, [POST /api/login] with the same
    password and, as identifier, the e-mail or the username as they
    were typed at registration, answers 200 at any later time, with a
    token that signs the [_id] of the new record, provided no record
    stored before answers to that identifier. *)
Theorem registered_user_can_log_in (L : Library) (env : Env) (now later : Z)
    (oid uuid : string) (db db1 : UserModel.Collection)
    (username email password fullName role identifier : option string)
    (res : Response) :
  Server.register L env now oid uuid db username email password fullName role
  = (db1, res) →
  status res = 201 →
  (∀ plain, password = Some plain →
     bcrypt_compare L plain (bcrypt_hash L plain) = true
     ∧ bcrypt_hash L plain ≠ "") →
  identifier = email ∨ identifier = username →
  (∀ r, r ∈ db → Server.by_identifier (default "" identifier) r = false) →
  ∃ db2 res' secret,
    Server.login L env later db1 identifier password = (db2, res')
    ∧ status res' = 200
    ∧ field "token" (body res')
      = Some (JStr (JsonWebToken.sign L
                      (mkPayload None Claims.empty (Some oid))
                      secret later 86400)).
Proof.
  intros Hregister Hok Hbcrypt Hidentifier Hfresh.
  destruct (ServerRoundTrip.register_201 L env _ _ _ _ _ _ _ _ _ _ _
              Hregister Hok)
    as (un & em & plain & secret & d & -> & Hun & -> & Hem & -> & Hplain
        & Hsecret & Hne & Hvalid & Husername & Hemail & Hoid
        & (userData & Hd) & Hnew & ->).
  destruct (Hbcrypt plain eq_refl) as [Hmatch Hhash].
  set (u := UserModel.set_updatedAt now
              (UserModel.set_password (Some (bcrypt_hash L plain))
                 (UserModel.data d))) in *.
  assert (UserModel._id u = oid) as Hu by (by rewrite <-Hoid; destruct d as [[]]).
  assert (Server.by_identifier (default "" identifier) u = true) as Hanswers.
  { unfold Server.by_identifier. apply orb_true_iff.
    destruct Hidentifier as [-> | ->]; simpl.
    - left. apply bool_decide_eq_true.
      transitivity (UserModel.email (UserModel.data d));
        [by destruct d as [[]]|].
      by rewrite Hemail, !Normal.trim_toLowerCase, Normal.toLowerCase_idem,
                 Normal.trim_idem.
    - right. apply bool_decide_eq_true.
      transitivity (UserModel.username (UserModel.data d));
        [by destruct d as [[]]|].
      by rewrite Husername, Normal.trim_idem. }
  assert (Js.falsy identifier = false) as Hgiven.
  { destruct Hidentifier as [-> | ->]; simpl;
      by apply bool_decide_eq_false. }
  unfold Server.login. rewrite Hgiven. simpl.
  rewrite (bool_decide_eq_false_2 (plain = "")) by done.
  rewrite (Store.findOne_app_skip _ db u []) by done.
  assert (UserModel.comparePassword L (db ++ [u])
            (UserModel.hydrate false u) plain = inr true) as ->.
  { unfold UserModel.comparePassword.
    assert (UserModel.password
              (UserModel.data (UserModel.hydrate false u)) = None) as ->
      by (by destruct d as [[]]).
    assert (UserModel._id (UserModel.data (UserModel.hydrate false u))
            = UserModel._id u) as -> by (by destruct d as [[]]).
    simpl Js.falsy. cbv iota.
    rewrite RoundTrip.findById_appended by (by rewrite Hu).
    assert (UserModel.password
              (UserModel.data (UserModel.hydrate true u))
            = Some (bcrypt_hash L plain)) as ->
      by (by destruct d as [[]]).
    by rewrite bool_decide_eq_false_2, Hmatch. }
  rewrite Hsecret. simpl. rewrite bool_decide_eq_false_2 by done.
  unfold UserModel.assign_lastLogin.
  rewrite (Store.save_assigned L later (db ++ [u]) oid false
             (UserModel.hydrate false u));
    [| by rewrite <-Hu; apply RoundTrip.findById_appended; rewrite Hu
     | by left
     | apply Store.validate_assign_lastLogin
     | by destruct d as [[]] ].
  unfold u at 1. rewrite Hd, RoundTrip.validate_loaded by (by rewrite <-Hd).
  assert (Server.session_payload u = mkPayload None Claims.empty (Some oid))
    as Hpayload by (unfold Server.session_payload; by rewrite Hu).
  destruct (bool_decide _); eexists _, _, secret;
    (split; [reflexivity|]); (split; [reflexivity|]);
    simpl; by rewrite Hpayload.
Qed.

Lemma registered_user_can_log_in_witness :
  let reg :=
    Server.register Demo.lib Demo.env Demo.now "65a000000000000000000004"
      "9a3b2c1d-0e4f-4a5b-8c6d-7e8f9a0b1c2d" [Demo.nurse]
      (Some "mitraB") (Some " B@X.com ") (Some "rahasia99") None
      (Some "mitra") in
  status reg.2 = 201
  ∧ UserModel.email <$> reg.1 = ["a@x.com"; "b@x.com"]
  ∧ ∃ db2 res' secret,
      Server.login Demo.lib Demo.env (Demo.now + 60000) reg.1
        (Some " B@X.com ") (Some "rahasia99") = (db2, res')
      ∧ status res' = 200
      ∧ field "token" (body res')
        = Some (JStr (JsonWebToken.sign Demo.lib
                        (mkPayload None Claims.empty
                           (Some "65a000000000000000000004"))
                        secret (Demo.now + 60000) 86400)).
Proof.
  intros reg. split; [reflexivity|]. split; [reflexivity|].
  apply (registered_user_can_log_in Demo.lib Demo.env Demo.now
           (Demo.now + 60000) "65a000000000000000000004"
           "9a3b2c1d-0e4f-4a5b-8c6d-7e8f9a0b1c2d" [Demo.nurse] reg.1
           (Some "mitraB") (Some " B@X.com ") (Some "rahasia99") None
           (Some "mitra") (Some " B@X.com ") reg.2).
  - reflexivity.
  - reflexivity.
  - intros plain [= <-]. split; [reflexivity|discriminate].
  - by left.
  - intros r [->|Hr]%elem_of_cons; [reflexivity|by apply elem_of_nil in Hr].
Defined.

Module RouterRoundTrip.
Import UserModel Store.

Section WithLibrary.
Variable L : Library.
Variable env : Env.

(** What a 201 of the auth router's registration says. *)
Lemma router_register_201 st now oid uuid username email password role
    st' res :
  AuthRoutes.register L env st now oid uuid username email password role
  = (st', res) →
  status res = 201 →
  ∃ plain secret d,
    password = Some plain ∧ plain ≠ ""
    ∧ JWT_SECRET env = Some secret ∧ secret ≠ ""
    ∧ _id (data d) = oid
    ∧ isActive (data d) = true
    ∧ UserModel.email (data d) ≠ ""
    ∧ stored oid (AuthRoutes.users st) = false
    ∧ (∀ r, r ∈ AuthRoutes.users st → UserModel.email r ≠ UserModel.email (data d))
    ∧ st' = AuthRoutes.mkState
              (AuthRoutes.users st
               ++ [set_updatedAt now
                     (set_password (Some (bcrypt_hash L plain)) (data d))])
              (AuthRoutes.tokenBlacklist st) (AuthRoutes.timers st).
Proof.
  unfold AuthRoutes.register.
  destruct (Js.falsy username || _ || _) eqn:Hgiven; [by intros [= <- <-]|].
  apply orb_false_iff in Hgiven as [_ Hpw].
  destruct password as [plain|]; [|done]. simpl in Hpw.
  apply bool_decide_eq_false in Hpw.
  destruct (findOne _ _); [by intros [= <- <-]|].
  match goal with
  | |- context [save L now ?db ?doc] =>
      destruct (save L now db doc) as [err|[db1 saved]] eqn:Hsave
  end.
  { intros [= <- <-] Hok. by apply router_register_error_status in Hok. }
  destruct (JWT_SECRET env) as [secret|] eqn:Hsec;
    [|intros [= <- <-] Hok; by apply router_register_error_status in Hok].
  destruct (bool_decide (secret = "")) eqn:Hsecret;
    [intros [= <- <-] Hok; by apply router_register_error_status in Hok|].
  apply bool_decide_eq_false in Hsecret.
  intros [= <- <-] _.
  apply Insert.save_construct in Hsave
    as (plain' & Hplain & Hvalid & -> & _ & Hnew & Hkeys).
  simpl in Hplain. injection Hplain as <-.
  match goal with
  | Hvalid : validate ?doc = [] |- _ => exists plain, secret, doc
  end.
  do 4 (split; [done|]). split; [reflexivity|]. split; [reflexivity|].
  split.
  { apply validate_nil in Hvalid as (_ & _ & Hmail & _).
    apply andb_true_iff in Hmail as [Hmail _].
    by apply negb_true_iff, bool_decide_eq_false in Hmail. }
  split; [exact Hnew|]. split; [|reflexivity].
  intros r Hr Hsame.
  pose proof (Insert.duplicateKey_None _ _ _ "email" Hkeys) as Hfree.
  specialize (Hfree ltac:(apply list_elem_of_In; simpl; tauto)
                    ltac:(apply list_elem_of_In; simpl; tauto) r Hr).
  unfold collides in Hfree. simpl in Hfree.
  apply andb_false_iff in Hfree as [Hid|Hmail].
  - apply negb_false_iff, bool_decide_eq_true in Hid.
    by rewrite (stored_elem _ _ r Hr Hid) in Hnew.
  - by apply bool_decide_eq_false in Hmail.
Qed.

End WithLibrary.
End RouterRoundTrip.

(** X19.  Whoever has registered through the auth router can log in.
    After a 201 of [POST /register], and with a [bcrypt] under which
    the password matches its own hash, [POST /login] with the same
    password and the e-mail as the new record holds it answers 200 at
    any later time, as long as the users are as registration left
    them; the token signs the [_id], username, e-mail, role and
    permissions of the new record. *)
Theorem router_registered_user_can_log_in (L : Library) (env : Env)
    (now later : Z) (oid uuid : string) (st st1 : AuthRoutes.State)
    (username email password role : option string) (res : Response) :
  AuthRoutes.register L env st now oid uuid username email password role
  = (st1, res) →
  status res = 201 →
  (∀ plain, password = Some plain →
     bcrypt_compare L plain (bcrypt_hash L plain) = true
     ∧ bcrypt_hash L plain ≠ "") →
  ∃ r st2 res' secret,
    AuthRoutes.users st1 = AuthRoutes.users st ++ [r]
    ∧ UserModel._id r = oid
    ∧ AuthRoutes.login L env st1 later (Some (UserModel.email r)) password
      = (st2, res')
    ∧ status res' = 200
    ∧ field "token" (body res')
      = Some (JStr (JsonWebToken.sign L
                      (mkPayload (Some (AuthRoutes.userPayload r))
                                 Claims.empty None)
                      secret later 86400)).
Proof.
  intros Hregister Hok Hbcrypt.
  destruct (RouterRoundTrip.router_register_201 L env _ _ _ _ _ _ _ _ _ _
              Hregister Hok)
    as (plain & secret & d & -> & Hplain & Hsecret & Hne & Hoid & Hactive
        & Hgiven & Hnew & Hfree & ->).
  destruct (Hbcrypt plain eq_refl) as [Hmatch Hhash].
  set (r := UserModel.set_updatedAt now
              (UserModel.set_password (Some (bcrypt_hash L plain))
                 (UserModel.data d))) in *.
  assert (UserModel.email r = UserModel.email (UserModel.data d)) as Hmail
    by (by destruct d as [[]]).
  rewrite <-Hmail in Hgiven.
  exists r.
  unfold AuthRoutes.login. simpl.
  rewrite (bool_decide_eq_false_2 (UserModel.email r = "")) by done.
  rewrite (bool_decide_eq_false_2 (plain = "")) by done. simpl.
  rewrite (Store.findOne_app_skip _ (AuthRoutes.users st) r []);
    [| intros x Hx; apply bool_decide_eq_false; rewrite Hmail;
       by apply Hfree
     | by apply bool_decide_eq_true ].
  assert (UserModel.password r = Some (bcrypt_hash L plain)) as ->
    by (by destruct d as [[]]).
  assert (UserModel.isActive r = true) as ->
    by (by rewrite <-Hactive; destruct d as [[]]).
  simpl. rewrite bool_decide_eq_false_2 by done. simpl.
  rewrite Hmatch. simpl. rewrite Hsecret.
  rewrite bool_decide_eq_false_2 by done.
  eexists _, _, secret. split; [done|].
  split; [by rewrite <-Hoid; destruct d as [[]]|].
  split; [reflexivity|]. by split.
Qed.

Lemma router_registered_user_can_log_in_witness :
  let st := AuthRoutes.mkState [Demo.nurse] ∅ [] in
  let reg :=
    AuthRoutes.register Demo.lib Demo.env st Demo.now
      "65a000000000000000000004" "9a3b2c1d-0e4f-4a5b-8c6d-7e8f9a0b1c2d"
      (Some "mitraB") (Some " B@X.com ") (Some "rahasia99") (Some "mitra") in
  status reg.2 = 201
  ∧ (∀ plain, Some "rahasia99" = Some plain →
       bcrypt_compare Demo.lib plain (bcrypt_hash Demo.lib plain) = true
       ∧ bcrypt_hash Demo.lib plain ≠ "")
  ∧ ∃ r st2 res' secret,
      AuthRoutes.users reg.1 = AuthRoutes.users st ++ [r]
      ∧ UserModel._id r = "65a000000000000000000004"
      ∧ AuthRoutes.login Demo.lib Demo.env reg.1 (Demo.now + 60000)
          (Some (UserModel.email r)) (Some "rahasia99")
        = (st2, res')
      ∧ status res' = 200
      ∧ field "token" (body res')
        = Some (JStr (JsonWebToken.sign Demo.lib
                        (mkPayload (Some (AuthRoutes.userPayload r))
                                   Claims.empty None)
                        secret (Demo.now + 60000) 86400)).
Proof.
  intros st reg.
  assert (∀ plain, Some "rahasia99" = Some plain →
            bcrypt_compare Demo.lib plain (bcrypt_hash Demo.lib plain) = true
            ∧ bcrypt_hash Demo.lib plain ≠ "") as Hbcrypt.
  { intros plain [= <-]. split; [reflexivity|discriminate]. }
  split; [reflexivity|]. split; [exact Hbcrypt|].
  apply (router_registered_user_can_log_in Demo.lib Demo.env Demo.now
           (Demo.now + 60000) "65a000000000000000000004"
           "9a3b2c1d-0e4f-4a5b-8c6d-7e8f9a0b1c2d" st reg.1
           (Some "mitraB") (Some " B@X.com ") (Some "rahasia99")
           (Some "mitra") reg.2); [reflexivity|reflexivity|exact Hbcrypt].
Defined.

(** ** The users router *)

Module Users.
Import UserModel Store UsersRoutes.

Lemma deleteFirst_split p pre u post :
  (∀ r, r ∈ pre → p r = false) → p u = true →
  deleteFirst p (pre ++ u :: post) = pre ++ post.
Proof.
  intros Hpre Hu. induction pre as [|x pre IH]; simpl.
  - by rewrite Hu.
  - rewrite (Hpre x) by apply list_elem_of_here. f_equal. apply IH.
    intros r Hr. apply Hpre. by apply list_elem_of_further.
Qed.

Lemma get_unfold castObjectId db i oid :
  castObjectId i = Some oid →
  get castObjectId db i
  = match findOne (by__id oid) db with
    | Some u => mkResponse 200 (toJSON (set_password None u))
    | None => error 404 "User not found"
    end.
Proof.
  intros Hcast. unfold get, findById, by__id. rewrite Hcast.
  by destruct (findOne _ db) as [u|].
Qed.

End Users.

(** X20.  [DELETE /:id] answers 500 and changes nothing when the id
    of the path is no [ObjectId], and 404, again without a change,
    when no record is stored under it; otherwise it removes the first
    record stored under that [_id] and nothing else.  With [_id] as
    primary key, a [GET /:id] that follows answers 404 for the deleted
    user, and answers for every other [_id] as it did before. *)
Theorem delete_removes_one (castObjectId : string → option string)
    (db db' : UserModel.Collection) (i : string) (res : Response) :
  UsersRoutes.delete castObjectId db i = (db', res) →
  (castObjectId i = None →
   db' = db ∧ res = UsersRoutes.error 500 "Failed to delete user")
  ∧ ∀ oid, castObjectId i = Some oid →
      (UserModel.findOne (UsersRoutes.by__id oid) db = None →
       db' = db ∧ res = UsersRoutes.error 404 "User not found")
      ∧ (∀ u, UserModel.findOne (UsersRoutes.by__id oid) db = Some u →
           status res = 200
           ∧ (∃ pre post, db = pre ++ u :: post ∧ db' = pre ++ post)
           ∧ (NoDup (UserModel._id <$> db) →
              UsersRoutes.get castObjectId db' i
              = UsersRoutes.error 404 "User not found"
              ∧ ∀ j, castObjectId j ≠ Some oid →
                  UsersRoutes.get castObjectId db' j
                  = UsersRoutes.get castObjectId db j)).
Proof.
  unfold UsersRoutes.delete.
  destruct (castObjectId i) as [oid|] eqn:Hcast;
    [|by intros [= <- <-]; split].
  intros Hdelete. split; [done|]. intros ? [= <-]. revert Hdelete.
  destruct (UserModel.findOne _ db) as [u|] eqn:Hfind.
  - intros [= <- <-]. split; [done|]. intros ? [= <-].
    destruct (Store.findOne_split _ _ _ Hfind)
      as (pre & post & -> & Hpre & Hu).
    rewrite Users.deleteFirst_split by done.
    split; [done|]. split; [by exists pre, post|].
    intros Hkey. apply bool_decide_eq_true in Hu. split.
    + rewrite (Users.get_unfold _ _ _ _ Hcast).
      assert (UserModel.findOne (UsersRoutes.by__id oid) (pre ++ post)
              = None) as ->; [|done].
      apply Store.findOne_None. intros r Hr. apply bool_decide_eq_false.
      rewrite <-Hu. by eapply Lifecycle.NoDup_fmap_split.
    + intros j Hj. unfold UsersRoutes.get.
      destruct (castObjectId j) as [oid'|]; [|done].
      assert (UserModel.findById oid' false (pre ++ post)
              = UserModel.findById oid' false (pre ++ u :: post))
        as ->; [|done].
      unfold UserModel.findById, UserModel.findOne.
      rewrite !List.filter_app. simpl.
      rewrite (bool_decide_eq_false_2 (UserModel._id u = oid'))
        by congruence.
      done.
  - intros [= <- <-]. split; [done|]. done.
Qed.

Lemma delete_removes_one_witness :
  let db := [Demo.nurse; Demo.promoted; Demo.mitra] in
  Demo.castObjectId "65A000000000000000000002"
  = Some "65a000000000000000000002"
  ∧ UsersRoutes.delete Demo.castObjectId db "65A000000000000000000002"
    = ([Demo.nurse; Demo.mitra],
       mkResponse 200 [("message", JStr "User deleted successfully")])
  ∧ UsersRoutes.delete Demo.castObjectId db "2"
    = (db, UsersRoutes.error 500 "Failed to delete user")
  ∧ UserModel.findOne (UsersRoutes.by__id "65a000000000000000000002") db
    = Some Demo.promoted
  ∧ NoDup (UserModel._id <$> db)
  ∧ UsersRoutes.get Demo.castObjectId [Demo.nurse; Demo.mitra]
      "65A000000000000000000002"
    = UsersRoutes.error 404 "User not found"
  ∧ (∀ j, Demo.castObjectId j ≠ Some "65a000000000000000000002" →
          UsersRoutes.get Demo.castObjectId [Demo.nurse; Demo.mitra] j
          = UsersRoutes.get Demo.castObjectId db j).
Proof.
  intros db.
  assert (NoDup (UserModel._id <$> db)) as Hkey
    by (apply (bool_decide_unpack _); vm_compute; exact I).
  split; [reflexivity|]. split; [reflexivity|]. split; [reflexivity|].
  split; [reflexivity|]. split; [exact Hkey|].
  destruct (delete_removes_one Demo.castObjectId db [Demo.nurse; Demo.mitra]
              "65A000000000000000000002"
              (mkResponse 200 [("message", JStr "User deleted successfully")])
              eq_refl) as [_ Hfound].
  destruct (Hfound "65a000000000000000000002" eq_refl) as [_ Hremoved].
  destruct (Hremoved Demo.promoted eq_refl) as (_ & _ & Hafter).
  exact (Hafter Hkey).
Defined.

Module RolePatch.
Import UserModel Store UsersRoutes.

Lemma field_set_field k v o : field k (set_field k v o) = Some v.
Proof.
  induction o as [|[k' v'] o IH]; simpl.
  - by rewrite bool_decide_eq_true_2.
  - destruct (bool_decide (k = k')) eqn:Hk; simpl.
    + by rewrite bool_decide_eq_true_2.
    + by rewrite Hk.
Qed.

(** What [validateRoleUpdate] lets through when a role is given. *)
Lemma validateRoleUpdate_pass body body' :
  truthy_value (field "role" body) = true →
  validateRoleUpdate body = inr body' →
  ∃ given,
    field "role" body = Some (JStr given)
    ∧ Js.toLowerCase given ∈ allowedRoles
    ∧ body' = set_field "role" (JStr (Js.toLowerCase given)) body.
Proof.
  intros Htruthy. unfold validateRoleUpdate. rewrite Htruthy.
  destruct (field "role" body) as [[| | |given| |]|]; try done.
  destruct (negb _) eqn:Hin; [done|].
  apply negb_false_iff, includes_spec in Hin.
  intros [= <-]. by exists given.
Qed.

Section WithLibrary.
Variable L : Library.
Hypothesis cast_string_text : ∀ s, cast_string L (JStr s) = Some s.

Lemma findOneAndUpdate_role now i role db :
  role ∈ allowedRoles →
  findOneAndUpdate L now (by__id i) [("role", JStr role)] db
  = inr match findOne (by__id i) db with
        | Some u =>
            let u' := set_updatedAt now (set_role role u) in
            (updateFirst (by__id i) (λ _, u') db, Some u')
        | None => (db, None)
        end.
Proof.
  intros Hrole. unfold findOneAndUpdate. cbn [cast_update].
  assert (cast_set L "role" (JStr role) = inr (set_role role)) as ->.
  { unfold cast_set. simpl. by rewrite cast_string_text. }
  assert (validate_update [("role", JStr role)].*1 (set_role role blank) = [])
    as ->.
  { unfold validate_update. simpl.
    assert (role_ok role = true) as ->; [|done].
    apply includes_spec. apply list_elem_of_In in Hrole.
    apply list_elem_of_In. simpl in *. tauto. }
  destruct (findOne (by__id i) db) as [u|]; [|done].
  assert (_id (set_updatedAt now (set_role role u)) = _id u) as E
    by (by destruct u).
  rewrite E, bool_decide_eq_true_2 by done. cbn [negb].
  rewrite duplicateKey_untouched; [done|].
  intros p Hp. apply includes_false.
  intros [->|H]%elem_of_cons; [|by apply elem_of_nil in H].
  apply list_elem_of_In in Hp. simpl in Hp. intuition discriminate.
Qed.

End WithLibrary.
End RolePatch.

(** X21.  A role can be changed through [PATCH /:id/role] to [admin],
    [mitra] or [perawat] only, in whatever case it is written: when
    the request names a role and is answered 200, the role is a text
    whose lower-case form is one of the three, the id of the path
    stands for an [_id] under which a record is stored, and the first
    such record now has this lower-case form as its role and the
    current time as [updatedAt], with every other path, its
    permissions, unit and npk among them, as before. *)
Theorem role_patch_is_restricted (L : Library)
    (castObjectId : string → option string) (now : Z)
    (db db' : UserModel.Collection) (i : string)
    (body : list (string * json)) (res : Response) :
  (∀ s, cast_string L (JStr s) = Some s) →
  UsersRoutes.patch_role L castObjectId now db i body
  = (db', UsersRoutes.Sent res) →
  status res = 200 →
  truthy_value (field "role" body) = true →
  ∃ given oid u,
    field "role" body = Some (JStr given)
    ∧ Js.toLowerCase given ∈ UsersRoutes.allowedRoles
    ∧ castObjectId i = Some oid
    ∧ UserModel.findOne (UsersRoutes.by__id oid) db = Some u
    ∧ db' = UserModel.updateFirst (UsersRoutes.by__id oid)
              (λ _, UserModel.set_updatedAt now
                      (UserModel.set_role (Js.toLowerCase given) u)) db.
Proof.
  intros Hcast Hpatch Hok Htruthy. unfold UsersRoutes.patch_role in Hpatch.
  destruct (UsersRoutes.validateRoleUpdate body) as [answer|body'] eqn:Hv.
  { unfold UsersRoutes.validateRoleUpdate in Hv. rewrite Htruthy in Hv.
    repeat case_match; simplify_eq; discriminate. }
  apply RolePatch.validateRoleUpdate_pass in Hv
    as (given & Hgiven & Hallowed & ->); [|done].
  rewrite RolePatch.field_set_field in Hpatch.
  destruct (castObjectId i) as [oid|] eqn:Hoid; [|by simplify_eq].
  rewrite RolePatch.findOneAndUpdate_role in Hpatch by done.
  destruct (UserModel.findOne _ db) as [u|] eqn:Hfind; [|by simplify_eq].
  injection Hpatch as <- _. by exists given, oid, u.
Qed.

Lemma role_patch_is_restricted_witness :
  let db := [Demo.nurse; Demo.promoted; Demo.mitra] in
  let changed :=
    UserModel.set_updatedAt (Demo.now + 1)
      (UserModel.set_role "perawat" Demo.mitra) in
  (∀ s, cast_string Demo.lib (JStr s) = Some s)
  ∧ (UsersRoutes.patch_role Demo.lib Demo.castObjectId (Demo.now + 1) db
       "65a000000000000000000004" [("role", JStr "Perawat")]).1
    = [Demo.nurse; Demo.promoted; changed]
  ∧ UsersRoutes.patch_role Demo.lib Demo.castObjectId (Demo.now + 1) db
      "65a000000000000000000004" [("role", JStr "kepala-unit")]
    = (db, UsersRoutes.Sent
             (UsersRoutes.error 400
                "Invalid role. Allowed roles: admin, mitra, perawat"))
  ∧ UserModel.validate (UserModel.hydrate false changed) = ["npk"; "unit"]
  ∧ ∃ given oid u,
      field "role" [("role", JStr "Perawat")] = Some (JStr given)
      ∧ Js.toLowerCase given ∈ UsersRoutes.allowedRoles
      ∧ Demo.castObjectId "65a000000000000000000004" = Some oid
      ∧ UserModel.findOne (UsersRoutes.by__id oid) db = Some u
      ∧ [Demo.nurse; Demo.promoted; changed]
        = UserModel.updateFirst (UsersRoutes.by__id oid)
            (λ _, UserModel.set_updatedAt (Demo.now + 1)
                    (UserModel.set_role (Js.toLowerCase given) u)) db.
Proof.
  intros db changed.
  split; [done|]. do 3 (split; [reflexivity|]).
  eapply (role_patch_is_restricted Demo.lib Demo.castObjectId (Demo.now + 1)
            db [Demo.nurse; Demo.promoted; changed]
            "65a000000000000000000004" [("role", JStr "Perawat")]);
    [done|reflexivity|reflexivity|reflexivity].
Defined.

Module PutFrame.
Import UserModel UsersRoutes.

Section WithLibrary.
Variable L : Library.

Lemma cast_set_put key v f :
  key ∈ UsersRoutes.allowedUpdates →
  cast_set L key v = inr f →
  ∀ u, _id (f u) = _id u
       ∧ ∀ path, path ∉ ["email"; "npk"; "role"] →
                 path_value path (f u) = path_value path u.
Proof.
  intros Hkey Hcast.
  apply list_elem_of_In in Hkey. simpl in Hkey.
  destruct Hkey as [<-|[<-|[<-|[<-|[]]]]];
    unfold cast_set in Hcast; simpl in Hcast.
  - by simplify_eq.
  - destruct (cast_string L v); simplify_eq.
    intros u. split; [by destruct u|]. intros path Hpath. revert u.
    frame_of_setter Hpath.
  - destruct (cast_optional L v); simplify_eq.
    intros u. split; [by destruct u|]. intros path Hpath. revert u.
    frame_of_setter Hpath.
  - destruct (cast_string L v); simplify_eq.
    intros u. split; [by destruct u|]. intros path Hpath. revert u.
    frame_of_setter Hpath.
Qed.

Lemma cast_update_put updates apply :
  Forall (λ kv, kv.1 ∈ UsersRoutes.allowedUpdates) updates →
  cast_update L updates = inr apply →
  ∀ u, _id (apply u) = _id u
       ∧ ∀ path, path ∉ ["email"; "npk"; "role"] →
                 path_value path (apply u) = path_value path u.
Proof.
  intros Hkeys. revert apply.
  induction Hkeys as [|[key v] rest Hkey _ IH]; intros apply; simpl.
  - by intros [= <-].
  - destruct (cast_set L key v) as [|f] eqn:Hf; [done|].
    destruct (cast_update L rest) as [|g]; [done|].
    intros [= <-] u.
    destruct (cast_set_put key v f Hkey Hf u) as [Hid Hframe].
    destruct (IH g eq_refl (f u)) as [Hid' Hframe'].
    split; [congruence|]. intros path Hpath.
    by rewrite Hframe', Hframe.
Qed.

Lemma filtered_allowed (updates : list (string * json)) :
  Forall (λ kv, kv.1 ∈ UsersRoutes.allowedUpdates)
         (List.filter (λ kv, Js.includes UsersRoutes.allowedUpdates kv.1)
                      updates).
Proof.
  apply Forall_forall. intros kv Hin.
  apply list_elem_of_In, filter_In in Hin as [_ Hin].
  by apply includes_spec.
Qed.

End WithLibrary.
End PutFrame.

(** X22.  [PUT /:id] reaches the e-mail, the npk and the role of a user
    and nothing else.  When it is answered 200, the id of the path
    stands for an [_id] under which a record is stored; the first such
    record has been replaced, in place, by one that has the current
    time as [updatedAt] and the same value at every path other than
    [email], [npk], [role] and [updatedAt]: username, password,
    permissions, unit and [isActive] are as before, and so is every
    other record. *)
Theorem put_reaches_three_paths (L : Library)
    (castObjectId : string → option string) (now : Z)
    (db db' : UserModel.Collection) (i : string)
    (body : list (string * json)) (res : Response) :
  UsersRoutes.put L castObjectId now db i body
  = (db', UsersRoutes.Sent res) →
  status res = 200 →
  ∃ oid u u',
    castObjectId i = Some oid
    ∧ UserModel.findOne (UsersRoutes.by__id oid) db = Some u
    ∧ db' = UserModel.updateFirst (UsersRoutes.by__id oid) (λ _, u') db
    ∧ UserModel._id u' = UserModel._id u
    ∧ UserModel.updatedAt u' = now
    ∧ ∀ path, path ∉ ["email"; "npk"; "role"; "updatedAt"] →
              UserModel.path_value path u' = UserModel.path_value path u.
Proof.
  unfold UsersRoutes.put.
  destruct (UsersRoutes.validateRoleUpdate body) as [answer|updates] eqn:Hv.
  { unfold UsersRoutes.validateRoleUpdate in Hv.
    repeat case_match; simplify_eq; intros [= <- <-]; discriminate. }
  destruct (castObjectId i) as [oid|] eqn:Hoid;
    [|intros [= <- <-]; discriminate].
  unfold UserModel.findOneAndUpdate.
  destruct (UserModel.cast_update L _) as [|apply] eqn:Hcast;
    [intros [= <- <-]; discriminate|].
  destruct (UserModel.validate_update _ _);
    [|intros [= <- <-]; discriminate].
  destruct (UserModel.findOne _ db) as [u|] eqn:Hfind;
    [|intros [= <- <-]; discriminate].
  destruct (negb _) eqn:Hid; [intros [= <- <-]; discriminate|].
  destruct (UserModel.duplicateKey _ _ _);
    [intros [= <- <-]; discriminate|].
  intros [= <- <-] _.
  destruct (PutFrame.cast_update_put L _ _
              (PutFrame.filtered_allowed updates) Hcast u)
    as [Hsame Hframe].
  exists oid, u, (UserModel.set_updatedAt now (apply u)).
  do 3 (split; [done|]).
  split; [by rewrite <-Hsame; destruct (apply u)|].
  split; [by destruct (apply u)|].
  intros path Hpath.
  rewrite Update.set_updatedAt_frame.
  - apply Hframe. intros Hin. apply Hpath.
    apply list_elem_of_In in Hin. apply list_elem_of_In.
    simpl in *. tauto.
  - intros ->. apply Hpath. apply list_elem_of_In. simpl. tauto.
Qed.

Lemma put_reaches_three_paths_witness :
  let db := [Demo.nurse; Demo.promoted; Demo.mitra] in
  let r := UsersRoutes.put Demo.lib Demo.castObjectId (Demo.now + 1) db
             "65a000000000000000000004"
             [ ("role", JStr "Admin"); ("username", JStr "root");
               ("isActive", JBool false) ] in
  let changed :=
    UserModel.set_updatedAt (Demo.now + 1)
      (UserModel.set_role "admin" Demo.mitra) in
  r.1 = [Demo.nurse; Demo.promoted; changed]
  ∧ (∃ res, r.2 = UsersRoutes.Sent res ∧ status res = 200)
  ∧ ∃ oid u u',
      Demo.castObjectId "65a000000000000000000004" = Some oid
      ∧ UserModel.findOne (UsersRoutes.by__id oid) db = Some u
      ∧ r.1 = UserModel.updateFirst (UsersRoutes.by__id oid) (λ _, u') db
      ∧ UserModel._id u' = UserModel._id u
      ∧ UserModel.updatedAt u' = Demo.now + 1
      ∧ ∀ path, path ∉ ["email"; "npk"; "role"; "updatedAt"] →
                UserModel.path_value path u' = UserModel.path_value path u.
Proof.
  intros db r changed.
  split; [reflexivity|]. split; [by eexists|].
  eapply (put_reaches_three_paths Demo.lib Demo.castObjectId (Demo.now + 1)
            db r.1 "65a000000000000000000004"
            [ ("role", JStr "Admin"); ("username", JStr "root");
              ("isActive", JBool false) ]);
    reflexivity.
Defined.

(** ** The question bank *)

Module Bank.
Import ExamRoutes.

Lemma find_split {A} (p : A → bool) l x :
  List.find p l = Some x →
  ∃ pre post, l = pre ++ x :: post ∧ (∀ y, y ∈ pre → p y = false)
              ∧ p x = true.
Proof.
  induction l as [|y l IH]; simpl; [done|].
  destruct (p y) eqn:Hy.
  - intros [= ->]. exists [], l. split; [done|]. split; [|done].
    intros z Hz. by apply elem_of_nil in Hz.
  - intros (pre & post & -> & Hpre & Hx)%IH.
    exists (y :: pre), post. split; [done|]. split; [|done].
    intros z [->|Hz]%elem_of_cons; [done|by apply Hpre].
Qed.

Lemma find_none {A} (p : A → bool) l :
  List.find p l = None ↔ ∀ y, y ∈ l → p y = false.
Proof.
  induction l as [|y l IH]; simpl.
  - split; [|done]. intros _ z Hz. by apply elem_of_nil in Hz.
  - destruct (p y) eqn:Hy.
    + split; [done|]. intros H. rewrite H in Hy; [done|].
      apply list_elem_of_here.
    + rewrite IH. split.
      * intros H z [->|Hz]%elem_of_cons; [done|by apply H].
      * intros H z Hz. apply H. by apply list_elem_of_further.
Qed.


Lemma replace_first_split {A} (p : A → bool) f pre x post :
  (∀ y, y ∈ pre → p y = false) → p x = true →
  replace_first p f (pre ++ x :: post) = pre ++ f x :: post.
Proof.
  intros Hpre Hx. induction pre as [|y pre IH]; simpl.
  - by rewrite Hx.
  - rewrite (Hpre y) by apply list_elem_of_here. f_equal. apply IH.
    intros z Hz. apply Hpre. by apply list_elem_of_further.
Qed.

Lemma replace_first_Forall {A} (P : A → Prop) (p : A → bool) f l :
  Forall P l → (∀ x, x ∈ l → p x = true → P (f x)) →
  Forall P (replace_first p f l).
Proof.
  induction 1 as [|x l Hx Hl IH]; intros Hf; simpl; [done|].
  destruct (p x) eqn:Hp.
  - constructor; [|done]. apply Hf; [apply list_elem_of_here|done].
  - constructor; [done|]. apply IH. intros y Hy. apply Hf.
    by apply list_elem_of_further.
Qed.

Lemma remove_first_Forall {A} (P : A → Prop) (p : A → bool) l :
  Forall P l → Forall P (remove_first p l).
Proof.
  induction 1 as [|x l Hx Hl IH]; simpl; [done|].
  destruct (p x); [done|]. by constructor.
Qed.

Lemma find_question_elem l i q :
  find_question l i = Some q →
  q ∈ l ∧ i = JStr (Question.id q).
Proof.
  destruct i as [| | |s| |]; try done. simpl.
  intros (pre & post & -> & _ & Hq)%find_split.
  apply bool_decide_eq_true in Hq as <-. split; [|done].
  apply elem_of_app. right. apply list_elem_of_here.
Qed.

Lemma omap_find_elem l (ids : list json) q :
  q ∈ omap (find_question l) ids →
  q ∈ l ∧ JStr (Question.id q) ∈ ids.
Proof.
  intros (i & Hi & Hq)%list_elem_of_omap.
  apply find_question_elem in Hq as [Hin ->]. done.
Qed.

Lemma listed_spec (ids : list json) i :
  listed ids i = true ↔ JStr i ∈ ids.
Proof.
  unfold listed. rewrite existsb_exists. split.
  - intros (x & Hin & Hx). destruct x as [| | |s| |]; try done.
    apply bool_decide_eq_true in Hx as ->. by apply list_elem_of_In.
  - intros Hin. exists (JStr i). split; [by apply list_elem_of_In|].
    simpl. by apply bool_decide_eq_true.
Qed.

(** With distinct ids in the bank, a question is found under its id. *)
Lemma find_question_own l q :
  NoDup (Question.id <$> l) → q ∈ l →
  find_question l (JStr (Question.id q)) = Some q.
Proof.
  intros Hkey (pre & post & ->)%list_elem_of_split. simpl.
  destruct (List.find _ _) as [q'|] eqn:Hfind.
  - apply find_split in Hfind as (pre' & post' & E & Hpre' & Hq').
    apply bool_decide_eq_true in Hq'.
    f_equal. rewrite E in Hkey.
    assert (q ∈ pre' ++ q' :: post') as Hin.
    { rewrite <-E. apply elem_of_app. right. apply list_elem_of_here. }
    apply elem_of_app in Hin as [Hin|Hin].
    + apply Hpre' in Hin. by apply bool_decide_eq_false in Hin.
    + apply elem_of_cons in Hin as [->|Hin]; [done|]. exfalso.
      rewrite fmap_app, fmap_cons in Hkey.
      apply NoDup_app in Hkey as (_ & _ & Hkey).
      apply NoDup_cons in Hkey as [Hkey _]. apply Hkey.
      rewrite Hq'. apply list_elem_of_fmap. by exists q.
  - exfalso. rewrite find_none in Hfind.
    specialize (Hfind q ltac:(apply elem_of_app; right;
                              apply list_elem_of_here)).
    by apply bool_decide_eq_false in Hfind.
Qed.

End Bank.

Module Reorder.
Import ExamRoutes Bank.

Lemma NoDup_omap_find l (ids : list json) :
  NoDup ids → NoDup (omap (find_question l) ids).
Proof.
  induction 1 as [|x ids Hx Hids IH]; simpl; [constructor|].
  destruct (find_question l x) as [q|] eqn:Hq; [|done].
  constructor; [|done].
  intros [_ Hin]%omap_find_elem.
  apply find_question_elem in Hq as [_ ->]. done.
Qed.

Lemma filter_elem {A} (p : A → bool) (l : list A) x :
  x ∈ List.filter p l ↔ x ∈ l ∧ p x = true.
Proof. by rewrite !list_elem_of_In, filter_In. Qed.

Lemma NoDup_filter {A} (p : A → bool) (l : list A) :
  NoDup l → NoDup (List.filter p l).
Proof.
  induction 1 as [|x l Hx Hl IH]; simpl; [constructor|].
  destruct (p x); [|done]. constructor; [|done].
  by intros [Hin _]%filter_elem.
Qed.

Lemma reordered_elem l (ids : list json) q :
  NoDup (Question.id <$> l) →
  (q ∈ omap (find_question l) ids
         ++ List.filter (λ q, negb (listed ids (Question.id q))) l
   ↔ q ∈ l).
Proof.
  intros Hkey. rewrite elem_of_app, filter_elem. split.
  - intros [[Hin _]%omap_find_elem|[Hin _]]; done.
  - intros Hin. destruct (listed ids (Question.id q)) eqn:Hlisted.
    + left. apply list_elem_of_omap. exists (JStr (Question.id q)).
      split; [by apply listed_spec|by apply find_question_own].
    + by right.
Qed.

Lemma reordered_NoDup l (ids : list json) :
  NoDup (Question.id <$> l) → NoDup ids →
  NoDup (omap (find_question l) ids
         ++ List.filter (λ q, negb (listed ids (Question.id q))) l).
Proof.
  intros Hkey Hids. apply NoDup_app. split; [by apply NoDup_omap_find|].
  split.
  - intros q [_ Hin]%omap_find_elem [_ Hout]%filter_elem.
    apply listed_spec in Hin. simpl in Hout. by rewrite Hin in Hout.
  - apply NoDup_filter. by apply NoDup_fmap_1 in Hkey.
Qed.

Lemma omap_find_all l (texts : list string) :
  (∀ t, t ∈ texts → t ∈ Question.id <$> l) →
  Question.id <$> omap (find_question l) (JStr <$> texts) = texts.
Proof.
  induction texts as [|t texts IH]; intros Hknown; simpl; [done|].
  destruct (List.find _ l) as [q|] eqn:Hq.
  - apply find_split in Hq as (_ & _ & _ & _ & Hq).
    apply bool_decide_eq_true in Hq. rewrite fmap_cons, Hq. f_equal.
    apply IH. intros t' Ht'. apply Hknown. by apply list_elem_of_further.
  - exfalso. rewrite find_none in Hq.
    pose proof (Hknown t (list_elem_of_here _ _)) as Hin.
    apply list_elem_of_fmap in Hin as (q & -> & Hin).
    apply Hq in Hin. by apply bool_decide_eq_false in Hin.
Qed.

End Reorder.

(** X23.  [PUT /questions-reorder] on a bank of questions with
    distinct ids loses no question and invents none.  When it answers
    200, the body names an array of ids, the exams are untouched, and
    the bank holds exactly the questions it held.  When no id is
    listed twice the new bank is a permutation of the old one; when
    the ids are the ids of the bank in some order, that is the order
    of the new bank.  Every other answer leaves the state as it
    was. *)
Theorem reorder_keeps_every_question (st st' : ExamRoutes.State)
    (body : option (list (string * json))) (answer : ExamRoutes.Answer ()) :
  NoDup (ExamRoutes.Question.id <$> ExamRoutes.questions st) →
  ExamRoutes.reorder st body = (st', answer) →
  (ExamRoutes.code answer ≠ 200 → st' = st)
  ∧ (ExamRoutes.code answer = 200 →
     ∃ fields ids,
       body = Some fields
       ∧ field "questionIds" fields = Some (JArr ids)
       ∧ ExamRoutes.exams st' = ExamRoutes.exams st
       ∧ (∀ q, q ∈ ExamRoutes.questions st' ↔ q ∈ ExamRoutes.questions st)
       ∧ (NoDup ids →
          ExamRoutes.questions st' ≡ₚ ExamRoutes.questions st)
       ∧ (∀ texts,
            ids = JStr <$> texts →
            texts ≡ₚ ExamRoutes.Question.id <$> ExamRoutes.questions st →
            ExamRoutes.Question.id <$> ExamRoutes.questions st' = texts)).
Proof.
  intros Hkey. unfold ExamRoutes.reorder.
  destruct body as [fields|]; [|by intros [= <- <-]].
  destruct (field "questionIds" fields) as [[| | | |ids|]|] eqn:Hids;
    try by intros [= <- <-].
  intros [= <- <-]. split; [done|]. intros _.
  exists fields, ids. do 3 (split; [done|]). simpl.
  split; [intros q; by apply Reorder.reordered_elem|]. split.
  - intros Hdistinct. apply NoDup_Permutation.
    + by apply Reorder.reordered_NoDup.
    + by apply NoDup_fmap_1 in Hkey.
    + intros q. by apply Reorder.reordered_elem.
  - intros texts -> Hall.
    assert (List.filter
              (λ q, negb (ExamRoutes.listed (JStr <$> texts)
                            (ExamRoutes.Question.id q)))
              (ExamRoutes.questions st) = []) as ->.
    {       destruct (List.filter _ _) as [|q rest] eqn:Hrest; [done|].
      exfalso.
      assert (q ∈ q :: rest) as Hq by apply list_elem_of_here.
      rewrite <-Hrest in Hq. apply Reorder.filter_elem in Hq as [Hin Hout].
      apply negb_true_iff in Hout.
      assert (ExamRoutes.listed (JStr <$> texts) (ExamRoutes.Question.id q)
              = true) as Hlisted; [|by rewrite Hlisted in Hout].
      apply Bank.listed_spec. apply list_elem_of_fmap.
      exists (ExamRoutes.Question.id q). split; [done|].
      rewrite Hall. apply list_elem_of_fmap. by exists q. }
    rewrite app_nil_r. apply Reorder.omap_find_all.
    intros t Ht. by rewrite <-Hall.
Qed.

Lemma reorder_keeps_every_question_witness :
  let body :=
    Some [("questionIds", JArr [JStr "q-3"; JStr "q-1"; JStr "q-2"])] in
  let r := ExamRoutes.reorder DemoExams.state body in
  NoDup (ExamRoutes.Question.id <$> ExamRoutes.questions DemoExams.state)
  ∧ ExamRoutes.questions r.1
    = [DemoExams.numbered; DemoExams.pulse; DemoExams.triage]
  ∧ (ExamRoutes.code r.2 ≠ 200 → r.1 = DemoExams.state)
  ∧ (ExamRoutes.code r.2 = 200 →
     ∃ fields ids,
       body = Some fields
       ∧ field "questionIds" fields = Some (JArr ids)
       ∧ ExamRoutes.exams r.1 = ExamRoutes.exams DemoExams.state
       ∧ (∀ q, q ∈ ExamRoutes.questions r.1
               ↔ q ∈ ExamRoutes.questions DemoExams.state)
       ∧ (NoDup ids →
          ExamRoutes.questions r.1
          ≡ₚ ExamRoutes.questions DemoExams.state)
       ∧ (∀ texts,
            ids = JStr <$> texts →
            texts ≡ₚ ExamRoutes.Question.id
                       <$> ExamRoutes.questions DemoExams.state →
            ExamRoutes.Question.id <$> ExamRoutes.questions r.1 = texts)).
Proof.
  intros body r.
  assert (NoDup (ExamRoutes.Question.id
                   <$> ExamRoutes.questions DemoExams.state)) as Hkey
    by (apply (bool_decide_unpack _); vm_compute; exact I).
  split; [exact Hkey|]. split; [reflexivity|].
  apply (reorder_keeps_every_question DemoExams.state r.1 body r.2 Hkey).
  reflexivity.
Defined.



Module Posting.
Import ExamRoutes.

Lemma nonblank_spec items options :
  nonblank items = Some options →
  Forall (λ o, Js.trim o ≠ "" ∧ JStr o ∈ items) options.
Proof.
  revert options.
  induction items as [|x items IH]; intros options; cbn [nonblank].
  - by intros [= <-].
  - assert (∀ l, Forall (λ o, Js.trim o ≠ "" ∧ JStr o ∈ items) l →
                 Forall (λ o, Js.trim o ≠ "" ∧ JStr o ∈ x :: items) l)
      as Hweaken.
    { intros l Hl. eapply Forall_impl; [exact Hl|].
      intros o [Ho Hin]. split; [done|]. by apply list_elem_of_further. }
    destruct (truthy_value (Some x)); [|by intros H%IH; apply Hweaken].
    destruct x as [| | |s| |]; try done.
    destruct (nonblank items) as [rest|]; [|done]. simpl.
    specialize (IH rest eq_refl). apply Hweaken in IH.
    destruct (bool_decide (Js.trim s = "")) eqn:Hs; intros [= <-]; [done|].
    constructor; [|done]. apply bool_decide_eq_false in Hs.
    split; [done|]. apply list_elem_of_here.
Qed.

Lemma blank_false v :
  blank v = Some false →
  ∃ s, v = Some (JStr s) ∧ Js.trim s ≠ "".
Proof.
  unfold blank. destruct (truthy_value v); [|done].
  destruct v as [[| | |s| |]|]; try done.
  intros [= Hs]. apply bool_decide_eq_false in Hs. by exists s.
Qed.

End Posting.

(** X25.  What [POST /questions] lets into the bank.  A 201 means that
    exactly one question was appended, under the id drawn for it, with
    the trimmed, non-empty text of the request and the type of the
    request.  For a [multiple-choice] or [checkbox] question the
    options are those entries of the request that are non-blank
    strings, at least two of them, and the correct answer is one
    string among these options, never a list of answers; any other
    type is stored without options.  Every other answer leaves bank
    and exams as they were. *)
Theorem post_question_checks (now : Z) (uuid : string)
    (st st' : ExamRoutes.State) (body : option (list (string * json)))
    (answer : ExamRoutes.Answer ExamRoutes.Question.t) :
  ExamRoutes.post_question now uuid st body = (st', answer) →
  (ExamRoutes.code answer ≠ 201 → st' = st)
  ∧ ∀ q, answer = ExamRoutes.Sent 201 q →
      ExamRoutes.questions st' = ExamRoutes.questions st ++ [q]
      ∧ ExamRoutes.exams st' = ExamRoutes.exams st
      ∧ ExamRoutes.Question.id q = uuid
      ∧ ExamRoutes.Question.pertanyaan q ≠ ""
      ∧ Js.trim (ExamRoutes.Question.pertanyaan q)
        = ExamRoutes.Question.pertanyaan q
      ∧ truthy_value (Some (ExamRoutes.Question.type q)) = true
      ∧ (ExamRoutes.choice (ExamRoutes.Question.type q) = true →
         ∃ options chosen,
           ExamRoutes.Question.pilihan q = Some options
           ∧ (2 ≤ length options)%nat
           ∧ Forall (λ o, Js.trim o ≠ "") options
           ∧ ExamRoutes.Question.jawabanBenar q = Some (JStr chosen)
           ∧ chosen ∈ options)
      ∧ (ExamRoutes.choice (ExamRoutes.Question.type q) = false →
         ExamRoutes.Question.pilihan q = None).
Proof.
  unfold ExamRoutes.post_question.
  destruct body as [body|]; [|by intros [= <- <-]].
  destruct (ExamRoutes.blank _) as [[|]|] eqn:Htext;
    try by intros [= <- <-].
  apply Posting.blank_false in Htext as (s & -> & Hs).
  destruct (negb (truthy_value (field "type" body))) eqn:Htype.
  { by intros [= <- <-]. }
  apply negb_false_iff in Htype.
  destruct (field "type" body) as [type|] eqn:Hfield; [|done].
  cbn [from_option id].
  destruct (ExamRoutes.choice type) eqn:Hchoice.
  - destruct (ExamRoutes.filter_options _) as [validOptions|] eqn:Hoptions;
      [|by intros [= <- <-]].
    destruct (_ <? 2) eqn:Htwo; [by intros [= <- <-]|].
    destruct (negb (truthy_value _)) eqn:Hanswer; [by intros [= <- <-]|].
    destruct (negb (ExamRoutes.among _ _)) eqn:Hamong;
      [by intros [= <- <-]|].
    intros [= <- <-]. split; [done|]. intros ? [= <-]. simpl.
    do 3 (split; [done|]). split; [done|].
    split; [apply Normal.trim_idem|]. split; [done|].
    split; [|by rewrite Hchoice].
    intros _. apply negb_false_iff in Hamong.
    unfold ExamRoutes.among in Hamong.
    destruct (ExamRoutes.or_value (field "jawabanBenar" body) _)
      as [[| | |chosen| |]|]; try done.
    exists validOptions, chosen. split; [done|].
    split; [apply Z.ltb_ge in Htwo; lia|]. split.
    + unfold ExamRoutes.filter_options in Hoptions.
      destruct (default _ _) as [| | | |items|]; try done.
      apply Posting.nonblank_spec in Hoptions.
      eapply Forall_impl; [exact Hoptions|]. by intros o [Ho _].
    + split; [done|]. by apply includes_spec.
  - intros [= <- <-]. split; [done|]. intros ? [= <-]. simpl.
    do 3 (split; [done|]). split; [done|].
    split; [apply Normal.trim_idem|]. split; [done|].
    split; [by rewrite Hchoice|done].
Qed.

Lemma post_question_checks_witness :
  let body :=
    Some [ ("pertanyaan", JStr "  Which sign is vital?  ");
           ("type", JStr "checkbox");
           ("pilihan", JArr [JStr "Pulse"; JStr " "; JNull; JStr "Eye colour"]);
           ("jawabanBenar", JStr "Pulse") ] in
  let several :=
    Some [ ("pertanyaan", JStr "Which signs are vital?");
           ("type", JStr "checkbox");
           ("pilihan", JArr [JStr "Pulse"; JStr "Respiration"; JStr "Age"]);
           ("jawabanBenar", JArr [JStr "Pulse"; JStr "Respiration"]) ] in
  let r := ExamRoutes.post_question Demo.now "q-4" DemoExams.state body in
  (ExamRoutes.post_question Demo.now "q-4" DemoExams.state several).2
  = ExamRoutes.Refused 400 "Correct answer must be one of the options"
  ∧ ∃ q, r.2 = ExamRoutes.Sent 201 q
         ∧ ExamRoutes.Question.pertanyaan q = "Which sign is vital?"
         ∧ ExamRoutes.Question.pilihan q = Some ["Pulse"; "Eye colour"]
         ∧ ExamRoutes.questions r.1 = DemoExams.bank ++ [q]
         ∧ ∃ options chosen,
             ExamRoutes.Question.pilihan q = Some options
             ∧ (2 ≤ length options)%nat
             ∧ Forall (λ o, Js.trim o ≠ "") options
             ∧ ExamRoutes.Question.jawabanBenar q = Some (JStr chosen)
             ∧ chosen ∈ options.
Proof.
  intros body several r. split; [reflexivity|].
  destruct (post_question_checks Demo.now "q-4" DemoExams.state r.1 body r.2
              eq_refl) as [_ Hsent].
  eexists. split; [reflexivity|].
  edestruct Hsent as (Hbank & _ & _ & _ & _ & _ & Hchoice & _);
    [reflexivity|].
  split; [reflexivity|]. split; [reflexivity|]. split; [exact Hbank|].
  apply Hchoice. reflexivity.
Defined.

(** X26.  [PUT /questions/:id] rewrites one question in place.  A 200
    means that the first question with that id has been replaced, at
    its position, by the question of the answer, which has the same
    id and creation time, the current time as [updatedAt], and a text
    that is trimmed and non-empty if the old one was; the other
    questions and the exams, which hold their own copies, are as
    before.  The checks of [POST /questions] are not repeated: the
    options may become empty and the correct answer any value.  Every
    other answer leaves the state as it was. *)
Theorem put_question_in_place (now : Z) (userId : option string)
    (st st' : ExamRoutes.State) (i : string)
    (body : option (list (string * json)))
    (answer : ExamRoutes.Answer ExamRoutes.Question.t) :
  ExamRoutes.put_question now userId st i body = (st', answer) →
  (ExamRoutes.code answer ≠ 200 → st' = st)
  ∧ ∀ q, answer = ExamRoutes.Sent 200 q →
      ExamRoutes.exams st' = ExamRoutes.exams st
      ∧ (∃ pre old post,
           ExamRoutes.questions st = pre ++ old :: post
           ∧ ExamRoutes.questions st' = pre ++ q :: post
           ∧ (∀ x, x ∈ pre → ExamRoutes.Question.id x ≠ i)
           ∧ ExamRoutes.Question.id old = i
           ∧ ExamRoutes.Question.id q = i
           ∧ ExamRoutes.Question.createdAt q
             = ExamRoutes.Question.createdAt old
           ∧ ExamRoutes.Question.updatedAt q = now
           ∧ (ExamRoutes.Question.pertanyaan old ≠ ""
              ∧ Js.trim (ExamRoutes.Question.pertanyaan old)
                = ExamRoutes.Question.pertanyaan old →
              ExamRoutes.Question.pertanyaan q ≠ ""
              ∧ Js.trim (ExamRoutes.Question.pertanyaan q)
                = ExamRoutes.Question.pertanyaan q))
      ∧ (∀ fields,
           body = Some fields →
           field "pertanyaan" fields = None →
           field "question" fields = None →
           field "pilihan" fields = Some (JArr []) →
           ExamRoutes.Question.pilihan q = Some []).
Proof.
  unfold ExamRoutes.put_question.
  destruct (ExamRoutes.find_question _ _) as [old|] eqn:Hfind;
    [|by intros [= <- <-]].
  destruct body as [fields|]; [|by intros [= <- <-]].
  simpl in Hfind.
  apply Bank.find_split in Hfind as (pre & post & Hbank & Hpre & Hold).
  apply bool_decide_eq_true in Hold.
  set (questionText := ExamRoutes.or_value (field "pertanyaan" fields) _).
  set (questionOptions := ExamRoutes.or_value (field "pilihan" fields) _).
  destruct (if truthy_value questionText then _ else _)
    as [text|] eqn:Htext; [|by intros [= <- <-]].
  assert (match text with
          | Some t => t = Js.trim t
          | None => True
          end) as Htrimmed.
  { destruct (truthy_value questionText); [|by simplify_eq].
    destruct questionText as [[| | |s| |]|]; simplify_eq.
    by rewrite Normal.trim_idem. }
  destruct (match questionOptions with None => _ | Some _ => _ end)
    as [pilihan|] eqn:Hpilihan.
  2:{ destruct text as [[|c t]|]; by intros [= <- <-]. }
  destruct text as [[|c t]|]; [by intros [= <- <-]| |].
  - intros [= <- <-]. split; [done|]. intros ? [= <-]. simpl.
    split; [done|]. split.
    + exists pre, old, post. split; [done|].
      rewrite Hbank, Bank.replace_first_split
        by (done || by apply bool_decide_eq_true).
      split; [done|]. split.
      { intros x Hx. apply Hpre in Hx. by apply bool_decide_eq_false in Hx. }
      do 4 (split; [done|]). intros _. by split.
    + intros ? [= <-] Hp Hq Hoptions.
      unfold questionText, ExamRoutes.or_value in Htext.
      by rewrite Hp, Hq in Htext.
  - intros [= <- <-]. split; [done|]. intros ? [= <-]. simpl.
    split; [done|]. split.
    + exists pre, old, post. split; [done|].
      rewrite Hbank, Bank.replace_first_split
        by (done || by apply bool_decide_eq_true).
      split; [done|]. split.
      { intros x Hx. apply Hpre in Hx. by apply bool_decide_eq_false in Hx. }
      by do 4 (split; [done|]).
    + intros ? [= <-] Hp Hq Hoptions.
      unfold questionOptions, ExamRoutes.or_value in Hpilihan.
      rewrite Hoptions in Hpilihan. simpl in Hpilihan.
      by injection Hpilihan as <-.
Qed.

Lemma put_question_in_place_witness :
  let body := Some [("pilihan", JArr []); ("correctAnswer", JNull)] in
  let r := ExamRoutes.put_question (Demo.now + 1) None DemoExams.state
             "q-1" body in
  ExamRoutes.code r.2 = 200
  ∧ ExamRoutes.exams r.1 = [DemoExams.quiz]
  ∧ ∃ q, r.2 = ExamRoutes.Sent 200 q
         ∧ ExamRoutes.questions r.1
           = [q; DemoExams.triage; DemoExams.numbered]
         ∧ ExamRoutes.Question.type q = JStr "multiple-choice"
         ∧ ExamRoutes.Question.jawabanBenar q = Some JNull
         ∧ ExamRoutes.Question.updatedBy q = Some "system"
         ∧ ExamRoutes.Question.pilihan q = Some [].
Proof.
  intros body r. split; [reflexivity|]. split; [reflexivity|].
  destruct (put_question_in_place (Demo.now + 1) None DemoExams.state r.1
              "q-1" body r.2 eq_refl) as [_ Hsent].
  eexists. split; [reflexivity|]. do 4 (split; [reflexivity|]).
  edestruct Hsent as (_ & _ & Hoptions); [reflexivity|].
  by eapply Hoptions.
Defined.

(** ** Exams *)

Module Papers.
Import ExamRoutes.

Lemma find_exam_split l i e :
  find_exam l i = Some e →
  ∃ pre post, l = pre ++ e :: post
              ∧ (∀ x, x ∈ pre → Exam.id x ≠ i) ∧ Exam.id e = i.
Proof.
  intros (pre & post & -> & Hpre & He)%Bank.find_split.
  exists pre, post. split; [done|]. split.
  - intros x Hx. apply Hpre in Hx. by apply bool_decide_eq_false in Hx.
  - by apply bool_decide_eq_true in He.
Qed.

Lemma omap_find_known l (ids : list json) :
  Forall (λ q, q ∈ l) (omap (find_question l) ids).
Proof.
  apply Forall_forall. intros q Hq.
  by apply Bank.omap_find_elem in Hq as [Hq _].
Qed.

End Papers.

(** X27.  Every exam counts its questions: when [questionCount] is the
    number of questions of each stored exam, it still is after
    [POST /exams], [PUT /exams/:id], [PUT /exams/:id/publish] and
    [DELETE /exams/:id], whatever the request and the answer; none
    of the four touches the bank of questions. *)
Theorem exam_counts_its_questions (now : Z) (uuid i : string)
    (userId : option string) (st : ExamRoutes.State)
    (body : option (list (string * json))) :
  let counted e :=
    ExamRoutes.Exam.questionCount e
    = Z.of_nat (length (ExamRoutes.Exam.questions e)) in
  let kept st' :=
    Forall counted (ExamRoutes.exams st')
    ∧ ExamRoutes.questions st' = ExamRoutes.questions st in
  Forall counted (ExamRoutes.exams st) →
  kept (ExamRoutes.post_exam now uuid userId st body).1
  ∧ kept (ExamRoutes.put_exam now userId st i body).1
  ∧ kept (ExamRoutes.publish now st i).1
  ∧ kept (ExamRoutes.delete_exam st i).1.
Proof.
  intros counted kept Hst.
  assert (kept st) as Hsame by done.
  split; [|split; [|split]].
  - unfold ExamRoutes.post_exam.
    destruct body as [fields|]; [|done].
    destruct (ExamRoutes.blank _) as [[|]|]; try done.
    destruct (field "questionIds" fields) as [[| | | |[|first rest]|]|];
      try done.
    destruct (negb _); [done|].
    destruct (ExamRoutes.describe _); [|done].
    split; [|done]. simpl. apply Forall_app. split; [done|].
    by constructor.
  - unfold ExamRoutes.put_exam.
    destruct (ExamRoutes.find_exam _ _) as [old|] eqn:Hold; [|done].
    destruct body as [fields|]; [|done].
    destruct (if truthy_value (field "questionIds" fields) then _ else _)
      as [examQuestions|]; [|done].
    destruct (if truthy_value (field "title" fields) then _ else _)
      as [title|]; [|done].
    destruct (match field "description" fields with
              | Some _ => _ | None => _ end) as [description|]; [|done].
    split; [|done]. simpl.
    apply Bank.replace_first_Forall; [done|].
    intros e He _. unfold counted. simpl.
    destruct examQuestions as [l|]; [done|]. simpl.
    apply Papers.find_exam_split in Hold as (pre & post & Hexams & _).
    rewrite Hexams in Hst.
    apply Forall_app in Hst as [_ Hst]. by apply Forall_cons in Hst as [Hst _].
  - unfold ExamRoutes.publish.
    destruct (ExamRoutes.find_exam _ _) as [exam|] eqn:Hexam; [|done].
    destruct (bool_decide _); [done|].
    split; [|done]. simpl.
    apply Bank.replace_first_Forall; [done|].
    intros e He _. unfold counted. simpl.
    apply Papers.find_exam_split in Hexam as (pre & post & Hexams & _).
    rewrite Hexams in Hst.
    apply Forall_app in Hst as [_ Hst]. by apply Forall_cons in Hst as [Hst _].
  - unfold ExamRoutes.delete_exam.
    destruct (ExamRoutes.find_exam _ _); [|done].
    split; [|done]. simpl. by apply Bank.remove_first_Forall.
Qed.

Lemma exam_counts_its_questions_witness :
  let counted e :=
    ExamRoutes.Exam.questionCount e
    = Z.of_nat (length (ExamRoutes.Exam.questions e)) in
  let body := Some [("questionIds", JArr [JStr "q-3"; JStr "nowhere"])] in
  let r := ExamRoutes.put_exam (Demo.now + 1) None DemoExams.state "e-1"
             body in
  Forall counted (ExamRoutes.exams DemoExams.state)
  ∧ (∃ e, r.2 = ExamRoutes.Sent 200 e
          ∧ ExamRoutes.Exam.questions e = [DemoExams.numbered]
          ∧ ExamRoutes.Exam.questionCount e = 1)
  ∧ Forall counted (ExamRoutes.exams r.1).
Proof.
  intros counted body r.
  assert (Forall counted (ExamRoutes.exams DemoExams.state)) as Hst.
  { constructor; [reflexivity|constructor]. }
  split; [exact Hst|]. split; [by eexists|].
  destruct (exam_counts_its_questions (Demo.now + 1) "e-2" "e-1" None
              DemoExams.state body Hst) as (_ & [Hput _] & _).
  exact Hput.
Defined.

Module Publishing.
Import ExamRoutes.

Lemma find_exam_replaced l i e e' :
  find_exam l i = Some e → Exam.id e' = i →
  find_exam (replace_first (λ x, bool_decide (Exam.id x = i)) (λ _, e') l) i
  = Some e'.
Proof.
  intros (pre & post & -> & Hpre & He)%Bank.find_split Hid.
  rewrite Bank.replace_first_split by done.
  unfold find_exam. induction pre as [|x pre IH]; simpl.
  - by rewrite bool_decide_eq_true_2.
  - rewrite (Hpre x) by apply list_elem_of_here. apply IH.
    intros y Hy. apply Hpre. by apply list_elem_of_further.
Qed.

Lemma omap_length {A B} (f : A → option B) (l : list A) :
  (length (omap f l) ≤ length l)%nat.
Proof.
  induction l as [|x l IH]; cbn [omap list_omap length]; [done|].
  destruct (f x); cbn [length]; lia.
Qed.

End Publishing.

(** X28.  What [POST /exams] lets in.  A 201 means that exactly one
    exam was appended, under the id drawn for it, as a draft that was
    never published, with the trimmed, non-empty title of the request
    and at least one question; its questions are those the bank holds
    under the ids of the request, one for each id and in that order,
    and [questionCount] is their number.  Every other answer leaves
    the state as it was. *)
Theorem post_exam_checks (now : Z) (uuid : string) (userId : option string)
    (st st' : ExamRoutes.State) (body : option (list (string * json)))
    (answer : ExamRoutes.Answer ExamRoutes.Exam.t) :
  ExamRoutes.post_exam now uuid userId st body = (st', answer) →
  (ExamRoutes.code answer ≠ 201 → st' = st)
  ∧ ∀ e, answer = ExamRoutes.Sent 201 e →
      ExamRoutes.exams st' = ExamRoutes.exams st ++ [e]
      ∧ ExamRoutes.questions st' = ExamRoutes.questions st
      ∧ ExamRoutes.Exam.id e = uuid
      ∧ ExamRoutes.Exam.status e = JStr "draft"
      ∧ ExamRoutes.Exam.publishedAt e = None
      ∧ ExamRoutes.Exam.title e ≠ ""
      ∧ Js.trim (ExamRoutes.Exam.title e) = ExamRoutes.Exam.title e
      ∧ ExamRoutes.Exam.questions e ≠ []
      ∧ ExamRoutes.Exam.questionCount e
        = Z.of_nat (length (ExamRoutes.Exam.questions e))
      ∧ ∃ fields ids,
          body = Some fields
          ∧ field "questionIds" fields = Some (JArr ids)
          ∧ Forall2 (λ i q, ExamRoutes.find_question
                              (ExamRoutes.questions st) i = Some q)
                    ids (ExamRoutes.Exam.questions e).
Proof.
  unfold ExamRoutes.post_exam.
  destruct body as [fields|]; [|by intros [= <- <-]].
  destruct (ExamRoutes.blank _) as [[|]|] eqn:Htitle;
    try by intros [= <- <-].
  apply Posting.blank_false in Htitle as (s & Htitle & Hs).
  rewrite Htitle.
  destruct (field "questionIds" fields) as [[| | | |[|first rest]|]|]
    eqn:Hids; try by intros [= <- <-].
  destruct (negb _) eqn:Hall; [by intros [= <- <-]|].
  apply negb_false_iff, bool_decide_eq_true in Hall.
  destruct (ExamRoutes.describe _); [|by intros [= <- <-]].
  intros [= <- <-]. split; [done|]. intros ? [= <-]. simpl.
  do 5 (split; [done|]). split; [done|].
  split; [apply Normal.trim_idem|].
  set (ids := first :: rest) in *.
  assert (Forall2 (λ i q, ExamRoutes.find_question
                            (ExamRoutes.questions st) i = Some q)
                  ids (omap (ExamRoutes.find_question
                               (ExamRoutes.questions st)) ids)) as Hpairs.
  { clearbody ids. clear -Hall.
    induction ids as [|x ids IH]; [constructor|].
    cbn [omap list_omap] in *.
    destruct (ExamRoutes.find_question _ x) as [q|] eqn:Hq.
    - constructor; [done|]. apply IH. simpl in Hall. lia.
    - exfalso.
      pose proof (Publishing.omap_length
                    (ExamRoutes.find_question (ExamRoutes.questions st))
                    ids) as Hle.
      simpl in Hall. lia. }
  split.
  { intros Hnone.
    change (omap (ExamRoutes.find_question (ExamRoutes.questions st)) ids
            = []) in Hnone.
    rewrite Hnone in Hpairs. by apply Forall2_length in Hpairs. }
  split; [reflexivity|].
  exists fields, ids. split; [done|]. by split.
Qed.

Lemma post_exam_checks_witness :
  let body :=
    Some [ ("title", JStr " Vital signs ");
           ("questionIds", JArr [JStr "q-1"; JStr "q-1"]) ] in
  let unknown :=
    Some [ ("title", JStr "Vital signs");
           ("questionIds", JArr [JStr "q-1"; JStr "q-9"]) ] in
  let r := ExamRoutes.post_exam Demo.now "e-2" None DemoExams.state body in
  (ExamRoutes.post_exam Demo.now "e-2" None DemoExams.state unknown).2
  = ExamRoutes.Refused 400 "Some question IDs are invalid"
  ∧ ∃ e, r.2 = ExamRoutes.Sent 201 e
         ∧ ExamRoutes.Exam.title e = "Vital signs"
         ∧ ExamRoutes.Exam.questions e = [DemoExams.pulse; DemoExams.pulse]
         ∧ ExamRoutes.exams r.1 = ExamRoutes.exams DemoExams.state ++ [e]
         ∧ ExamRoutes.Exam.questionCount e
           = Z.of_nat (length (ExamRoutes.Exam.questions e)).
Proof.
  intros body unknown r. split; [reflexivity|].
  destruct (post_exam_checks Demo.now "e-2" None DemoExams.state r.1 body
              r.2 eq_refl) as [_ Hsent].
  eexists. split; [reflexivity|]. do 2 (split; [reflexivity|]).
  edestruct Hsent as (Hexams & _ & _ & _ & _ & _ & _ & _ & Hcount & _);
    [reflexivity|].
  by split.
Defined.

(** X29.  The guard of [PUT /exams/:id/publish] is not kept by
    [PUT /exams/:id].  On a stored exam without questions, publishing
    answers 400 and changes nothing; on one with questions it answers
    200 and the exam is stored as published, at the current time,
    with the questions it had.  But an update with an empty list of
    question ids and the status [published] answers 200 on every
    stored exam and leaves it published without a question, and with
    the publication time it had, if any. *)
Theorem publish_guard_is_not_kept (now : Z) (userId : option string)
    (st : ExamRoutes.State) (i : string) (old : ExamRoutes.Exam.t) :
  ExamRoutes.find_exam (ExamRoutes.exams st) i = Some old →
  (ExamRoutes.Exam.questions old = [] →
   ExamRoutes.publish now st i
   = (st, ExamRoutes.Refused 400 "Cannot publish exam without questions"))
  ∧ (ExamRoutes.Exam.questions old ≠ [] →
     ∃ st' e,
       ExamRoutes.publish now st i = (st', ExamRoutes.Sent 200 e)
       ∧ ExamRoutes.find_exam (ExamRoutes.exams st') i = Some e
       ∧ ExamRoutes.Exam.status e = JStr "published"
       ∧ ExamRoutes.Exam.publishedAt e = Some now
       ∧ ExamRoutes.Exam.questions e = ExamRoutes.Exam.questions old)
  ∧ ∃ st' e,
      ExamRoutes.put_exam now userId st i
        (Some [("questionIds", JArr []); ("status", JStr "published")])
      = (st', ExamRoutes.Sent 200 e)
      ∧ ExamRoutes.find_exam (ExamRoutes.exams st') i = Some e
      ∧ ExamRoutes.Exam.status e = JStr "published"
      ∧ ExamRoutes.Exam.publishedAt e = ExamRoutes.Exam.publishedAt old
      ∧ ExamRoutes.Exam.questions e = []
      ∧ ExamRoutes.Exam.questionCount e = 0.
Proof.
  intros Hold.
  pose proof (Papers.find_exam_split _ _ _ Hold) as (_ & _ & _ & _ & Hid).
  split; [|split].
  - intros Hnone. unfold ExamRoutes.publish. by rewrite Hold, Hnone.
  - intros Hsome. unfold ExamRoutes.publish. rewrite Hold.
    rewrite bool_decide_eq_false_2
      by (by destruct (ExamRoutes.Exam.questions old)).
    eexists _, _. split; [reflexivity|]. simpl.
    split; [by apply (Publishing.find_exam_replaced _ _ old)|done].
  - unfold ExamRoutes.put_exam. rewrite Hold. simpl.
    eexists _, _. split; [reflexivity|]. simpl.
    split; [by apply (Publishing.find_exam_replaced _ _ old)|done].
Qed.

Lemma publish_guard_is_not_kept_witness :
  let published := (ExamRoutes.publish Demo.now DemoExams.state "e-1").1 in
  ExamRoutes.find_exam (ExamRoutes.exams published) "e-1"
  = Some (ExamRoutes.Exam.mk "e-1" "Basics" ""
            [DemoExams.pulse; DemoExams.triage] 2
            (ExamRoutes.default_settings None) (JStr "published")
            Demo.now Demo.now "system" None (Some Demo.now))
  ∧ ∃ st' e,
      ExamRoutes.put_exam (Demo.now + 1) None published "e-1"
        (Some [("questionIds", JArr []); ("status", JStr "published")])
      = (st', ExamRoutes.Sent 200 e)
      ∧ ExamRoutes.find_exam (ExamRoutes.exams st') "e-1" = Some e
      ∧ ExamRoutes.Exam.status e = JStr "published"
      ∧ ExamRoutes.Exam.publishedAt e = Some Demo.now
      ∧ ExamRoutes.Exam.questions e = []
      ∧ ExamRoutes.Exam.questionCount e = 0.
Proof.
  intros published. split; [reflexivity|].
  edestruct (publish_guard_is_not_kept (Demo.now + 1) None published "e-1")
    as (_ & _ & Hput); [reflexivity|].
  exact Hput.
Defined.

(** ** File uploads *)

Module Uploads.
Import FileRoutes.

(** What a document that passes validation holds. *)
Lemma file_validate_nil f uncast :
  validate f uncast = [] →
  File.category f ∈ categories
  ∧ (File.category f = "nurse_schedules" → File.month f ≠ None).
Proof.
  unfold validate. intros Hvalid.
  repeat (apply app_eq_nil in Hvalid as [? Hvalid]).
  repeat match goal with
         | H : UserModel.failing _ _ = [] |- _ =>
             apply Store.failing_nil in H
         end.
  split.
  - match goal with
    | H : present _ && Js.includes categories _ = true |- _ =>
        apply andb_true_iff in H as [_ H]; by apply includes_spec in H
    end.
  - intros Hschedule Hmonth.
    match goal with
    | H : match File.month f with Some _ => _ | None => _ end = true |- _ =>
        rewrite Hmonth in H;
        by rewrite bool_decide_eq_true_2 in H
    end.
Qed.

Lemma accepted_type mimetype :
  mimetype ∈ allowedTypes → getFileType mimetype ≠ "default".
Proof.
  intros Hin. apply list_elem_of_In in Hin. simpl in Hin.
  repeat (destruct Hin as [<-|Hin]; [by vm_compute|]). done.
Qed.

Lemma fileFilter_inr seen mimetype u :
  fileFilter seen mimetype = inr u → mimetype ∈ allowedTypes.
Proof.
  unfold fileFilter. destruct (_ && _); [done|].
  destruct (Js.includes allowedTypes mimetype) eqn:Hin; [|done].
  intros _. by apply includes_spec.
Qed.

End Uploads.

Module UploadHandler.
Import FileRoutes.

Section WithOrm.
Variable L : Library.
Variable castObjectId : string → option string.
Variable castNumber : string → option Z.
Variable getFullYear : Z → Z.
Variable formatFileSize : Z → string.

Lemma handler_outcome now oid stored userId file body :
  let out :=
    handler L castObjectId castNumber getFullYear formatFileSize now oid
      stored userId file body in
  let created := ∃ res, answer out = Sent res ∧ status res = 201 in
  (created →
   ∃ upload f,
     file = Some upload
     ∧ files out = stored ++ [f]
     ∧ on_disk out = true
     ∧ File._id f = oid
     ∧ File.category f ∈ ["guidelines"; "templates"; "references"]
     ∧ File.month f = None ∧ File.year f = None ∧ File.unit f = None
     ∧ File.fileType f = getFileType (mimetype upload))
  ∧ (¬ created → files out = stored ∧ on_disk out = false)
  ∧ (category body = Some SCHEDULE_CATEGORY
     ∨ category body = Some "nurse_schedules" → ¬ created).
Proof.
  intros out created. subst created out. unfold handler.
  destruct file as [upload|].
  { destruct (bool_decide (category body = Some SCHEDULE_CATEGORY)
              && (Js.falsy (month body) || Js.falsy (unit body))) eqn:Hfields.
    { simpl. split; [by intros (res & [= <-] & ?)|].
      split; [done|]. by intros _ (res & [= <-] & ?). }
    destruct (bool_decide (category body = Some SCHEDULE_CATEGORY)
              && negb (Js.includes ALLOWED_EXCEL_TYPES (mimetype upload)))
      eqn:Hexcel.
    { simpl. split; [by intros (res & [= <-] & ?)|].
      split; [done|]. by intros _ (res & [= <-] & ?). }
    match goal with
    | |- context [validate ?doc ?uncast] =>
        set (newFile := doc);
        destruct (validate newFile uncast) as [|path paths] eqn:Hvalid
    end.
    2:{ simpl. split; [by intros (res & [= <-] & ?)|].
        split; [done|]. by intros _ (res & [= <-] & ?). }
    apply Uploads.file_validate_nil in Hvalid as [Hcategory Hmonth].
    assert (File.category newFile ∈ ["guidelines"; "templates"; "references"]
            ∧ bool_decide (category body = Some SCHEDULE_CATEGORY) = false)
      as [Hplain Hschedule].
    { destruct (bool_decide (category body = Some SCHEDULE_CATEGORY))
        eqn:Hschedule.
      - apply bool_decide_eq_true in Hschedule. exfalso.
        unfold newFile in Hcategory. simpl in Hcategory.
        rewrite Hschedule in Hcategory. simpl in Hcategory.
        apply list_elem_of_In in Hcategory. simpl in Hcategory.
        intuition discriminate.
      - split; [|done].
        assert (File.month newFile = None) as Hnone
          by (unfold newFile; simpl; by rewrite ?Hschedule).
        clearbody newFile.
        apply list_elem_of_In in Hcategory.
        unfold categories in Hcategory. cbn [In] in Hcategory.
        destruct Hcategory as [H|[H|[H|[Hnurse|[]]]]];
          try (rewrite <-H; apply list_elem_of_In; simpl; tauto).
        exfalso. symmetry in Hnurse. by apply (Hmonth Hnurse). }
    assert (pre_save newFile = newFile) as Hsaved.
    { clearbody newFile. unfold pre_save.
      destruct (bool_decide (File.category newFile = "nurse_schedules"))
        eqn:Hnurse; [|done].
      apply bool_decide_eq_true in Hnurse. rewrite Hnurse in Hplain.
      apply list_elem_of_In in Hplain. simpl in Hplain.
      intuition discriminate. }
    rewrite Hsaved. simpl. split; [|split].
    - intros _. exists upload, newFile. do 4 (split; [done|]).
      split; [done|]. unfold newFile. simpl. by rewrite ?Hschedule.
    - intros Hnot. exfalso. apply Hnot. by eexists.
    - intros [Hcat|Hcat] _.
      + by rewrite Hcat, bool_decide_eq_true_2 in Hschedule.
      + unfold newFile in Hplain. simpl in Hplain. rewrite Hcat in Hplain.
        simpl in Hplain. apply list_elem_of_In in Hplain. simpl in Hplain.
        intuition discriminate. }
  simpl. split; [by intros (res & [= <-] & ?)|].
  split; [done|]. by intros _ (res & [= <-] & ?).
Qed.

End WithOrm.
End UploadHandler.

(** X30.  [POST /api/files] keeps a file exactly when it stores a
    record of it, and it never stores a nurse schedule.  A 201 means
    that one record was appended and the file is left on disk: its
    type is one the file filter allows, [getFileType] knows it, its
    size is within the limit of 50 MB, and its category is
    [guidelines], [templates] or [references], with no schedule
    metadata.  With any other answer nothing is stored and no file is
    left.  A request for the category [jadwal_perawat], which the
    router takes for a schedule but the schema does not list, or for
    [nurse_schedules], which the schema lists but the router does not
    take for one, is never answered 201. *)
Theorem upload_stores_no_schedule (L : Library)
    (castObjectId : string → option string) (castNumber : string → option Z)
    (getFullYear : Z → Z) (formatFileSize : Z → string) (now : Z)
    (oid : string) (stored : list FileRoutes.File.t)
    (userId seen : option string) (file : option FileRoutes.Upload)
    (body : FileRoutes.Fields) :
  let out :=
    FileRoutes.post L castObjectId castNumber getFullYear formatFileSize
      now oid stored userId seen file body in
  let created :=
    ∃ res, FileRoutes.answer out = FileRoutes.Sent res ∧ status res = 201 in
  (created →
   ∃ upload f,
     file = Some upload
     ∧ FileRoutes.files out = stored ++ [f]
     ∧ FileRoutes.on_disk out = true
     ∧ FileRoutes.File._id f = oid
     ∧ FileRoutes.File.category f ∈ ["guidelines"; "templates"; "references"]
     ∧ FileRoutes.File.month f = None
     ∧ FileRoutes.File.year f = None
     ∧ FileRoutes.File.unit f = None
     ∧ FileRoutes.mimetype upload ∈ FileRoutes.allowedTypes
     ∧ FileRoutes.File.fileType f
       = FileRoutes.getFileType (FileRoutes.mimetype upload)
     ∧ FileRoutes.File.fileType f ≠ "default"
     ∧ FileRoutes.bytes upload ≤ FileRoutes.fileSize)
  ∧ (¬ created →
     FileRoutes.files out = stored ∧ FileRoutes.on_disk out = false)
  ∧ (FileRoutes.category body = Some FileRoutes.SCHEDULE_CATEGORY
     ∨ FileRoutes.category body = Some "nurse_schedules" →
     ¬ created).
Proof.
  intros out created. subst created out. unfold FileRoutes.post.
  destruct file as [upload|].
  2:{ destruct (UploadHandler.handler_outcome L castObjectId castNumber
                  getFullYear formatFileSize now oid stored userId None body)
        as (Hcreated & Hnot & Hschedule).
      split; [|by split].
      intros Hc. by destruct (Hcreated Hc) as (? & ? & ? & _). }
  destruct (FileRoutes.fileFilter seen _) as [e|u] eqn:Hfilter.
  { simpl. unfold FileRoutes.on_error.
    destruct (bool_decide _).
    - split; [by intros (res & [= <-] & ?)|].
      split; [done|]. by intros _ (res & [= <-] & ?).
    - split; [by intros (res & ? & ?)|].
      split; [done|]. by intros _ (res & ? & ?). }
  apply Uploads.fileFilter_inr in Hfilter.
  destruct (FileRoutes.fileSize <? _) eqn:Hsize.
  { simpl. split; [by intros (res & [= <-] & ?)|].
    split; [done|]. by intros _ (res & [= <-] & ?). }
  apply Z.ltb_ge in Hsize.
  destruct (UploadHandler.handler_outcome L castObjectId castNumber
              getFullYear formatFileSize now oid stored userId
              (Some upload) body) as (Hcreated & Hnot & Hschedule).
  split; [|by split].
  intros Hc.
  destruct (Hcreated Hc)
    as (? & f & [= <-] & Hfiles & Hdisk & Hid & Hcat & Hm & Hy & Hu & Htype).
  exists upload, f. do 8 (split; [done|]). split; [done|].
  split; [done|]. split; [|done].
  rewrite Htype. by apply Uploads.accepted_type.
Qed.

Lemma upload_stores_no_schedule_witness :
  let plain := FileRoutes.mkFields None None None None None in
  let schedule :=
    FileRoutes.mkFields None (Some "jadwal_perawat") (Some "Januari")
      (Some "ICU") (Some "2024") in
  let out :=
    DemoFiles.post Demo.now "65b000000000000000000001" []
      (Some "65a000000000000000000002") None (Some DemoFiles.guide) plain in
  let refused :=
    DemoFiles.post Demo.now "65b000000000000000000002" []
      (Some "65a000000000000000000002") (Some "jadwal_perawat")
      (Some DemoFiles.roster) schedule in
  (∃ res, FileRoutes.answer out = FileRoutes.Sent res ∧ status res = 201)
  ∧ (∃ res, FileRoutes.answer refused = FileRoutes.Sent res
            ∧ status res = 500)
  ∧ FileRoutes.files refused = []
  ∧ FileRoutes.on_disk refused = false
  ∧ ∃ upload f,
      Some DemoFiles.guide = Some upload
      ∧ FileRoutes.files out = [] ++ [f]
      ∧ FileRoutes.on_disk out = true
      ∧ FileRoutes.File._id f = "65b000000000000000000001"
      ∧ FileRoutes.File.category f
        ∈ ["guidelines"; "templates"; "references"]
      ∧ FileRoutes.File.month f = None
      ∧ FileRoutes.File.year f = None
      ∧ FileRoutes.File.unit f = None
      ∧ FileRoutes.mimetype upload ∈ FileRoutes.allowedTypes
      ∧ FileRoutes.File.fileType f
        = FileRoutes.getFileType (FileRoutes.mimetype upload)
      ∧ FileRoutes.File.fileType f ≠ "default"
      ∧ FileRoutes.bytes upload ≤ FileRoutes.fileSize.
Proof.
  intros plain schedule out refused.
  assert (∃ res, FileRoutes.answer out = FileRoutes.Sent res
                 ∧ status res = 201) as Hcreated by (by eexists).
  split; [exact Hcreated|]. split; [by eexists|].
  split; [reflexivity|]. split; [reflexivity|].
  destruct (upload_stores_no_schedule Demo.lib Demo.castObjectId
              DemoFiles.castNumber DemoFiles.getFullYear
              DemoFiles.formatFileSize Demo.now "65b000000000000000000001"
              [] (Some "65a000000000000000000002") None
              (Some DemoFiles.guide) plain) as [Hstored _].
  exact (Hstored Hcreated).
Defined.
